(** * WhatsApp attendance system: GPS validation, anti-fraud and state control

    A shallow embedding of [src/backend/gps-validation.js] (the GPS
    validation module, the attendance state control module and the message
    handler of the server, which the file holds one after the other).

    Conventions of the embedding.
    - JavaScript numbers are exact rationals ([Q]); [Date.now()] is an
      integer number of milliseconds ([Z]) and is read once per call.
      Rounding errors of IEEE doubles are not modelled, and no field holds
      [NaN].
    - The two builtins whose results depend on the floating-point
      implementation, the trigonometry of [calculateDistance] and
      [Number.prototype.toString], are Section variables.
    - Every message of the source that is built from a template is a
      constructor carrying the interpolated values.
    - Module-level [Map]s are [gmap]s that are passed in and returned. *)

From Stdlib Require Import ZArith QArith Qabs Qround Ascii String Lia Lqa.
From stdpp Require Import base option list gmap strings.

Local Open Scope Z_scope.

(** ** JavaScript values *)

(** A field of the location object: absent, [null], or a number. *)
Inductive jsnum :=
| JUndefined
| JNull
| JNum (x : Q).

(** [!!v] for such a field: [undefined], [null] and [0] are falsy. *)
Definition truthy (v : jsnum) : bool :=
  match v with
  | JNum x => negb (Qeq_bool x 0)
  | _ => false
  end.

(** [Math.round]: the nearest integer, halves rounded up. *)
Definition Math_round (x : Q) : Z := Qfloor (x + (1 # 2)).

Definition Math_floor (x : Q) : Z := Qfloor x.

Definition Math_ceil (x : Q) : Z := Qceiling x.

Definition Qltb (x y : Q) : bool := negb (Qle_bool y x).

(** ** Configuration *)

Record Location := {
  loc_id : Z;
  loc_name : string;
  loc_lat : Q;
  loc_lng : Q;
  loc_radius : Z
}.

Definition AUTHORIZED_LOCATIONS : list Location := [
  {| loc_id := 1; loc_name := "Valle de los Ciervos";
     loc_lat := (-37.371644652229655)%Q; loc_lng := (-59.116792790280606)%Q;
     loc_radius := 100 |};
  {| loc_id := 2; loc_name := "Refugio del Valle";
     loc_lat := (-37.37247355171709)%Q; loc_lng := (-59.11563111651744)%Q;
     loc_radius := 100 |};
  {| loc_id := 3; loc_name := "Explora Tandil";
     loc_lat := (-37.33880343035198)%Q; loc_lng := (-59.131626087683635)%Q;
     loc_radius := 100 |};
  {| loc_id := 4; loc_name := "Oficina de Desarrollo (Testing)";
     loc_lat := (-34.689821911341554)%Q; loc_lng := (-58.61410910531587)%Q;
     loc_radius := 100 |}
].

Module GPS_CONFIG.
Definition MAX_AGE_MINUTES : Q := 2%Q.
Definition MIN_ACCURACY : Q := 50%Q.
End GPS_CONFIG.

Module ADVANCED_FRAUD_CONFIG.
Definition MAX_IDENTICAL_LOCATIONS : nat := 3.
Definition MIN_GPS_VARIATION : Q := 0.00001%Q.
Definition SUSPICIOUS_PRECISION_DIGITS : nat := 10.
Definition MAX_SPEED_BETWEEN_LOCATIONS : Q := 100%Q.
Definition EXPECTED_ACCURACY_RANGE : Q * Q := (5%Q, 100%Q).
Definition SUSPICIOUS_ACCURACY_VALUES : list Z := [1; 2; 3].
Definition MAX_WARNINGS_PER_USER : Z := 5.
Definition BLOCK_DURATION_MINUTES : Z := 30.
End ADVANCED_FRAUD_CONFIG.

(** ** Geofence *)

(** The object [isLocationAuthorized] returns.  Its [message] is a function
    of the other fields. *)
Inductive AuthResult :=
| Authorized (location : Location) (distance : Z)
| NotAuthorized (distance : Z) (closestLocation : Location).

(** The members of [Math] that [calculateDistance] calls. *)
Record MathLibrary := {
  Math_PI : Q;
  Math_sin : Q -> Q;
  Math_cos : Q -> Q;
  Math_sqrt : Q -> Q;
  Math_atan2 : Q -> Q -> Q
}.

(** The body of [calculateDistance], the haversine formula, over a [Math]
    library.  What follows takes the distance function as a parameter
    named [calculateDistance]; [haversine M] can stand for it whatever the
    library [M]. *)
Definition haversine (M : MathLibrary) (lat1 lng1 lat2 lng2 : Q) : Z :=
  let R := 6371%Q in
  let dLat := ((lat2 - lat1) * Math_PI M / 180)%Q in
  let dLng := ((lng2 - lng1) * Math_PI M / 180)%Q in
  let a :=
    (Math_sin M (dLat / 2) * Math_sin M (dLat / 2)
     + Math_cos M (lat1 * Math_PI M / 180) * Math_cos M (lat2 * Math_PI M / 180)
       * Math_sin M (dLng / 2) * Math_sin M (dLng / 2))%Q in
  let c := (2 * Math_atan2 M (Math_sqrt M a) (Math_sqrt M (1 - a)))%Q in
  let distance := (R * c * 1000)%Q in
  Math_round distance.

Section Geofence.

(** [calculateDistance lat1 lng1 lat2 lng2]: the haversine distance in
    metres, rounded to an integer. *)
Variable calculateDistance : Q -> Q -> Q -> Q -> Z.

Definition distanceTo (userLat userLng : Q) (location : Location) : Z :=
  calculateDistance userLat userLng (loc_lat location) (loc_lng location).

Definition covers (userLat userLng : Q) (location : Location) : bool :=
  distanceTo userLat userLng location <=? loc_radius location.

(** The first loop: return at the first zone that covers the point. *)
Fixpoint firstAuthorized (zones : list Location) (userLat userLng : Q)
  : option (Location * Z) :=
  match zones with
  | [] => None
  | location :: rest =>
      let distance := distanceTo userLat userLng location in
      if distance <=? loc_radius location
      then Some (location, distance)
      else firstAuthorized rest userLat userLng
  end.

(** One iteration of the second loop on [(minDistance, closestLocation)];
    [None] is the initial [(Infinity, null)]. *)
Definition closestStep (userLat userLng : Q)
    (acc : option (Z * Location)) (location : Location) : option (Z * Location) :=
  let distance := distanceTo userLat userLng location in
  match acc with
  | None => Some (distance, location)
  | Some (minDistance, _) =>
      if distance <? minDistance then Some (distance, location) else acc
  end.

Definition closestFrom (acc : option (Z * Location)) (zones : list Location)
    (userLat userLng : Q) : option (Z * Location) :=
  fold_left (closestStep userLat userLng) zones acc.

(** [None]: the [TypeError] of [closestLocation.name] when the list of
    zones is empty and [closestLocation] is still [null]. *)
Definition isLocationAuthorized (zones : list Location) (userLat userLng : Q)
  : option AuthResult :=
  match firstAuthorized zones userLat userLng with
  | Some (location, distance) => Some (Authorized location distance)
  | None =>
      match closestFrom None zones userLat userLng with
      | Some (minDistance, closestLocation) =>
          Some (NotAuthorized minDistance closestLocation)
      | None => None
      end
  end.

(** The accumulator of the second loop only ever holds a zone with its
    own distance, no farther than any zone seen so far. *)
Definition closestOf (userLat userLng : Q) (seen : list Location)
    (acc : option (Z * Location)) : Prop :=
  match acc with
  | None => seen = []
  | Some (d, z) =>
      z ∈ seen
      /\ d = distanceTo userLat userLng z
      /\ forall z', z' ∈ seen -> d <= distanceTo userLat userLng z'
  end.

End Geofence.

(** ** Basic GPS validation *)

(** The location object passed to the validators. *)
Record LocationData := {
  latitude : jsnum;
  longitude : jsnum;
  accuracy : jsnum;
  timestamp : jsnum
}.

(** [ToNumber] on a field.  It is only applied to values already known to
    be truthy, or to [null], which converts to [0]. *)
Definition ToNumber (v : jsnum) : Q :=
  match v with
  | JNum x => x
  | _ => 0%Q
  end.

(** The texts pushed on [reasons] and [warnings]. *)
Inductive Message :=
| MissingCoordinates
| LocationTooOld (ageMinutes : Z)
| LocationRecent (ageMinutes : Z)
| InsufficientAccuracy (accuracy : option Q)
| AccuracyAdequate (accuracy : Q)
| LocationValid (location : Location) (distance : Z)
| LocationNotAuthorized (minDistance : Z) (closestLocation : Location)
| UserBlockedRemaining (remainingMinutes : Z)
| UserBlockedNow (warnings : Z)
| FraudRejected
| SuspiciousSignals (n : nat).

Definition authMessage (r : AuthResult) : Message :=
  match r with
  | Authorized location distance => LocationValid location distance
  | NotAuthorized minDistance closestLocation =>
      LocationNotAuthorized minDistance closestLocation
  end.

(** The result of one stateless check: [{ isValid, message }]. *)
Record CheckResult := {
  chk_isValid : bool;
  chk_message : Message
}.

Definition ageMinutesOf (now : Z) (timestamp : Q) : Q :=
  ((inject_Z now - timestamp * 1000) / (1000 * 60))%Q.

Definition isLocationTimestampValid (now : Z) (timestamp : Q) : CheckResult :=
  let ageMinutes := ageMinutesOf now timestamp in
  if Qltb GPS_CONFIG.MAX_AGE_MINUTES ageMinutes
  then {| chk_isValid := false; chk_message := LocationTooOld (Math_round ageMinutes) |}
  else {| chk_isValid := true; chk_message := LocationRecent (Math_round ageMinutes) |}.

Definition isLocationAccuracyValid (accuracy : jsnum) : CheckResult :=
  if negb (truthy accuracy) || Qltb GPS_CONFIG.MIN_ACCURACY (ToNumber accuracy)
  then {| chk_isValid := false;
          chk_message := InsufficientAccuracy
                           (if truthy accuracy then Some (ToNumber accuracy) else None) |}
  else {| chk_isValid := true; chk_message := AccuracyAdequate (ToNumber accuracy) |}.

Record ValidationResults := {
  vr_isValid : bool;
  vr_reasons : list Message;
  vr_location : option Location;
  vr_distance : option Z;
  vr_warnings : list Message;
  vr_closestLocation : option Location
}.

(** [validationResults] as it stands when a check fails: only [reasons]
    and [warnings] have been touched. *)
Definition rejected (reasons warnings : list Message) : ValidationResults :=
  {| vr_isValid := false; vr_reasons := reasons; vr_location := None;
     vr_distance := None; vr_warnings := warnings; vr_closestLocation := None |}.

Definition is_undefined (v : jsnum) : bool :=
  match v with
  | JUndefined => true
  | _ => false
  end.

Section BasicValidation.

Variable calculateDistance : Q -> Q -> Q -> Q -> Z.
Variable zones : list Location.

(** Step 4 of [validateGPSLocation], reached with the warnings collected
    by steps 2 and 3. *)
Definition authorizeStep (userLat userLng : Q) (warnings : list Message)
  : option ValidationResults :=
  match isLocationAuthorized calculateDistance zones userLat userLng with
  | None => None
  | Some (NotAuthorized minDistance closestLocation as locationValidation) =>
      Some {| vr_isValid := false;
              vr_reasons := [authMessage locationValidation];
              vr_location := None;
              vr_distance := Some minDistance;
              vr_warnings := warnings;
              vr_closestLocation := Some closestLocation |}
  | Some (Authorized location distance as locationValidation) =>
      Some {| vr_isValid := true;
              vr_reasons := [authMessage locationValidation];
              vr_location := Some location;
              vr_distance := Some distance;
              vr_warnings := warnings;
              vr_closestLocation := None |}
  end.

(** Step 3, the accuracy gate, which runs only when the field is there. *)
Definition accuracyStep (locationData : LocationData) (warnings : list Message)
  : option ValidationResults :=
  let userLat := ToNumber (latitude locationData) in
  let userLng := ToNumber (longitude locationData) in
  if negb (is_undefined (accuracy locationData)) then
    let accuracyValidation := isLocationAccuracyValid (accuracy locationData) in
    if negb (chk_isValid accuracyValidation)
    then Some (rejected [chk_message accuracyValidation] warnings)
    else authorizeStep userLat userLng (warnings ++ [chk_message accuracyValidation])
  else authorizeStep userLat userLng warnings.

(** [validateGPSLocation locationData phoneNumber]; the phone number is
    only logged.  [None] is the exception of [isLocationAuthorized]. *)
Definition validateGPSLocation (now : Z) (locationData : LocationData)
  : option ValidationResults :=
  if negb (truthy (latitude locationData)) || negb (truthy (longitude locationData))
  then Some (rejected [MissingCoordinates] [])
  else if truthy (timestamp locationData) then
    let timestampValidation :=
      isLocationTimestampValid now (ToNumber (timestamp locationData)) in
    if negb (chk_isValid timestampValidation)
    then Some (rejected [chk_message timestampValidation] [])
    else accuracyStep locationData [chk_message timestampValidation]
  else accuracyStep locationData [].

End BasicValidation.

(** What step 2 of [validateGPSLocation] decides: whether the reading is
    rejected as too old, and the warnings held on reaching step 3. *)
Definition timestampStale (now : Z) (locationData : LocationData) : bool :=
  truthy (timestamp locationData)
  && negb (chk_isValid (isLocationTimestampValid now (ToNumber (timestamp locationData)))).

Definition timestampWarnings (now : Z) (locationData : LocationData) : list Message :=
  if truthy (timestamp locationData)
  then [chk_message (isLocationTimestampValid now (ToNumber (timestamp locationData)))]
  else [].

(** A coordinate that is there and equals [0]. *)
Definition isZero (v : jsnum) : bool :=
  match v with
  | JNum x => Qeq_bool x 0
  | _ => false
  end.

(** ** Anti-fraud analysis *)

Inductive Severity := LOW | MEDIUM | HIGH.

Inductive FlagType :=
| IDENTICAL_LOCATIONS
| LOW_GPS_VARIATION
| IMPOSSIBLE_SPEED
| PERFECT_COORDINATES
| EXCESSIVE_PRECISION
| ROUNDED_COORDINATES
| SUSPICIOUS_ACCURACY
| MISSING_TIMESTAMP
| ABNORMAL_ACCURACY.

(** The result of a floating-point division, which may be infinite or
    undefined when the divisor is zero. *)
Inductive jsquot :=
| Finite (x : Q)
| PlusInfinity
| MinusInfinity
| NotANumber.

Definition jsdiv (x y : Q) : jsquot :=
  if Qeq_bool y 0 then
    if Qltb 0 x then PlusInfinity
    else if Qltb x 0 then MinusInfinity
    else NotANumber
  else Finite (x / y)%Q.

(** [q > bound]. *)
Definition jsquot_gt (q : jsquot) (bound : Q) : bool :=
  match q with
  | Finite x => Qltb bound x
  | PlusInfinity => true
  | MinusInfinity | NotANumber => false
  end.

Definition jsquot_round (q : jsquot) : option Z :=
  match q with
  | Finite x => Some (Math_round x)
  | _ => None
  end.

(** The text of a flag, with the values its template interpolates. *)
Inductive FlagMessage :=
| IdenticalDetected (count : nat)
| LowVariation
| ImpossibleSpeed (speedKmH : option Z)
| TooManyZeros
| PrecisionTooHigh
| RoundedDetected
| AccuracySuspicious (accuracy : Q)
| TimestampMissing
| AccuracyOutOfRange (accuracy : Q).

Record SuspiciousFlag := {
  flag_type : FlagType;
  flag_severity : Severity;
  flag_message : FlagMessage
}.

Definition is_HIGH (f : SuspiciousFlag) : bool :=
  match flag_severity f with
  | HIGH => true
  | _ => false
  end.

Definition is_MEDIUM (f : SuspiciousFlag) : bool :=
  match flag_severity f with
  | MEDIUM => true
  | _ => false
  end.

(** An entry of [userLocationHistory]; its [accuracy] is always [null]. *)
Record HistoryEntry := {
  he_lat : Q;
  he_lng : Q;
  he_timestamp : Q
}.

Definition sameCoordinates (a b : HistoryEntry) : bool :=
  Qeq_bool (he_lat a) (he_lat b) && Qeq_bool (he_lng a) (he_lng b).

(** The loop of analysis 1, over the entries before the last one, nearest
    first. *)
Fixpoint identicalRun (lastLocation : HistoryEntry) (previous : list HistoryEntry) : nat :=
  match previous with
  | [] => O
  | prevLocation :: rest =>
      if sameCoordinates lastLocation prevLocation
      then S (identicalRun lastLocation rest)
      else O
  end.

(** The loop of analysis 2 over [recent]. *)
Fixpoint totalVariationOf (recent : list HistoryEntry) : Q :=
  match recent with
  | a :: (b :: _) as rest =>
      (Qabs (he_lat b - he_lat a) + Qabs (he_lng b - he_lng a) + totalVariationOf rest)%Q
  | _ => 0%Q
  end.

(** [history.slice(-n)]. *)
Definition lastN {A} (n : nat) (l : list A) : list A :=
  skipn (length l - n) l.

(** [history.push(entry)] followed by the [shift] that keeps [bound] entries. *)
Definition pushBounded {A} (bound : nat) (l : list A) (entry : A) : list A :=
  let l' := l ++ [entry] in
  if (bound <? length l')%nat then tail l' else l'.

(** ** String inspection of coordinates *)

Fixpoint includes (pattern s : string) : bool :=
  String.prefix pattern s ||
  match s with
  | EmptyString => false
  | String _ rest => includes pattern rest
  end.

Definition endsWith (suffix s : string) : bool :=
  (String.length suffix <=? String.length s)%nat &&
  String.eqb (String.substring (String.length s - String.length suffix)
                               (String.length suffix) s) suffix.

Fixpoint untilDot (s : string) : string :=
  match s with
  | EmptyString => EmptyString
  | String c rest => if Ascii.eqb c "."%char then EmptyString else String c (untilDot rest)
  end.

Fixpoint afterDot (s : string) : option string :=
  match s with
  | EmptyString => None
  | String c rest => if Ascii.eqb c "."%char then Some rest else afterDot rest
  end.

(** [(s.split('.')[1] || '').length]. *)
Definition decimalsOf (s : string) : nat :=
  match afterDot s with
  | Some rest => String.length (untilDot rest)
  | None => O
  end.

Section FraudAnalysis.

Variable calculateDistance : Q -> Q -> Q -> Q -> Z.

(** [x.toString()] on a number. *)
Variable numberToString : Q -> string.

Definition identicalFlags (history : list HistoryEntry) : list SuspiciousFlag :=
  if (2 <=? length history)%nat then
    match rev history with
    | lastLocation :: previous =>
        let identicalCount := identicalRun lastLocation previous in
        if (ADVANCED_FRAUD_CONFIG.MAX_IDENTICAL_LOCATIONS <=? identicalCount)%nat
        then [{| flag_type := IDENTICAL_LOCATIONS; flag_severity := HIGH;
                 flag_message := IdenticalDetected (identicalCount + 1) |}]
        else []
    | [] => []
    end
  else [].

Definition variationFlags (history : list HistoryEntry) : list SuspiciousFlag :=
  if (3 <=? length history)%nat then
    let recent := lastN 3 history in
    let totalVariation := totalVariationOf recent in
    if Qltb totalVariation ADVANCED_FRAUD_CONFIG.MIN_GPS_VARIATION
    then [{| flag_type := LOW_GPS_VARIATION; flag_severity := MEDIUM;
             flag_message := LowVariation |}]
    else []
  else [].

Definition speedFlags (history : list HistoryEntry) : list SuspiciousFlag :=
  if (2 <=? length history)%nat then
    match rev history with
    | current :: previous :: _ =>
        let distance :=
          calculateDistance (he_lat previous) (he_lng previous)
                            (he_lat current) (he_lng current) in
        let timeDiff := ((he_timestamp current - he_timestamp previous) / 1000)%Q in
        let speedKmH := jsdiv (inject_Z distance / 1000)%Q (timeDiff / 3600)%Q in
        if jsquot_gt speedKmH ADVANCED_FRAUD_CONFIG.MAX_SPEED_BETWEEN_LOCATIONS
           && (1000 <? distance)
        then [{| flag_type := IMPOSSIBLE_SPEED; flag_severity := HIGH;
                 flag_message := ImpossibleSpeed (jsquot_round speedKmH) |}]
        else []
    | _ => []
    end
  else [].

(** [analyzeLocationHistory]: the flags, and the history map with the
    current reading pushed on the user's list.  The [riskLevel] it also
    returns is never read. *)
Definition analyzeLocationHistory (now : Z) (phoneNumber : string)
    (currentLat currentLng : Q) (timestamp : jsnum)
    (userLocationHistory : gmap string (list HistoryEntry))
  : list SuspiciousFlag * gmap string (list HistoryEntry) :=
  let entry := {| he_lat := currentLat; he_lng := currentLng;
                  he_timestamp := if truthy timestamp then ToNumber timestamp
                                  else inject_Z now |} in
  let history := pushBounded 10 (default [] (userLocationHistory !! phoneNumber)) entry in
  (identicalFlags history ++ variationFlags history ++ speedFlags history,
   <[phoneNumber := history]> userLocationHistory).

Definition detectPerfectCoordinates (lat lng : Q) : list SuspiciousFlag :=
  let latStr := numberToString lat in
  let lngStr := numberToString lng in
  (if includes "000" latStr || includes "000" lngStr
   then [{| flag_type := PERFECT_COORDINATES; flag_severity := HIGH;
            flag_message := TooManyZeros |}]
   else [])
  ++
  (if (ADVANCED_FRAUD_CONFIG.SUSPICIOUS_PRECISION_DIGITS <? decimalsOf latStr)%nat
      || (ADVANCED_FRAUD_CONFIG.SUSPICIOUS_PRECISION_DIGITS <? decimalsOf lngStr)%nat
   then [{| flag_type := EXCESSIVE_PRECISION; flag_severity := MEDIUM;
            flag_message := PrecisionTooHigh |}]
   else [])
  ++
  (if endsWith ".000000" latStr || endsWith ".000000" lngStr
   then [{| flag_type := ROUNDED_COORDINATES; flag_severity := HIGH;
            flag_message := RoundedDetected |}]
   else []).

Definition validateGPSMetadata (accuracy timestamp : jsnum) : list SuspiciousFlag :=
  (if truthy accuracy
      && bool_decide (Math_floor (ToNumber accuracy)
                        ∈ ADVANCED_FRAUD_CONFIG.SUSPICIOUS_ACCURACY_VALUES)
   then [{| flag_type := SUSPICIOUS_ACCURACY; flag_severity := MEDIUM;
            flag_message := AccuracySuspicious (ToNumber accuracy) |}]
   else [])
  ++
  (if negb (truthy timestamp)
   then [{| flag_type := MISSING_TIMESTAMP; flag_severity := HIGH;
            flag_message := TimestampMissing |}]
   else [])
  ++
  (if truthy accuracy
      && (Qltb (ToNumber accuracy) (fst ADVANCED_FRAUD_CONFIG.EXPECTED_ACCURACY_RANGE)
          || Qltb (snd ADVANCED_FRAUD_CONFIG.EXPECTED_ACCURACY_RANGE) (ToNumber accuracy))
   then [{| flag_type := ABNORMAL_ACCURACY; flag_severity := LOW;
            flag_message := AccuracyOutOfRange (ToNumber accuracy) |}]
   else []).

End FraudAnalysis.

(** The history of a user once a reading has been pushed on it. *)
Definition historyWith (now : Z) (locationData : LocationData) (phoneNumber : string)
    (history : gmap string (list HistoryEntry)) : list HistoryEntry :=
  pushBounded 10 (default [] (history !! phoneNumber))
    {| he_lat := ToNumber (latitude locationData);
       he_lng := ToNumber (longitude locationData);
       he_timestamp := if truthy (timestamp locationData)
                       then ToNumber (timestamp locationData)
                       else inject_Z now |}.

(** ** Suspicious users: warnings and temporary blocks *)

Record Incident := {
  inc_timestamp : Z;
  inc_flags : list SuspiciousFlag
}.

(** An entry of [suspiciousActivityLog]. *)
Record UserLog := {
  warnings : Z;
  lastWarning : option Z;
  isBlocked : bool;
  blockUntil : option Z;
  incidents : list Incident
}.

Definition newUserLog : UserLog :=
  {| warnings := 0; lastWarning := None; isBlocked := false;
     blockUntil := None; incidents := [] |}.

(** What [manageSuspiciousUser] returns. *)
Record UserStatus := {
  us_isBlocked : bool;
  us_warnings : option Z;
  us_message : option Message
}.

(** [blockUntil] in a comparison: [null] converts to [0]. *)
Definition blockUntilMs (userLog : UserLog) : Z := default 0 (blockUntil userLog).

Definition blockDurationMs : Z :=
  ADVANCED_FRAUD_CONFIG.BLOCK_DURATION_MINUTES * 60 * 1000.

(** The unblocking branch: the block has expired. *)
Definition unblockIfExpired (now : Z) (userLog : UserLog) : UserLog :=
  if isBlocked userLog && (blockUntilMs userLog <=? now)
  then {| warnings := 0; lastWarning := lastWarning userLog; isBlocked := false;
          blockUntil := None; incidents := incidents userLog |}
  else userLog.

(** The entry of a user, created on first use. *)
Definition userLogOf (phoneNumber : string) (suspiciousActivityLog : gmap string UserLog)
  : UserLog :=
  default newUserLog (suspiciousActivityLog !! phoneNumber).

(** The first test: blocked, and the block has not expired. *)
Definition activelyBlocked (now : Z) (userLog : UserLog) : bool :=
  isBlocked userLog && (now <? blockUntilMs userLog).

Definition remainingMinutesOf (now : Z) (userLog : UserLog) : Z :=
  Math_ceil (inject_Z (blockUntilMs userLog - now) / (1000 * 60))%Q.

Definition manageSuspiciousUser (now : Z) (phoneNumber : string)
    (suspiciousFlags : list SuspiciousFlag)
    (suspiciousActivityLog : gmap string UserLog)
  : UserStatus * gmap string UserLog :=
  let userLog := userLogOf phoneNumber suspiciousActivityLog in
  if activelyBlocked now userLog then
    let remainingMinutes := remainingMinutesOf now userLog in
    ({| us_isBlocked := true; us_warnings := None;
        us_message := Some (UserBlockedRemaining remainingMinutes) |},
     <[phoneNumber := userLog]> suspiciousActivityLog)
  else
    let userLog := unblockIfExpired now userLog in
    let highSeverityFlags := filter (fun f => is_HIGH f = true) suspiciousFlags in
    if (0 <? length highSeverityFlags)%nat then
      let warnings' := warnings userLog + Z.of_nat (length highSeverityFlags) in
      let incidents' :=
        pushBounded 20 (incidents userLog)
                    {| inc_timestamp := now; inc_flags := suspiciousFlags |} in
      if ADVANCED_FRAUD_CONFIG.MAX_WARNINGS_PER_USER <=? warnings' then
        ({| us_isBlocked := true; us_warnings := None;
            us_message := Some (UserBlockedNow warnings') |},
         <[phoneNumber := {| warnings := warnings'; lastWarning := Some now;
                             isBlocked := true;
                             blockUntil := Some (now + blockDurationMs);
                             incidents := incidents' |}]> suspiciousActivityLog)
      else
        ({| us_isBlocked := false; us_warnings := Some warnings'; us_message := None |},
         <[phoneNumber := {| warnings := warnings'; lastWarning := Some now;
                             isBlocked := isBlocked userLog;
                             blockUntil := blockUntil userLog;
                             incidents := incidents' |}]> suspiciousActivityLog)
    else
      ({| us_isBlocked := false; us_warnings := Some (warnings userLog);
          us_message := None |},
       <[phoneNumber := userLog]> suspiciousActivityLog).

(** ** Advanced validation *)

Inductive FraudRisk := Risk_LOW | Risk_MEDIUM | Risk_HIGH | Risk_BLOCKED.

Record AdvancedResults := {
  ar_isValid : bool;
  ar_reasons : list Message;
  ar_warnings : list Message;
  ar_suspiciousFlags : list SuspiciousFlag;
  ar_fraudRisk : FraudRisk;
  ar_location : option Location;
  ar_distance : option Z
}.

(** The two caches of the anti-fraud module. *)
Record FraudStore := {
  userLocationHistory : gmap string (list HistoryEntry);
  suspiciousActivityLog : gmap string UserLog
}.

(** Step 6: the risk of the flags of this evaluation. *)
Definition evaluateFraudRisk (suspiciousFlags : list SuspiciousFlag) : FraudRisk :=
  let highRiskFlags := filter (fun f => is_HIGH f = true) suspiciousFlags in
  let mediumRiskFlags := filter (fun f => is_MEDIUM f = true) suspiciousFlags in
  if (2 <=? length highRiskFlags)%nat then Risk_HIGH
  else if (1 <=? length highRiskFlags)%nat || (2 <=? length mediumRiskFlags)%nat
       then Risk_MEDIUM
       else Risk_LOW.

Definition is_rejecting (risk : FraudRisk) : bool :=
  match risk with
  | Risk_HIGH | Risk_BLOCKED => true
  | _ => false
  end.

(** [validationResults] as returned by the early exits: nothing but the
    reasons, the flags and the risk has been set. *)
Definition earlyExit (reasons : list Message) (suspiciousFlags : list SuspiciousFlag)
    (fraudRisk : FraudRisk) : AdvancedResults :=
  {| ar_isValid := false; ar_reasons := reasons; ar_warnings := [];
     ar_suspiciousFlags := suspiciousFlags; ar_fraudRisk := fraudRisk;
     ar_location := None; ar_distance := None |}.

Section AdvancedValidation.

Variable calculateDistance : Q -> Q -> Q -> Q -> Z.
Variable numberToString : Q -> string.
Variable zones : list Location.

(** Steps 8 to 11, once the anti-fraud filters have run. *)
Definition combineResults (now : Z) (locationData : LocationData)
    (suspiciousFlags : list SuspiciousFlag) (fraudRisk : FraudRisk)
  : option AdvancedResults :=
  match validateGPSLocation calculateDistance zones now locationData with
  | None => None
  | Some originalValidation =>
      Some {|
        ar_isValid := vr_isValid originalValidation && negb (is_rejecting fraudRisk);
        ar_reasons :=
          vr_reasons originalValidation
          ++ (match fraudRisk with Risk_HIGH => [FraudRejected] | _ => [] end);
        ar_warnings :=
          vr_warnings originalValidation
          ++ (if (0 <? length suspiciousFlags)%nat
              then [SuspiciousSignals (length suspiciousFlags)] else []);
        ar_suspiciousFlags := suspiciousFlags;
        ar_fraudRisk := fraudRisk;
        ar_location := vr_location originalValidation;
        ar_distance := vr_distance originalValidation
      |}
  end.

(** [validateGPSLocationAdvanced locationData phoneNumber].  The result is
    [None] when [validateGPSLocation] throws; the stores returned are the
    ones the call leaves behind in either case. *)
Definition validateGPSLocationAdvanced (now : Z) (locationData : LocationData)
    (phoneNumber : string) (store : FraudStore)
  : option AdvancedResults * FraudStore :=
  (* 1 *)
  let '(userStatus, log1) :=
    manageSuspiciousUser now phoneNumber [] (suspiciousActivityLog store) in
  if us_isBlocked userStatus then
    (Some (earlyExit (option_list (us_message userStatus)) [] Risk_BLOCKED),
     {| userLocationHistory := userLocationHistory store;
        suspiciousActivityLog := log1 |})
  (* 2 *)
  else if negb (truthy (latitude locationData)) || negb (truthy (longitude locationData))
  then
    (Some (earlyExit [MissingCoordinates] [] Risk_LOW),
     {| userLocationHistory := userLocationHistory store;
        suspiciousActivityLog := log1 |})
  else
    let userLat := ToNumber (latitude locationData) in
    let userLng := ToNumber (longitude locationData) in
    (* 3 *)
    let perfectCoordFlags := detectPerfectCoordinates numberToString userLat userLng in
    (* 4 *)
    let metadataFlags :=
      validateGPSMetadata (accuracy locationData) (timestamp locationData) in
    (* 5 *)
    let '(historyFlags, history1) :=
      analyzeLocationHistory calculateDistance now phoneNumber userLat userLng
                             (timestamp locationData) (userLocationHistory store) in
    let suspiciousFlags := perfectCoordFlags ++ metadataFlags ++ historyFlags in
    (* 6 *)
    let fraudRisk := evaluateFraudRisk suspiciousFlags in
    (* 7 *)
    match fraudRisk with
    | Risk_HIGH =>
        let '(userManagement, log2) :=
          manageSuspiciousUser now phoneNumber suspiciousFlags log1 in
        if us_isBlocked userManagement then
          (Some (earlyExit (option_list (us_message userManagement))
                           suspiciousFlags Risk_BLOCKED),
           {| userLocationHistory := history1; suspiciousActivityLog := log2 |})
        else
          (combineResults now locationData suspiciousFlags fraudRisk,
           {| userLocationHistory := history1; suspiciousActivityLog := log2 |})
    | _ =>
        (combineResults now locationData suspiciousFlags fraudRisk,
         {| userLocationHistory := history1; suspiciousActivityLog := log1 |})
    end.

(** The flags steps 3 to 5 collect for a reading with coordinates, and the
    entry step 5 pushes on the history of the user. *)
Definition evaluationFlags (now : Z) (locationData : LocationData)
    (phoneNumber : string) (store : FraudStore) : list SuspiciousFlag :=
  let userLat := ToNumber (latitude locationData) in
  let userLng := ToNumber (longitude locationData) in
  detectPerfectCoordinates numberToString userLat userLng
  ++ validateGPSMetadata (accuracy locationData) (timestamp locationData)
  ++ fst (analyzeLocationHistory calculateDistance now phoneNumber userLat userLng
            (timestamp locationData) (userLocationHistory store)).

End AdvancedValidation.

(** ** Attendance records *)

Inductive ActionType := entrada | salida.

Inductive ValidationStatus := VALID | INVALID.

(** A row of the table [attendance_records]. *)
Record AttendanceRecord := {
  phone_number : string;
  action_type : ActionType;
  rec_latitude : jsnum;
  rec_longitude : jsnum;
  location_name : option string;
  distance_from_point : option Z;
  validation_status : ValidationStatus;
  rec_timestamp : Z;
  rec_accuracy : jsnum;
  gps_timestamp : option Q
}.

Definition ActionType_eqb (a b : ActionType) : bool :=
  match a, b with
  | entrada, entrada | salida, salida => true
  | _, _ => false
  end.

Definition is_VALID (r : AttendanceRecord) : bool :=
  match validation_status r with
  | VALID => true
  | INVALID => false
  end.

(** The clock: milliseconds of local time. *)
Definition hourOf (now : Z) : Z := (now / 3600000) mod 24.

Definition dayOf (now : Z) : Z := now / 86400000.

(** What one message handling sees of the outside: the clock, and whether
    each kind of access to the record store succeeds. *)
Record Env := {
  env_now : Z;
  db_last_ok : bool;
  db_today_ok : bool;
  db_insert_ok : bool
}.

(** [phone_number LIKE '%phoneNumber%']. *)
Definition phoneMatches (phoneNumber : string) (r : AttendanceRecord) : bool :=
  includes phoneNumber (phone_number r).

(** [ORDER BY timestamp DESC LIMIT 1]: among equal timestamps the row
    inserted last is taken. *)
Definition latestRecord (rows : list AttendanceRecord) : option AttendanceRecord :=
  fold_left (fun best r =>
               match best with
               | None => Some r
               | Some b => if rec_timestamp b <=? rec_timestamp r then Some r else best
               end) rows None.

Definition getLastAttendanceRecord (env : Env) (table : list AttendanceRecord)
    (phoneNumber : string) : option AttendanceRecord :=
  if db_last_ok env
  then latestRecord (filter (fun r => phoneMatches phoneNumber r = true) table)
  else None.

(** The rows come in insertion order, which is the order of their
    timestamps. *)
Definition getTodayAttendanceRecords (env : Env) (table : list AttendanceRecord)
    (phoneNumber : string) : list AttendanceRecord :=
  if db_today_ok env
  then filter (fun r => (phoneMatches phoneNumber r
                         && (dayOf (rec_timestamp r) =? dayOf (env_now env))) = true) table
  else [].

(** [saveAttendanceRecord]: a failed insert is logged and nothing else. *)
Definition saveAttendanceRecord (env : Env) (phoneNumber : string) (action : ActionType)
    (locationData : LocationData) (validationResult : AdvancedResults)
    (table : list AttendanceRecord) : list AttendanceRecord :=
  if db_insert_ok env then
    table ++ [{|
      phone_number := phoneNumber;
      action_type := action;
      rec_latitude := latitude locationData;
      rec_longitude := longitude locationData;
      location_name :=
        if ar_isValid validationResult
        then loc_name <$> ar_location validationResult else None;
      distance_from_point := ar_distance validationResult;
      validation_status := if ar_isValid validationResult then VALID else INVALID;
      rec_timestamp := env_now env;
      rec_accuracy := accuracy locationData;
      gps_timestamp :=
        if truthy (timestamp locationData)
        then Some (ToNumber (timestamp locationData) * 1000)%Q else None
    |}]
  else table.

(** ** Employee sessions and state *)

Module STATE_CONTROL_CONFIG.
Definition WORK_DAY_START : Z := 6.
Definition WORK_DAY_END : Z := 22.
Definition MAX_WORK_HOURS : Q := 12%Q.
Definition MISSING_EXIT_THRESHOLD : Q := 2%Q.
Definition MAX_ENTRIES_PER_DAY : nat := 3.
Definition MIN_TIME_BETWEEN_ACTIONS : Q := 5%Q.
Definition STATE_CACHE_DURATION : Z := 60.
End STATE_CONTROL_CONFIG.

(** [s.replace(pattern, '')]: the first occurrence is removed. *)
Fixpoint removeFirst (pattern s : string) : string :=
  if String.prefix pattern s
  then String.substring (String.length pattern)
                        (String.length s - String.length pattern) s
  else match s with
       | EmptyString => EmptyString
       | String c rest => String c (removeFirst pattern rest)
       end.

Definition extractPhoneNumber (whatsappId : string) : string :=
  removeFirst "@s.whatsapp.net" (removeFirst "@c.us" whatsappId).

(** An entry of [employeeSessions]; [displayPhone] is the phone number
    formatted for display and is left out. *)
Record EmployeeSession := {
  phoneNumber : string;
  whatsappId : string;
  firstContact : Z;
  lastActivity : Z;
  messageCount : Z;
  pendingAction : option ActionType;
  pendingActionTime : option Z
}.

Inductive Status := OUT | IN.

Inductive StateWarning :=
| PendingActionWarning (action : ActionType) (ageMinutes : Z)
| MissingExitWarning (lastEntry : Z)
| ExcessiveWorkWarning (hours : Z)
| MinTimeWarning.

(** [w.includes('minutos desde última acción')]: only the text of
    [MinTimeWarning] holds these words. *)
Definition mentionsMinTime (w : StateWarning) : bool :=
  match w with
  | MinTimeWarning => true
  | _ => false
  end.

(** The state object, without the display fields it copies from the
    session and without its reference to the session. *)
Record EmployeeState := {
  st_phoneNumber : string;
  currentStatus : Status;
  lastAction : option ActionType;
  lastActionTime : option Z;
  todayEntries : nat;
  todayExits : nat;
  workingHours : Q;
  canEnter : bool;
  canExit : bool;
  st_warnings : list StateWarning;
  missingExit : bool;
  isWorkingHours : bool;
  cacheTime : Z;
  st_pendingAction : option ActionType
}.

(** The two maps of the state control module. *)
Record StateControl := {
  employeeStates : gmap string EmployeeState;
  employeeSessions : gmap string EmployeeSession
}.

Definition getOrCreateEmployeeSession (now : Z) (wid : string)
    (sessions : gmap string EmployeeSession)
  : EmployeeSession * gmap string EmployeeSession :=
  let phone := extractPhoneNumber wid in
  let session :=
    match sessions !! phone with
    | None =>
        {| phoneNumber := phone; whatsappId := wid;
           firstContact := now; lastActivity := now; messageCount := 0;
           pendingAction := None; pendingActionTime := None |}
    | Some session =>
        {| phoneNumber := phoneNumber session;
           whatsappId := whatsappId session;
           firstContact := firstContact session;
           lastActivity := now;
           messageCount := messageCount session + 1;
           pendingAction := pendingAction session;
           pendingActionTime := pendingActionTime session |}
    end in
  (session, <[phone := session]> sessions).

Definition cacheKey (phoneNumber : string) : string := "state_" +:+ phoneNumber.

(** The session with [pendingAction] and [pendingActionTime] set to
    [null]. *)
Definition withoutPending (session : EmployeeSession) : EmployeeSession :=
  {| phoneNumber := phoneNumber session;
     whatsappId := whatsappId session;
     firstContact := firstContact session;
     lastActivity := lastActivity session;
     messageCount := messageCount session;
     pendingAction := None;
     pendingActionTime := None |}.

(** The part of [getEmployeeCurrentState] that reads the pending action of
    the session: the pending action the state shows, the warning pushed for
    it, and the session with an expired pending action cleared. *)
Definition readPendingAction (now : Z) (session : EmployeeSession)
  : option ActionType * list StateWarning * EmployeeSession :=
  match pendingAction session, pendingActionTime session with
  | Some action, Some since =>
      if since =? 0 then (None, [], session)
      else
        let pendingAge := (inject_Z (now - since) / (1000 * 60))%Q in
        if Qltb pendingAge 10
        then (Some action, [PendingActionWarning action (Math_round pendingAge)], session)
        else (None, [], withoutPending session)
  | _, _ => (None, [], session)
  end.

(** The part that reads the last record: status, last action and its time,
    hours worked, the missing-exit mark and the warnings pushed. *)
Definition readLastRecord (now : Z) (lastRecord : option AttendanceRecord)
  : Status * option ActionType * option Z * Q * bool * list StateWarning :=
  match lastRecord with
  | Some r =>
      if is_VALID r then
        let timeSinceLastAction := (inject_Z (now - rec_timestamp r) / (1000 * 60))%Q in
        let minTime :=
          if Qltb timeSinceLastAction STATE_CONTROL_CONFIG.MIN_TIME_BETWEEN_ACTIONS
          then [MinTimeWarning] else [] in
        match action_type r with
        | entrada =>
            let hours := (timeSinceLastAction / 60)%Q in
            let missing :=
              (STATE_CONTROL_CONFIG.WORK_DAY_END <? hourOf now)
              && Qltb (STATE_CONTROL_CONFIG.MISSING_EXIT_THRESHOLD * 60)%Q
                      timeSinceLastAction in
            (IN, Some entrada, Some (rec_timestamp r), hours, missing,
             (if missing then [MissingExitWarning (rec_timestamp r)] else [])
             ++ (if Qltb STATE_CONTROL_CONFIG.MAX_WORK_HOURS hours
                 then [ExcessiveWorkWarning (Math_round hours)] else [])
             ++ minTime)
        | salida =>
            (OUT, Some salida, Some (rec_timestamp r), 0%Q, false, minTime)
        end
      else (OUT, None, None, 0%Q, false, [])
  | None => (OUT, None, None, 0%Q, false, [])
  end.

Definition is_OUT (s : Status) : bool :=
  match s with
  | OUT => true
  | IN => false
  end.

Definition isAction (a : ActionType) (r : AttendanceRecord) : bool :=
  ActionType_eqb (action_type r) a.

(** The recalculation of [getEmployeeCurrentState], from the session and
    the two query results. *)
Definition computeState (now : Z) (session : EmployeeSession)
    (lastRecord : option AttendanceRecord) (todayRecords : list AttendanceRecord)
  : EmployeeState * EmployeeSession :=
  let currentHour := hourOf now in
  let validEntries :=
    filter (fun r => (isAction entrada r && is_VALID r) = true) todayRecords in
  let validExits :=
    filter (fun r => (isAction salida r && is_VALID r) = true) todayRecords in
  let working :=
    (STATE_CONTROL_CONFIG.WORK_DAY_START <=? currentHour)
    && (currentHour <=? STATE_CONTROL_CONFIG.WORK_DAY_END) in
  let '(pending, pendingWarnings, session') := readPendingAction now session in
  let '(status, action, actionTime, hours, missing, recordWarnings) :=
    readLastRecord now lastRecord in
  ({| st_phoneNumber := phoneNumber session;
      currentStatus := status;
      lastAction := action;
      lastActionTime := actionTime;
      todayEntries := length validEntries;
      todayExits := length validExits;
      workingHours := hours;
      canEnter := is_OUT status
                  && (length validEntries <? STATE_CONTROL_CONFIG.MAX_ENTRIES_PER_DAY)%nat
                  && working
                  && negb (bool_decide (is_Some pending));
      canExit := negb (is_OUT status) && negb (bool_decide (is_Some pending));
      st_warnings := pendingWarnings ++ recordWarnings;
      missingExit := missing;
      isWorkingHours := working;
      cacheTime := now;
      st_pendingAction := pending |},
   session').

Definition cacheDurationMs : Z := STATE_CONTROL_CONFIG.STATE_CACHE_DURATION * 60 * 1000.

(** [getEmployeeCurrentState whatsappId forceRefresh]. *)
Definition getEmployeeCurrentState (env : Env) (table : list AttendanceRecord)
    (wid : string) (forceRefresh : bool) (sc : StateControl)
  : EmployeeState * StateControl :=
  let now := env_now env in
  let '(session, sessions1) := getOrCreateEmployeeSession now wid (employeeSessions sc) in
  let phone := phoneNumber session in
  let recalculate :=
    let lastRecord := getLastAttendanceRecord env table phone in
    let todayRecords := getTodayAttendanceRecords env table phone in
    let '(state, session') := computeState now session lastRecord todayRecords in
    (state,
     {| employeeStates := <[cacheKey phone := state]> (employeeStates sc);
        employeeSessions := <[extractPhoneNumber wid := session']> sessions1 |}) in
  match employeeStates sc !! cacheKey phone with
  | Some cached =>
      if negb forceRefresh
         && negb (cacheTime cached =? 0)
         && (now - cacheTime cached <? cacheDurationMs)
      then (cached, {| employeeStates := employeeStates sc; employeeSessions := sessions1 |})
      else recalculate
  | None => recalculate
  end.

(** [setPendingAction] and [clearPendingAction] of the state control
    module. *)
Definition setPendingAction (now : Z) (wid : string) (action : ActionType)
    (sc : StateControl) : StateControl :=
  let '(session, sessions1) := getOrCreateEmployeeSession now wid (employeeSessions sc) in
  let phone := phoneNumber session in
  {| employeeStates := delete (cacheKey phone) (employeeStates sc);
     employeeSessions :=
       <[extractPhoneNumber wid :=
           {| phoneNumber := phoneNumber session;
              whatsappId := whatsappId session;
              firstContact := firstContact session;
              lastActivity := lastActivity session;
              messageCount := messageCount session;
              pendingAction := Some action;
              pendingActionTime := Some now |}]> sessions1 |}.

Definition clearPendingAction (now : Z) (wid : string) (sc : StateControl)
  : option ActionType * StateControl :=
  let '(session, sessions1) := getOrCreateEmployeeSession now wid (employeeSessions sc) in
  let phone := phoneNumber session in
  (pendingAction session,
   {| employeeStates := delete (cacheKey phone) (employeeStates sc);
      employeeSessions :=
        <[extractPhoneNumber wid := withoutPending session]> sessions1 |}).

(** ** Legality of an attendance action *)

Inductive Reason :=
| NoReason
| PendingConflict (pending : ActionType)
| OutsideWorkingHours
| EntryAlreadyActive (since : option Z)
| DailyEntryLimit
| MinTimeNotElapsed
| EntryAllowed
| NoEntryRegistered
| ExitAlreadyRegistered (lastExit : Z)
| ExitAllowed (workedHours : option Q).

Inductive Suggestion :=
| SendLocationFor (pending : ActionType)
| SendCancel
| TryDuringWorkingHours
| RegisterExitFirst
| ContactSupervisorAboutMissedExit
| ContactSupervisorForMoreEntries
| WaitAndRetry
| RegisterEntryFirst
| NewEntryFirst.

Record Validation := {
  isAllowed : bool;
  reason : Reason;
  employeeState : EmployeeState;
  suggestions : list Suggestion
}.

Definition hasMinTimeWarning (state : EmployeeState) : bool :=
  existsb mentionsMinTime (st_warnings state).

Definition denied (state : EmployeeState) (r : Reason) (s : list Suggestion) : Validation :=
  {| isAllowed := false; reason := r; employeeState := state; suggestions := s |}.

Definition allowed (state : EmployeeState) (r : Reason) : Validation :=
  {| isAllowed := true; reason := r; employeeState := state; suggestions := [] |}.

(** The rules for [entrada]. *)
Definition entryRules (state : EmployeeState) : Validation :=
  if negb (isWorkingHours state) then
    denied state OutsideWorkingHours [TryDuringWorkingHours]
  else if negb (is_OUT (currentStatus state)) then
    denied state (EntryAlreadyActive (lastActionTime state))
           [RegisterExitFirst; ContactSupervisorAboutMissedExit]
  else if (STATE_CONTROL_CONFIG.MAX_ENTRIES_PER_DAY <=? todayEntries state)%nat then
    denied state DailyEntryLimit [ContactSupervisorForMoreEntries]
  else if hasMinTimeWarning state then
    denied state MinTimeNotElapsed [WaitAndRetry]
  else allowed state EntryAllowed.

(** The rules for [salida]; [None] is the [TypeError] of
    [employeeState.lastActionTime.toLocaleTimeString] on [null]. *)
Definition exitRules (state : EmployeeState) : option Validation :=
  if is_OUT (currentStatus state) then
    if (todayExits state =? 0)%nat then
      Some (denied state NoEntryRegistered [RegisterEntryFirst])
    else
      match lastActionTime state with
      | Some lastExit => Some (denied state (ExitAlreadyRegistered lastExit) [NewEntryFirst])
      | None => None
      end
  else if hasMinTimeWarning state then
    Some (denied state MinTimeNotElapsed [WaitAndRetry])
  else
    Some (allowed state
            (ExitAllowed (if Qltb 0 (workingHours state)
                          then Some (workingHours state) else None))).

(** The decision of [validateAttendanceAction] on a computed state. *)
Definition actionRules (state : EmployeeState) (requestedAction : ActionType)
  : option Validation :=
  match requestedAction with
  | entrada => Some (entryRules state)
  | salida => exitRules state
  end.

Definition decideAction (state : EmployeeState) (requestedAction : ActionType)
  : option Validation :=
  match st_pendingAction state with
  | Some pending =>
      if negb (ActionType_eqb pending requestedAction)
      then Some (denied state (PendingConflict pending) [SendLocationFor pending; SendCancel])
      else actionRules state requestedAction
  | None => actionRules state requestedAction
  end.

(** [validateAttendanceAction whatsappId requestedAction]: the state is
    recomputed ([forceRefresh] is [true]) and then judged. *)
Definition validateAttendanceAction (env : Env) (table : list AttendanceRecord)
    (wid : string) (requestedAction : ActionType) (sc : StateControl)
  : option Validation * StateControl :=
  let '(state, sc') := getEmployeeCurrentState env table wid true sc in
  (decideAction state requestedAction, sc').

(** ** The message handler of the server *)

Definition lowerChar (c : ascii) : ascii :=
  let n := nat_of_ascii c in
  if ((65 <=? n) && (n <=? 90))%nat then ascii_of_nat (n + 32) else c.

Fixpoint toLowerCase (s : string) : string :=
  match s with
  | EmptyString => EmptyString
  | String c rest => String (lowerChar c) (toLowerCase rest)
  end.

Definition isSpace (c : ascii) : bool :=
  let n := nat_of_ascii c in
  ((9 <=? n) && (n <=? 13))%nat || (n =? 32)%nat.

Fixpoint trimStart (s : string) : string :=
  match s with
  | String c rest => if isSpace c then trimStart rest else s
  | EmptyString => EmptyString
  end.

Fixpoint stringRev (acc s : string) : string :=
  match s with
  | EmptyString => acc
  | String c rest => stringRev (String c acc) rest
  end.

Definition trim (s : string) : string :=
  stringRev EmptyString (trimStart (stringRev EmptyString (trimStart s))).

Inductive Command :=
| CmdEntrada
| CmdSalida
| CmdCancelar
| CmdAyuda
| CmdEstado
| CmdUbicaciones
| CmdSaludo
| CmdOther.

(** The chain of comparisons on [message.body.toLowerCase().trim()]. *)
Definition parseCommand (body : string) : Command :=
  let messageBody := trim (toLowerCase body) in
  if String.eqb messageBody "/entrada" || String.eqb messageBody "entrada" then CmdEntrada
  else if String.eqb messageBody "/salida" || String.eqb messageBody "salida" then CmdSalida
  else if String.eqb messageBody "cancelar" || String.eqb messageBody "/cancelar"
       then CmdCancelar
  else if String.eqb messageBody "/ayuda" || String.eqb messageBody "ayuda" then CmdAyuda
  else if String.eqb messageBody "/estado" || String.eqb messageBody "estado" then CmdEstado
  else if String.eqb messageBody "/ubicaciones" || String.eqb messageBody "ubicaciones"
       then CmdUbicaciones
  else if includes "hola" messageBody || includes "buenos dias" messageBody
          || includes "buenas tardes" messageBody then CmdSaludo
  else CmdOther.

(** An incoming message. *)
Record IncomingMessage := {
  msg_from : string;
  msg_body : string;
  msg_location : option LocationData
}.

(** The reply the handler sends. *)
Inductive Response :=
| StateValidationMessage (action : ActionType) (validation : Validation)
| AdvancedValidationResponse (action : ActionType) (validationResult : AdvancedResults)
| NoPendingRequest
| RegistrationCancelled (action : ActionType)
| NothingToCancel
| HelpText
| StatusReport (state : EmployeeState) (todayRecords : list AttendanceRecord)
| LocationsList
| Greeting
| PendingReminder (action : ActionType)
| UnknownCommand.

(** Everything the process keeps between two messages, and the table of
    attendance records. *)
Record System := {
  stateControl : StateControl;
  fraudStore : FraudStore;
  pendingAttendanceRequests : gmap string ActionType;
  attendance_records : list AttendanceRecord
}.

Definition initialSystem : System :=
  {| stateControl := {| employeeStates := ∅; employeeSessions := ∅ |};
     fraudStore := {| userLocationHistory := ∅; suspiciousActivityLog := ∅ |};
     pendingAttendanceRequests := ∅;
     attendance_records := [] |}.

Section Server.

Variable calculateDistance : Q -> Q -> Q -> Q -> Z.
Variable numberToString : Q -> string.
Variable zones : list Location.

(** A location message. *)
Definition onLocation (env : Env) (from : string) (location : LocationData) (s : System)
  : option Response * System :=
  match pendingAttendanceRequests s !! from with
  | Some pending =>
      let requests := delete from (pendingAttendanceRequests s) in
      let '(validationResult, store) :=
        validateGPSLocationAdvanced calculateDistance numberToString zones
          (env_now env) location from (fraudStore s) in
      match validationResult with
      | Some result =>
          (Some (AdvancedValidationResponse pending result),
           {| stateControl := stateControl s;
              fraudStore := store;
              pendingAttendanceRequests := requests;
              attendance_records :=
                saveAttendanceRecord env from pending location result
                                     (attendance_records s) |})
      | None =>
          (None,
           {| stateControl := stateControl s;
              fraudStore := store;
              pendingAttendanceRequests := requests;
              attendance_records := attendance_records s |})
      end
  | None => (Some NoPendingRequest, s)
  end.

(** The commands [entrada] and [salida]. *)
Definition onAttendanceCommand (env : Env) (from : string) (action : ActionType)
    (s : System) : option Response * System :=
  let '(actionValidation, sc) :=
    validateAttendanceAction env (attendance_records s) from action (stateControl s) in
  match actionValidation with
  | Some validation =>
      (Some (StateValidationMessage action validation),
       {| stateControl := sc;
          fraudStore := fraudStore s;
          pendingAttendanceRequests :=
            if isAllowed validation
            then <[from := action]> (pendingAttendanceRequests s)
            else pendingAttendanceRequests s;
          attendance_records := attendance_records s |})
  | None =>
      (None,
       {| stateControl := sc;
          fraudStore := fraudStore s;
          pendingAttendanceRequests := pendingAttendanceRequests s;
          attendance_records := attendance_records s |})
  end.

(** A text message. *)
Definition onText (env : Env) (from body : string) (s : System)
  : option Response * System :=
  match parseCommand body with
  | CmdEntrada => onAttendanceCommand env from entrada s
  | CmdSalida => onAttendanceCommand env from salida s
  | CmdCancelar =>
      match pendingAttendanceRequests s !! from with
      | Some cancelledAction =>
          (Some (RegistrationCancelled cancelledAction),
           {| stateControl := stateControl s;
              fraudStore := fraudStore s;
              pendingAttendanceRequests := delete from (pendingAttendanceRequests s);
              attendance_records := attendance_records s |})
      | None => (Some NothingToCancel, s)
      end
  | CmdAyuda => (Some HelpText, s)
  | CmdEstado =>
      let '(state, sc) :=
        getEmployeeCurrentState env (attendance_records s) from true (stateControl s) in
      let todayRecords :=
        getTodayAttendanceRecords env (attendance_records s) (st_phoneNumber state) in
      (Some (StatusReport state todayRecords),
       {| stateControl := sc;
          fraudStore := fraudStore s;
          pendingAttendanceRequests := pendingAttendanceRequests s;
          attendance_records := attendance_records s |})
  | CmdUbicaciones => (Some LocationsList, s)
  | CmdSaludo => (Some Greeting, s)
  | CmdOther =>
      match pendingAttendanceRequests s !! from with
      | Some pending => (Some (PendingReminder pending), s)
      | None => (Some UnknownCommand, s)
      end
  end.

(** The handler of the [message] event.  [None] as a response is a
    handler that stopped on an exception without replying.  The log of
    messages, the contact lookup and the notifications to the dashboard
    touch none of the state below and are left out. *)
Definition onMessage (env : Env) (message : IncomingMessage) (s : System)
  : option Response * System :=
  match msg_location message with
  | Some location => onLocation env (msg_from message) location s
  | None => onText env (msg_from message) (msg_body message) s
  end.

(** The periodic cleaning: each pending request is dropped or kept by a
    random draw; [dropped] lists the ones the draws removed. *)
Definition sweepPending (dropped : list string) (s : System) : System :=
  {| stateControl := stateControl s;
     fraudStore := fraudStore s;
     pendingAttendanceRequests :=
       foldr (fun phone requests => delete phone requests)
             (pendingAttendanceRequests s) dropped;
     attendance_records := attendance_records s |}.

Inductive Event :=
| MessageEvent (env : Env) (message : IncomingMessage)
| SweepEvent (dropped : list string).

Definition step (s : System) (e : Event) : System :=
  match e with
  | MessageEvent env message => snd (onMessage env message s)
  | SweepEvent dropped => sweepPending dropped s
  end.

(** The system after a sequence of events, from the state of a fresh
    process. *)
Definition run (events : list Event) : System :=
  fold_left step events initialSystem.

End Server.

(** ** Notions used in the statements *)

(** No session holds a pending action. *)
Definition noSessionPending (sc : StateControl) : Prop :=
  forall phone session,
    employeeSessions sc !! phone = Some session -> pendingAction session = None.

(** The state control in which the session of a user is replaced. *)
Definition withSession (wid : string) (session : EmployeeSession) (sc : StateControl)
  : StateControl :=
  {| employeeStates := employeeStates sc;
     employeeSessions := <[extractPhoneNumber wid := session]> (employeeSessions sc) |}.

(** The rules look at the status, the counters, the working hours, the
    time of the last action and the minimum-time warning, and at nothing
    that a pending action changes. *)
Definition sameFacts (a b : EmployeeState) : Prop :=
  isWorkingHours a = isWorkingHours b
  /\ currentStatus a = currentStatus b
  /\ lastActionTime a = lastActionTime b
  /\ todayEntries a = todayEntries b
  /\ todayExits a = todayExits b
  /\ workingHours a = workingHours b
  /\ hasMinTimeWarning a = hasMinTimeWarning b.

(** The state [getEmployeeCurrentState] computes for a user when it is
    forced to refresh. *)
Definition refreshedState (env : Env) (table : list AttendanceRecord) (wid : string)
    (sc : StateControl) : EmployeeState :=
  let session := fst (getOrCreateEmployeeSession (env_now env) wid (employeeSessions sc)) in
  fst (computeState (env_now env) session
         (getLastAttendanceRecord env table (phoneNumber session))
         (getTodayAttendanceRecords env table (phoneNumber session))).

(** The last validated record as the specification words it: the latest
    among the records of the user whose validation status is VALID. *)
Definition lastValidatedRecord_spec (table : list AttendanceRecord) (phoneNumber : string)
  : option AttendanceRecord :=
  latestRecord
    (filter (fun r => (phoneMatches phoneNumber r && is_VALID r) = true) table).

(** ** The risk level as the specification words it *)

Definition Severity_eqb (a b : Severity) : bool :=
  match a, b with
  | LOW, LOW | MEDIUM, MEDIUM | HIGH, HIGH => true
  | _, _ => false
  end.

(** How many flags of a set carry a given severity. *)
Fixpoint countSeverity (sev : Severity) (flags : list SuspiciousFlag) : nat :=
  match flags with
  | [] => O
  | f :: rest =>
      ((if Severity_eqb (flag_severity f) sev then 1 else 0) + countSeverity sev rest)%nat
  end.

(** ** Sample data for the examples *)

Definition digitChar (d : Z) : ascii := ascii_of_nat (48 + Z.to_nat d).

Fixpoint fractionDigits (fuel : nat) (r d : Z) : string :=
  match fuel with
  | O => EmptyString
  | S fuel' =>
      if r =? 0 then EmptyString
      else String (digitChar (r * 10 / d)) (fractionDigits fuel' (r * 10 mod d) d)
  end.

Fixpoint naturalDigits (fuel : nat) (n : Z) (acc : string) : string :=
  match fuel with
  | O => acc
  | S fuel' =>
      let acc' := String (digitChar (n mod 10)) acc in
      if n / 10 =? 0 then acc' else naturalDigits fuel' (n / 10) acc'
  end.

(** The decimal expansion of a rational, cut after 20 fractional digits:
    what [toString] prints for the short decimal numbers of the examples. *)
Definition decimalString (x : Q) : string :=
  let n := Z.abs (Qnum x) in
  let d := Zpos (Qden x) in
  let fraction := fractionDigits 20 (n mod d) d in
  (if Qnum x <? 0 then "-" else "")
  +:+ naturalDigits 25 (n / d) ""
  +:+ (if String.eqb fraction "" then "" else "." +:+ fraction).

(** Values of [calculateDistance], computed with the formula of the source,
    from three points to the four authorized locations in their order. *)
Definition distanceSamples : list (Q * Q * list Z) := [
  ((-37.3716)%Q, (-59.1168)%Q, [5; 142; 3875; 301605]);
  ((-37.3722)%Q, (-59.116)%Q, [93; 45; 3962; 301660]);
  ((-34.6)%Q, (-58.4)%Q, [314865; 314934; 311574; 21986])
].

Fixpoint locationIndex (lat lng : Q) (zones : list Location) : option nat :=
  match zones with
  | [] => None
  | z :: rest =>
      if Qeq_bool lat (loc_lat z) && Qeq_bool lng (loc_lng z) then Some O
      else S <$> locationIndex lat lng rest
  end.

(** The sampled distance function: [0] between a point and itself, the
    table above from a sampled point to an authorized location. *)
Definition sampleDistance (lat1 lng1 lat2 lng2 : Q) : Z :=
  if Qeq_bool lat1 lat2 && Qeq_bool lng1 lng2 then 0
  else
    default 0
      (row ← List.find (fun row => Qeq_bool lat1 row.1.1 && Qeq_bool lng1 row.1.2)
                       distanceSamples;
       i ← locationIndex lat2 lng2 AUTHORIZED_LOCATIONS;
       row.2 !! i).

Definition sampleNow : Z := 1700000000000.

Definition samplePhone : string := "5491123456789@c.us".

Definition emptyStore : FraudStore :=
  {| userLocationHistory := ∅; suspiciousActivityLog := ∅ |}.

(** A user blocked ten minutes before [sampleNow], for thirty minutes. *)
Definition blockedLog : UserLog :=
  {| warnings := 5; lastWarning := Some (sampleNow - 600000); isBlocked := true;
     blockUntil := Some (sampleNow + 1200000); incidents := [] |}.

Definition blockedStore : FraudStore :=
  {| userLocationHistory := ∅;
     suspiciousActivityLog := {[ samplePhone := blockedLog ]} |}.

Definition twoHighFlags : list SuspiciousFlag :=
  [{| flag_type := PERFECT_COORDINATES; flag_severity := HIGH;
      flag_message := TooManyZeros |};
   {| flag_type := MISSING_TIMESTAMP; flag_severity := HIGH;
      flag_message := TimestampMissing |}].

(** A log in which the sample user has three warnings. *)
Definition threeWarnings : gmap string UserLog :=
  {[ samplePhone := {| warnings := 3; lastWarning := None; isBlocked := false;
                       blockUntil := None; incidents := [] |} ]}.

(** Three readings from one spot, a minute apart, already on the history of
    the sample user. *)
Definition repeatedStore : FraudStore :=
  {| userLocationHistory :=
       {[ samplePhone :=
            [ {| he_lat := (-37.370001)%Q; he_lng := (-59.110002)%Q;
                 he_timestamp := 1699999640%Q |};
              {| he_lat := (-37.370001)%Q; he_lng := (-59.110002)%Q;
                 he_timestamp := 1699999700%Q |};
              {| he_lat := (-37.370001)%Q; he_lng := (-59.110002)%Q;
                 he_timestamp := 1699999760%Q |} ] ]};
     suspiciousActivityLog := ∅ |}.

(** A reading from the same spot, stamped three minutes before
    [sampleNow]. *)
Definition staleReading : LocationData :=
  {| latitude := JNum (-37.370001); longitude := JNum (-59.110002);
     accuracy := JNum 10; timestamp := JNum 1699999820 |}.

Definition sampleEnv : Env :=
  {| env_now := sampleNow; db_last_ok := true; db_today_ok := true;
     db_insert_ok := true |}.

Definition emptyControl : StateControl :=
  {| employeeStates := ∅; employeeSessions := ∅ |}.

(** The table after a validated entry, eight hours before [sampleNow], and
    an exit attempt ten minutes before it that was rejected for its
    location. *)
Definition entryThenRejectedExit : list AttendanceRecord := [
  {| phone_number := samplePhone; action_type := entrada;
     rec_latitude := JNum (-37.3716); rec_longitude := JNum (-59.1168);
     location_name := Some "Valle de los Ciervos"; distance_from_point := Some 5;
     validation_status := VALID; rec_timestamp := sampleNow - 28800000;
     rec_accuracy := JNum 10; gps_timestamp := Some 1699971195000%Q |};
  {| phone_number := samplePhone; action_type := salida;
     rec_latitude := JNum (-34.6); rec_longitude := JNum (-58.4);
     location_name := None; distance_from_point := Some 21986;
     validation_status := INVALID; rec_timestamp := sampleNow - 600000;
     rec_accuracy := JNum 10; gps_timestamp := Some 1699999395000%Q |}
].

(** A session of the sample user with an action marked pending five
    minutes before [sampleNow]. *)
Definition sessionPending (action : ActionType) : EmployeeSession :=
  {| phoneNumber := "5491123456789"; whatsappId := samplePhone;
     firstContact := sampleNow - 900000; lastActivity := sampleNow - 300000;
     messageCount := 2;
     pendingAction := Some action; pendingActionTime := Some (sampleNow - 300000) |}.

Definition controlPending (action : ActionType) : StateControl :=
  {| employeeStates := ∅;
     employeeSessions := {[ "5491123456789" := sessionPending action ]} |}.

(** The sample user sends the text [entrada]. *)
Definition entradaCommand : Event :=
  MessageEvent sampleEnv
    {| msg_from := samplePhone; msg_body := "Entrada"; msg_location := None |}.

(** ** Further notions and samples *)

(** [clearUserWarnings] of the anti-fraud module: an unknown user is left
    unknown. *)
Definition clearUserWarnings (phoneNumber : string)
    (suspiciousActivityLog : gmap string UserLog) : gmap string UserLog :=
  match suspiciousActivityLog !! phoneNumber with
  | Some log =>
      <[phoneNumber := {| warnings := 0; lastWarning := lastWarning log;
                          isBlocked := false; blockUntil := None;
                          incidents := incidents log |}]> suspiciousActivityLog
  | None => suspiciousActivityLog
  end.

(** [clearEmployeeSession] of the state control module. *)
Definition clearEmployeeSession (wid : string) (sc : StateControl) : StateControl :=
  let phone := extractPhoneNumber wid in
  {| employeeStates := delete (cacheKey phone) (employeeStates sc);
     employeeSessions := delete phone (employeeSessions sc) |}.

(** Every history holds at most 10 entries. *)
Definition historiesBounded (history : gmap string (list HistoryEntry)) : Prop :=
  forall phone entries, history !! phone = Some entries -> (length entries <= 10)%nat.

(** An entry of the log as [manageSuspiciousUser] leaves it: at most 20
    incidents; a block comes with its end and with 5 warnings or more; a
    user who is not blocked has no block end and fewer than 5 warnings. *)
Definition wellFormedLog (userLog : UserLog) : Prop :=
  (length (incidents userLog) <= 20)%nat
  /\ 0 <= warnings userLog
  /\ (isBlocked userLog = true ->
      (exists blockEnd, blockUntil userLog = Some blockEnd)
      /\ ADVANCED_FRAUD_CONFIG.MAX_WARNINGS_PER_USER <= warnings userLog)
  /\ (isBlocked userLog = false ->
      blockUntil userLog = None
      /\ warnings userLog < ADVANCED_FRAUD_CONFIG.MAX_WARNINGS_PER_USER).

Definition logsWellFormed (log : gmap string UserLog) : Prop :=
  forall phone userLog, log !! phone = Some userLog -> wellFormedLog userLog.

(** An entry of the history taken at the given coordinates. *)
Definition readingAt (lat lng : Q) (entry : HistoryEntry) : bool :=
  Qeq_bool lat (he_lat entry) && Qeq_bool lng (he_lng entry).

(** The time stamp the history keeps for a reading: the one of the reading,
    or the clock when it has none. *)
Definition entryTime (now : Z) (timestamp : jsnum) : Q :=
  if truthy timestamp then ToNumber timestamp else inject_Z now.

Definition hasType (t : FlagType) (f : SuspiciousFlag) : Prop := flag_type f = t.

(** No flag of the set is of the given type. *)
Definition noFlagOfType (t : FlagType) (flags : list SuspiciousFlag) : Prop :=
  Forall (fun f => flag_type f <> t) flags.

(** A fresh reading 5 m from the first zone, without accuracy. *)
Definition freshReading : LocationData :=
  {| latitude := JNum (-37.3716); longitude := JNum (-59.1168);
     accuracy := JUndefined; timestamp := JNum 1699999990 |}.

(** The sample user shares that location. *)
Definition freshLocation : Event :=
  MessageEvent sampleEnv
    {| msg_from := samplePhone; msg_body := ""; msg_location := Some freshReading |}.

(** A reading 5 m from the first zone that carries no time stamp and no
    accuracy. *)
Definition untimedReading : LocationData :=
  {| latitude := JNum (-37.3716); longitude := JNum (-59.1168);
     accuracy := JUndefined; timestamp := JUndefined |}.

(** The record the handler writes when the sample user, waiting to
    register an entry, shares [freshReading] at [sampleNow]. *)
Definition acceptedEntry : AttendanceRecord :=
  {| phone_number := samplePhone; action_type := entrada;
     rec_latitude := JNum (-37.3716); rec_longitude := JNum (-59.1168);
     location_name := Some "Valle de los Ciervos"; distance_from_point := Some 5;
     validation_status := VALID; rec_timestamp := sampleNow;
     rec_accuracy := JUndefined; gps_timestamp := Some (1699999990 * 1000)%Q |}.

(** A text without the character [@]. *)
Fixpoint noAt (s : string) : bool :=
  match s with
  | EmptyString => true
  | String c rest => negb (Ascii.eqb c "@"%char) && noAt rest
  end.

(** The phone number of the session [getOrCreateEmployeeSession] returns
    for an identifier. *)
Definition sessionPhone (now : Z) (wid : string) (sc : StateControl) : string :=
  phoneNumber (fst (getOrCreateEmployeeSession now wid (employeeSessions sc))).

(** The table after a validated entry eight hours before [sampleNow], a
    validated exit one hour before it, and an entry attempt ten minutes
    before it that was rejected for its location. *)
Definition exitThenRejectedEntry : list AttendanceRecord := [
  {| phone_number := samplePhone; action_type := entrada;
     rec_latitude := JNum (-37.3716); rec_longitude := JNum (-59.1168);
     location_name := Some "Valle de los Ciervos"; distance_from_point := Some 5;
     validation_status := VALID; rec_timestamp := sampleNow - 28800000;
     rec_accuracy := JNum 10; gps_timestamp := Some 1699971195000%Q |};
  {| phone_number := samplePhone; action_type := salida;
     rec_latitude := JNum (-37.3716); rec_longitude := JNum (-59.1168);
     location_name := Some "Valle de los Ciervos"; distance_from_point := Some 5;
     validation_status := VALID; rec_timestamp := sampleNow - 3600000;
     rec_accuracy := JNum 10; gps_timestamp := Some 1699996395000%Q |};
  {| phone_number := samplePhone; action_type := entrada;
     rec_latitude := JNum (-34.6); rec_longitude := JNum (-58.4);
     location_name := None; distance_from_point := Some 21986;
     validation_status := INVALID; rec_timestamp := sampleNow - 600000;
     rec_accuracy := JNum 10; gps_timestamp := Some 1699999395000%Q |}
].

(** A process that has just started, over a given table of records. *)
Definition systemWith (table : list AttendanceRecord) : System :=
  {| stateControl := emptyControl; fraudStore := emptyStore;
     pendingAttendanceRequests := ∅; attendance_records := table |}.

(** The sample user sends the text [salida]. *)
Definition salidaMessage : IncomingMessage :=
  {| msg_from := samplePhone; msg_body := "salida"; msg_location := None |}.

(** An entry of the sample user validated two minutes before
    [sampleNow]. *)
Definition recentEntry : AttendanceRecord :=
  {| phone_number := samplePhone; action_type := entrada;
     rec_latitude := JNum (-37.3716); rec_longitude := JNum (-59.1168);
     location_name := Some "Valle de los Ciervos"; distance_from_point := Some 5;
     validation_status := VALID; rec_timestamp := sampleNow - 120000;
     rec_accuracy := JNum 10; gps_timestamp := None |}.

(** A [Math] library on the rationals, each function cut to the first
    terms of a series around 0: enough to evaluate the formula of
    [calculateDistance] between a point and itself. *)
Definition seriesMath : MathLibrary :=
  {| Math_PI := 3.141592653589793%Q;
     Math_sin := fun x => (x - x * x * x / 6)%Q;
     Math_cos := fun x => (1 - x * x / 2)%Q;
     Math_sqrt := fun x => if Qeq_bool x 0 then 0%Q else ((x + 1) / 2)%Q;
     Math_atan2 := fun y x => if Qeq_bool y 0 then 0%Q else (y / x)%Q |}.


(** [formatPhoneForDisplay] of the state control module, which builds
    [displayPhone].  [s.substring(a, b)] holds the characters of [s] from
    index [a] up to index [b]; [s.substring(a)] those from index [a] on. *)
Definition formatPhoneForDisplay (phoneNumber : string) : string :=
  if (10 <=? String.length phoneNumber)%nat then
    let countryCode := String.substring 0 2 phoneNumber in
    let areaCode := String.substring 2 2 phoneNumber in
    let number := String.substring 4 (String.length phoneNumber - 4) phoneNumber in
    "+" +:+ countryCode +:+ " " +:+ areaCode +:+ " "
    +:+ String.substring 0 4 number +:+ "-"
    +:+ String.substring 4 (String.length number - 4) number
  else phoneNumber.


(** * Properties *)

(** ** Geofence: first match, nearest zone otherwise *)

Section GeofenceProperties.

Variable calculateDistance : Q -> Q -> Q -> Q -> Z.
Variables userLat userLng : Q.

Local Abbreviation dist := (distanceTo calculateDistance userLat userLng).
Local Abbreviation inside := (covers calculateDistance userLat userLng).

Lemma firstAuthorized_skip (pre rest : list Location) :
  Forall (fun l => inside l = false) pre ->
  firstAuthorized calculateDistance (pre ++ rest) userLat userLng
  = firstAuthorized calculateDistance rest userLat userLng.
Proof.
  induction 1 as [|l pre Hl _ IH]; [done|].
  simpl. unfold covers in Hl. by rewrite Hl.
Qed.

Lemma firstAuthorized_none (zones : list Location) :
  Forall (fun l => inside l = false) zones ->
  firstAuthorized calculateDistance zones userLat userLng = None.
Proof.
  intros H. rewrite <- (app_nil_r zones). by rewrite firstAuthorized_skip.
Qed.

Lemma closestStep_closestOf seen acc l :
  closestOf calculateDistance userLat userLng seen acc ->
  closestOf calculateDistance userLat userLng (seen ++ [l])
            (closestStep calculateDistance userLat userLng acc l).
Proof.
  destruct acc as [[d z]|]; simpl.
  - intros (Hin & Hd & Hmin).
    destruct (Z.ltb_spec (dist l) d) as [Hlt|Hge]; simpl.
    + split; [set_solver|]. split; [done|].
      intros z' [Hz'|Hz']%elem_of_app.
      * specialize (Hmin z' Hz'). lia.
      * apply list_elem_of_singleton in Hz' as ->. lia.
    + split; [set_solver|]. split; [done|].
      intros z' [Hz'|Hz']%elem_of_app; [by apply Hmin|].
      apply list_elem_of_singleton in Hz' as ->. lia.
  - intros ->. simpl. split; [set_solver|]. split; [done|].
    intros z' Hz'. apply list_elem_of_singleton in Hz' as ->. lia.
Qed.

Lemma closestFrom_closestOf zones : forall seen acc,
  closestOf calculateDistance userLat userLng seen acc ->
  closestOf calculateDistance userLat userLng (seen ++ zones)
            (closestFrom calculateDistance acc zones userLat userLng).
Proof.
  induction zones as [|l zones IH]; intros seen acc Hacc.
  - by rewrite app_nil_r.
  - simpl. replace (seen ++ l :: zones) with ((seen ++ [l]) ++ zones)
      by (by rewrite <- app_assoc).
    apply IH. by apply closestStep_closestOf.
Qed.

Lemma firstAuthorized_some (zones : list Location) (z : Location) :
  z ∈ zones ->
  inside z = true ->
  exists z' d, firstAuthorized calculateDistance zones userLat userLng = Some (z', d).
Proof.
  intros Hin Hz. induction zones as [|l zones IH]; [by apply elem_of_nil in Hin|].
  simpl. destruct (Z.leb_spec (dist l) (loc_radius l)) as [Hle|Hgt]; [by eauto|].
  apply elem_of_cons in Hin as [->|Hin]; [|by apply IH].
  unfold covers in Hz. apply Z.leb_le in Hz. lia.
Qed.

(** Ties go to the zone listed first: a later zone replaces the current
    one only when it is strictly nearer. *)
Lemma closestStep_keeps_first d z l :
  d <= dist l ->
  closestStep calculateDistance userLat userLng (Some (d, z)) l = Some (d, z).
Proof.
  intros H. unfold closestStep.
  destruct (Z.ltb_spec (dist l) d); [lia|done].
Qed.

End GeofenceProperties.

Section Haversine.

Variable M : MathLibrary.

(** What the lemma below needs of the library: [sin 0 = 0], [sqrt 0 = 0],
    a positive square root of a positive number, and [atan2(0, y) = 0]
    for positive [y], on every representation of [0]. *)
Hypothesis sin_0 : forall x, (x == 0 -> Math_sin M x == 0)%Q.
Hypothesis sqrt_0 : forall x, (x == 0 -> Math_sqrt M x == 0)%Q.
Hypothesis sqrt_pos : forall x, (0 < x -> 0 < Math_sqrt M x)%Q.
Hypothesis atan2_0 : forall x y, (x == 0 -> 0 < y -> Math_atan2 M x y == 0)%Q.

(** The distance from a point to itself is 0. *)
Lemma haversine_same_point (lat lng : Q) : haversine M lat lng lat lng = 0.
Proof using sin_0 sqrt_0 sqrt_pos atan2_0.
  unfold haversine, Math_round.
  assert (forall x, ((x - x) * Math_PI M / 180 / 2 == 0)%Q) as Hzero.
  { intros x. field. }
  set (a := (Math_sin M _ * Math_sin M _ + _)%Q).
  assert (a == 0)%Q as Ha.
  { pose proof (sin_0 _ (Hzero lat)) as Hlat.
    pose proof (sin_0 _ (Hzero lng)) as Hlng.
    unfold a. rewrite Hlat, Hlng. ring. }
  assert (0 < Math_sqrt M (1 - a))%Q as Hroot by (apply sqrt_pos; lra).
  pose proof (atan2_0 _ (Math_sqrt M (1 - a)) (sqrt_0 _ Ha) Hroot) as Hc.
  rewrite Hc.
  reflexivity.
Qed.

(** A reading taken at the centre of a zone is authorized, by that zone
    or by one listed before it. *)
Lemma zone_centre_authorized (zones : list Location) (z : Location) :
  z ∈ zones ->
  0 <= loc_radius z ->
  exists z' d,
    isLocationAuthorized (haversine M) zones (loc_lat z) (loc_lng z)
    = Some (Authorized z' d).
Proof using sin_0 sqrt_0 sqrt_pos atan2_0.
  intros Hin Hradius.
  destruct (firstAuthorized_some (haversine M) (loc_lat z) (loc_lng z) zones z Hin)
    as (z' & d & Hfirst).
  { unfold covers, distanceTo. rewrite haversine_same_point. by apply Z.leb_le. }
  exists z', d. unfold isLocationAuthorized. by rewrite Hfirst.
Qed.

End Haversine.


(** C4. For every coordinate and every list of zones, the geofence returns
    the first zone in list order whose distance from the coordinate is at
    most its own radius, whatever zones further down the list also cover
    the point; and when no zone covers the point (and there is a zone at
    all) it returns not-authorized with a zone whose distance is the least
    over the whole list, and that distance. *)
Theorem isLocationAuthorized_first_match
    (calculateDistance : Q -> Q -> Q -> Q -> Z)
    (zones : list Location) (userLat userLng : Q) :
  (forall pre z post,
      zones = pre ++ z :: post ->
      Forall (fun l => covers calculateDistance userLat userLng l = false) pre ->
      covers calculateDistance userLat userLng z = true ->
      isLocationAuthorized calculateDistance zones userLat userLng
      = Some (Authorized z (distanceTo calculateDistance userLat userLng z)))
  /\ (Forall (fun l => covers calculateDistance userLat userLng l = false) zones ->
      zones <> [] ->
      exists z,
        z ∈ zones
        /\ isLocationAuthorized calculateDistance zones userLat userLng
           = Some (NotAuthorized (distanceTo calculateDistance userLat userLng z) z)
        /\ forall z', z' ∈ zones ->
             distanceTo calculateDistance userLat userLng z
             <= distanceTo calculateDistance userLat userLng z').
Proof.
  split.
  - intros pre z post -> Hpre Hz.
    unfold isLocationAuthorized. rewrite firstAuthorized_skip by done.
    simpl. unfold covers in Hz. by rewrite Hz.
  - intros Hnone Hne.
    unfold isLocationAuthorized. rewrite firstAuthorized_none by done.
    pose proof (closestFrom_closestOf calculateDistance userLat userLng zones [] None eq_refl)
      as Hc.
    simpl in Hc.
    destruct (closestFrom calculateDistance None zones userLat userLng) as [[d z]|];
      simpl in Hc.
    + destruct Hc as (Hin & -> & Hmin). exists z. done.
    + done.
Qed.

(** The point (-37.3722, -59.116) lies 93 m from the first zone and 45 m
    from the second: both cover it, and the first one listed is returned. *)
Lemma isLocationAuthorized_first_match_witness :
  isLocationAuthorized sampleDistance AUTHORIZED_LOCATIONS (-37.3722)%Q (-59.116)%Q
  = Some (Authorized {| loc_id := 1; loc_name := "Valle de los Ciervos";
                        loc_lat := (-37.371644652229655)%Q;
                        loc_lng := (-59.116792790280606)%Q;
                        loc_radius := 100 |} 93)
  /\ (exists z,
        z ∈ AUTHORIZED_LOCATIONS
        /\ loc_id z = 2
        /\ distanceTo sampleDistance (-37.3722)%Q (-59.116)%Q z = 45)
  /\ (exists z,
        z ∈ AUTHORIZED_LOCATIONS
        /\ isLocationAuthorized sampleDistance AUTHORIZED_LOCATIONS (-34.6)%Q (-58.4)%Q
           = Some (NotAuthorized (distanceTo sampleDistance (-34.6)%Q (-58.4)%Q z) z)
        /\ forall z', z' ∈ AUTHORIZED_LOCATIONS ->
             distanceTo sampleDistance (-34.6)%Q (-58.4)%Q z
             <= distanceTo sampleDistance (-34.6)%Q (-58.4)%Q z').
Proof.
  split; [|split].
  - refine (proj1 (isLocationAuthorized_first_match sampleDistance AUTHORIZED_LOCATIONS
                     (-37.3722)%Q (-59.116)%Q) [] _ _ eq_refl _ eq_refl).
    constructor.
  - eexists. split; [apply list_elem_of_further, list_elem_of_here|]. split; reflexivity.
  - refine (proj2 (isLocationAuthorized_first_match sampleDistance AUTHORIZED_LOCATIONS
                     (-34.6)%Q (-58.4)%Q) _ _).
    + repeat constructor.
    + discriminate.
Defined.

(** ** Basic validation: the order of the checks *)

Section BasicValidationProperties.

Variable calculateDistance : Q -> Q -> Q -> Q -> Z.
Variable zones : list Location.
Variable now : Z.

Lemma validateGPSLocation_missing (locationData : LocationData) :
  negb (truthy (latitude locationData)) || negb (truthy (longitude locationData)) = true ->
  validateGPSLocation calculateDistance zones now locationData
  = Some (rejected [MissingCoordinates] []).
Proof. intros H. unfold validateGPSLocation. by rewrite H. Qed.

Lemma validateGPSLocation_stale (locationData : LocationData) :
  truthy (latitude locationData) = true ->
  truthy (longitude locationData) = true ->
  timestampStale now locationData = true ->
  validateGPSLocation calculateDistance zones now locationData
  = Some (rejected
            [LocationTooOld
               (Math_round (ageMinutesOf now (ToNumber (timestamp locationData))))] []).
Proof.
  intros Hlat Hlng [Hts Hstale]%andb_prop.
  unfold validateGPSLocation. rewrite Hlat, Hlng, Hts. simpl.
  rewrite Hstale.
  unfold isLocationTimestampValid in *.
  by destruct (Qltb GPS_CONFIG.MAX_AGE_MINUTES _).
Qed.

(** Past steps 1 and 2 the result is the one of the accuracy gate. *)
Lemma validateGPSLocation_fresh (locationData : LocationData) :
  truthy (latitude locationData) = true ->
  truthy (longitude locationData) = true ->
  timestampStale now locationData = false ->
  validateGPSLocation calculateDistance zones now locationData
  = accuracyStep calculateDistance zones locationData (timestampWarnings now locationData).
Proof.
  intros Hlat Hlng Hfresh.
  unfold validateGPSLocation, timestampStale, timestampWarnings in *.
  rewrite Hlat, Hlng. simpl.
  destruct (truthy (timestamp locationData)); [|done].
  simpl in Hfresh. apply negb_false_iff in Hfresh. by rewrite Hfresh.
Qed.

End BasicValidationProperties.

(** C6, as the code has it. The accuracy check alone rejects an absent
    accuracy like one above 50 meters; but the basic validation runs that
    check only when the accuracy field is there. With coordinates present
    and a reading that is not stale: an accuracy that is there and is
    falsy or above 50 meters is rejected as insufficient before the
    geofence is consulted, and a reading without the field goes straight
    to the geofence with the warnings collected so far. *)
Theorem accuracy_gate_only_when_present
    (calculateDistance : Q -> Q -> Q -> Q -> Z) (zones : list Location)
    (now : Z) (locationData : LocationData) :
  truthy (latitude locationData) = true ->
  truthy (longitude locationData) = true ->
  timestampStale now locationData = false ->
  isLocationAccuracyValid JUndefined
  = {| chk_isValid := false; chk_message := InsufficientAccuracy None |}
  /\ (is_undefined (accuracy locationData) = false ->
      negb (truthy (accuracy locationData))
      || Qltb GPS_CONFIG.MIN_ACCURACY (ToNumber (accuracy locationData)) = true ->
      validateGPSLocation calculateDistance zones now locationData
      = Some (rejected
                [InsufficientAccuracy
                   (if truthy (accuracy locationData)
                    then Some (ToNumber (accuracy locationData)) else None)]
                (timestampWarnings now locationData)))
  /\ (is_undefined (accuracy locationData) = true ->
      validateGPSLocation calculateDistance zones now locationData
      = authorizeStep calculateDistance zones
          (ToNumber (latitude locationData)) (ToNumber (longitude locationData))
          (timestampWarnings now locationData)).
Proof.
  intros Hlat Hlng Hfresh. split; [reflexivity|].
  rewrite validateGPSLocation_fresh by done.
  unfold accuracyStep, isLocationAccuracyValid. split.
  - intros -> Hbad. simpl. by rewrite Hbad.
  - by intros ->.
Qed.

(** A fresh reading 5 m from the first zone: rejected with an accuracy of
    80 m, and with no accuracy handed to the geofence. *)
Lemma accuracy_gate_only_when_present_witness :
  validateGPSLocation sampleDistance AUTHORIZED_LOCATIONS sampleNow
    {| latitude := JNum (-37.3716); longitude := JNum (-59.1168);
       accuracy := JNum 80; timestamp := JNum 1699999990 |}
  = Some (rejected [InsufficientAccuracy (Some 80%Q)] [LocationRecent 0])
  /\ validateGPSLocation sampleDistance AUTHORIZED_LOCATIONS sampleNow
       {| latitude := JNum (-37.3716); longitude := JNum (-59.1168);
          accuracy := JUndefined; timestamp := JNum 1699999990 |}
     = authorizeStep sampleDistance AUTHORIZED_LOCATIONS
         (-37.3716)%Q (-59.1168)%Q [LocationRecent 0].
Proof.
  split.
  - exact (proj1 (proj2 (accuracy_gate_only_when_present sampleDistance
                           AUTHORIZED_LOCATIONS sampleNow
                           {| latitude := JNum (-37.3716); longitude := JNum (-59.1168);
                              accuracy := JNum 80; timestamp := JNum 1699999990 |}
                           eq_refl eq_refl eq_refl)) eq_refl eq_refl).
  - exact (proj2 (proj2 (accuracy_gate_only_when_present sampleDistance
                           AUTHORIZED_LOCATIONS sampleNow
                           {| latitude := JNum (-37.3716); longitude := JNum (-59.1168);
                              accuracy := JUndefined; timestamp := JNum 1699999990 |}
                           eq_refl eq_refl eq_refl)) eq_refl).
Defined.

(** C6 fails as stated: a fresh reading without any accuracy, 5 m from the
    first zone, is validated. *)
Lemma absent_accuracy_is_accepted :
  validateGPSLocation sampleDistance AUTHORIZED_LOCATIONS sampleNow
    {| latitude := JNum (-37.3716); longitude := JNum (-59.1168);
       accuracy := JUndefined; timestamp := JNum 1699999990 |}
  = Some {| vr_isValid := true;
            vr_reasons := [LocationValid {| loc_id := 1; loc_name := "Valle de los Ciervos";
                                            loc_lat := (-37.371644652229655)%Q;
                                            loc_lng := (-59.116792790280606)%Q;
                                            loc_radius := 100 |} 5];
            vr_location := Some {| loc_id := 1; loc_name := "Valle de los Ciervos";
                                   loc_lat := (-37.371644652229655)%Q;
                                   loc_lng := (-59.116792790280606)%Q;
                                   loc_radius := 100 |};
            vr_distance := Some 5;
            vr_warnings := [LocationRecent 0];
            vr_closestLocation := None |}.
Proof. reflexivity. Qed.

(** ** Warnings and temporary blocks *)

Lemma filter_HIGH_length (flags : list SuspiciousFlag) :
  length (filter (fun f => is_HIGH f = true) flags) = countSeverity HIGH flags.
Proof.
  induction flags as [|f flags IH]; [done|].
  rewrite filter_cons. simpl.
  case_decide as H; unfold is_HIGH in H;
    destruct (flag_severity f); simpl; congruence.
Qed.

Lemma filter_MEDIUM_length (flags : list SuspiciousFlag) :
  length (filter (fun f => is_MEDIUM f = true) flags) = countSeverity MEDIUM flags.
Proof.
  induction flags as [|f flags IH]; [done|].
  rewrite filter_cons. simpl.
  case_decide as H; unfold is_MEDIUM in H;
    destruct (flag_severity f); simpl; congruence.
Qed.

(** A blocked user has an entry of their own in the log. *)
Lemma activelyBlocked_lookup now phone (log : gmap string UserLog) :
  activelyBlocked now (userLogOf phone log) = true ->
  log !! phone = Some (userLogOf phone log).
Proof.
  unfold userLogOf. destruct (log !! phone) as [userLog|]; [done|].
  by unfold activelyBlocked.
Qed.

Lemma manageSuspiciousUser_blocked now phone flags (log : gmap string UserLog) :
  activelyBlocked now (userLogOf phone log) = true ->
  manageSuspiciousUser now phone flags log
  = ({| us_isBlocked := true; us_warnings := None;
        us_message :=
          Some (UserBlockedRemaining (remainingMinutesOf now (userLogOf phone log))) |},
     log).
Proof.
  intros H. unfold manageSuspiciousUser. rewrite H.
  rewrite insert_id; [done|]. by apply (activelyBlocked_lookup now).
Qed.

(** The call that only consults the block status, as every evaluation
    starts with. *)
Lemma manageSuspiciousUser_consult now phone (log : gmap string UserLog) :
  activelyBlocked now (userLogOf phone log) = false ->
  manageSuspiciousUser now phone [] log
  = ({| us_isBlocked := false;
        us_warnings := Some (warnings (unblockIfExpired now (userLogOf phone log)));
        us_message := None |},
     <[phone := unblockIfExpired now (userLogOf phone log)]> log).
Proof. intros H. unfold manageSuspiciousUser. by rewrite H. Qed.

Lemma unblockIfExpired_expired now (userLog : UserLog) :
  isBlocked userLog = true ->
  blockUntilMs userLog <= now ->
  unblockIfExpired now userLog
  = {| warnings := 0; lastWarning := lastWarning userLog; isBlocked := false;
       blockUntil := None; incidents := incidents userLog |}.
Proof.
  intros Hb Hexp. unfold unblockIfExpired. rewrite Hb.
  by destruct (Z.leb_spec (blockUntilMs userLog) now); [|lia].
Qed.

(** ** Advanced validation: what runs before what *)

Section AdvancedValidationProperties.

Variable calculateDistance : Q -> Q -> Q -> Q -> Z.
Variable numberToString : Q -> string.
Variable zones : list Location.
Variable now : Z.
Variable phone : string.

Local Abbreviation advanced :=
  (validateGPSLocationAdvanced calculateDistance numberToString zones now).

Lemma advanced_blocked (locationData : LocationData) (store : FraudStore) :
  activelyBlocked now (userLogOf phone (suspiciousActivityLog store)) = true ->
  advanced locationData phone store
  = (Some (earlyExit
             [UserBlockedRemaining
                (remainingMinutesOf now (userLogOf phone (suspiciousActivityLog store)))]
             [] Risk_BLOCKED),
     store).
Proof.
  intros H. unfold validateGPSLocationAdvanced.
  rewrite manageSuspiciousUser_blocked by done. simpl. by destruct store.
Qed.

Lemma advanced_missing (locationData : LocationData) (store : FraudStore) :
  activelyBlocked now (userLogOf phone (suspiciousActivityLog store)) = false ->
  negb (truthy (latitude locationData)) || negb (truthy (longitude locationData)) = true ->
  advanced locationData phone store
  = (Some (earlyExit [MissingCoordinates] [] Risk_LOW),
     {| userLocationHistory := userLocationHistory store;
        suspiciousActivityLog :=
          <[phone := unblockIfExpired now (userLogOf phone (suspiciousActivityLog store))]>
            (suspiciousActivityLog store) |}).
Proof.
  intros Hfree Hmissing. unfold validateGPSLocationAdvanced.
  rewrite manageSuspiciousUser_consult by done. simpl. by rewrite Hmissing.
Qed.

(** Past steps 1 and 2 the history has the reading and the result has the
    flags, whatever the later steps decide. *)
Lemma advanced_analysed (locationData : LocationData) (store : FraudStore) :
  activelyBlocked now (userLogOf phone (suspiciousActivityLog store)) = false ->
  truthy (latitude locationData) = true ->
  truthy (longitude locationData) = true ->
  userLocationHistory (snd (advanced locationData phone store))
  = <[phone := historyWith now locationData phone (userLocationHistory store)]>
      (userLocationHistory store)
  /\ (forall r,
        fst (advanced locationData phone store) = Some r ->
        ar_suspiciousFlags r
        = evaluationFlags calculateDistance numberToString now locationData phone store
        /\ (ar_fraudRisk r = Risk_BLOCKED
            /\ evaluateFraudRisk (ar_suspiciousFlags r) = Risk_HIGH
            \/ ar_fraudRisk r = evaluateFraudRisk (ar_suspiciousFlags r)
               /\ Some r = combineResults calculateDistance zones now locationData
                             (ar_suspiciousFlags r) (ar_fraudRisk r))).
Proof.
  intros Hfree Hlat Hlng. unfold validateGPSLocationAdvanced.
  rewrite manageSuspiciousUser_consult by done. simpl.
  rewrite Hlat, Hlng. simpl.
  unfold evaluationFlags, analyzeLocationHistory, historyWith. simpl.
  set (flags := _ ++ _ ++ _).
  destruct (evaluateFraudRisk flags) eqn:Hrisk.
  - split; [done|]. intros r Hr. simpl in Hr.
    unfold combineResults in *. destruct (validateGPSLocation _ _ _ _); [|done].
    injection Hr as <-. simpl. rewrite Hrisk. split; [done|]. right. done.
  - split; [done|]. intros r Hr. simpl in Hr.
    unfold combineResults in *. destruct (validateGPSLocation _ _ _ _); [|done].
    injection Hr as <-. simpl. rewrite Hrisk. split; [done|]. right. done.
  - destruct (manageSuspiciousUser now phone flags _) as [userManagement log2].
    destruct (us_isBlocked userManagement).
    + split; [done|]. intros r Hr. injection Hr as <-. simpl. split; [done|]. by left.
    + split; [done|]. intros r Hr. simpl in Hr.
      unfold combineResults in *. destruct (validateGPSLocation _ _ _ _); [|done].
      injection Hr as <-. simpl. rewrite Hrisk. split; [done|]. right. done.
  - split; [done|]. intros r Hr. simpl in Hr.
    unfold combineResults in *. destruct (validateGPSLocation _ _ _ _); [|done].
    injection Hr as <-. simpl. rewrite Hrisk. split; [done|]. right. done.
Qed.

End AdvancedValidationProperties.

(** C3. When the HIGH-severity warnings of a user who is not under an
    active block reach 5, the call blocks the user until 30 minutes from
    now and reports the block. While the block lasts every call reports it
    with the minutes remaining and leaves the log as it is. The first call
    after the block has expired lifts it and restarts the warning counter
    from 0: the counter then holds only the HIGH flags of that call, and
    exactly 0 after the consultation that opens every evaluation. An
    evaluation that finds the user under an active block answers BLOCKED
    with the minutes remaining, runs no analysis and changes no store. *)
Theorem manageSuspiciousUser_block_cycle
    (calculateDistance : Q -> Q -> Q -> Q -> Z) (numberToString : Q -> string)
    (zones : list Location) (locationData : LocationData)
    (history : gmap string (list HistoryEntry))
    (now : Z) (phone : string) (flags : list SuspiciousFlag)
    (log : gmap string UserLog) :
  (activelyBlocked now (userLogOf phone log) = false ->
   (0 < countSeverity HIGH flags)%nat ->
   ADVANCED_FRAUD_CONFIG.MAX_WARNINGS_PER_USER
   <= warnings (unblockIfExpired now (userLogOf phone log))
      + Z.of_nat (countSeverity HIGH flags) ->
   exists userLog',
     manageSuspiciousUser now phone flags log
     = ({| us_isBlocked := true; us_warnings := None;
           us_message :=
             Some (UserBlockedNow
                     (warnings (unblockIfExpired now (userLogOf phone log))
                      + Z.of_nat (countSeverity HIGH flags))) |},
        <[phone := userLog']> log)
     /\ isBlocked userLog' = true
     /\ blockUntil userLog' = Some (now + 30 * 60 * 1000))
  /\ (activelyBlocked now (userLogOf phone log) = true ->
      manageSuspiciousUser now phone flags log
      = ({| us_isBlocked := true; us_warnings := None;
            us_message :=
              Some (UserBlockedRemaining (remainingMinutesOf now (userLogOf phone log))) |},
         log)
      /\ validateGPSLocationAdvanced calculateDistance numberToString zones now
           locationData phone
           {| userLocationHistory := history; suspiciousActivityLog := log |}
         = (Some {| ar_isValid := false;
                    ar_reasons :=
                      [UserBlockedRemaining
                         (remainingMinutesOf now (userLogOf phone log))];
                    ar_warnings := []; ar_suspiciousFlags := [];
                    ar_fraudRisk := Risk_BLOCKED;
                    ar_location := None; ar_distance := None |},
            {| userLocationHistory := history; suspiciousActivityLog := log |}))
  /\ (isBlocked (userLogOf phone log) = true ->
      blockUntilMs (userLogOf phone log) <= now ->
      (exists userLog',
         snd (manageSuspiciousUser now phone flags log) = <[phone := userLog']> log
         /\ warnings userLog' = Z.of_nat (countSeverity HIGH flags))
      /\ manageSuspiciousUser now phone [] log
         = ({| us_isBlocked := false; us_warnings := Some 0; us_message := None |},
            <[phone := {| warnings := 0;
                          lastWarning := lastWarning (userLogOf phone log);
                          isBlocked := false;
                          blockUntil := None;
                          incidents := incidents (userLogOf phone log) |}]> log)).
Proof.
  split; [|split].
  - intros Hfree Hhigh Hlimit. unfold manageSuspiciousUser. rewrite Hfree.
    rewrite filter_HIGH_length.
    destruct (Nat.ltb_spec 0 (countSeverity HIGH flags)) as [_|]; [|lia].
    destruct (Z.leb_spec ADVANCED_FRAUD_CONFIG.MAX_WARNINGS_PER_USER
                (warnings (unblockIfExpired now (userLogOf phone log))
                 + Z.of_nat (countSeverity HIGH flags))) as [_|]; [|lia].
    eexists. split; [reflexivity|]. done.
  - intros Hblock. split; [by apply manageSuspiciousUser_blocked|].
    by apply (advanced_blocked calculateDistance numberToString zones now phone
                locationData
                {| userLocationHistory := history; suspiciousActivityLog := log |}).
  - intros Hb Hexp.
    assert (activelyBlocked now (userLogOf phone log) = false) as Hfree.
    { unfold activelyBlocked. rewrite Hb. simpl. apply Z.ltb_ge. lia. }
    split.
    + unfold manageSuspiciousUser. rewrite Hfree.
      rewrite filter_HIGH_length, unblockIfExpired_expired by done. simpl.
      destruct (Nat.ltb_spec 0 (countSeverity HIGH flags)) as [Hpos|Hzero].
      * destruct (_ <=? _); eexists; (split; [reflexivity|done]).
      * eexists. split; [reflexivity|]. simpl. lia.
    + rewrite manageSuspiciousUser_consult by done.
      by rewrite unblockIfExpired_expired.
Qed.

(** A user with three warnings on record draws two HIGH flags: blocked
    for thirty minutes.  Ten minutes later a call is answered with the
    twenty minutes that remain; after the half hour the block is lifted
    and the counter is back at 0. *)
Lemma manageSuspiciousUser_block_cycle_witness :
  (exists userLog',
     manageSuspiciousUser sampleNow samplePhone twoHighFlags threeWarnings
     = ({| us_isBlocked := true; us_warnings := None;
           us_message := Some (UserBlockedNow 5) |},
        <[samplePhone := userLog']> threeWarnings)
     /\ isBlocked userLog' = true
     /\ blockUntil userLog' = Some (sampleNow + 30 * 60 * 1000))
  /\ (manageSuspiciousUser sampleNow samplePhone [] {[ samplePhone := blockedLog ]}
      = ({| us_isBlocked := true; us_warnings := None;
            us_message := Some (UserBlockedRemaining 20) |},
         {[ samplePhone := blockedLog ]})
      /\ validateGPSLocationAdvanced sampleDistance decimalString AUTHORIZED_LOCATIONS
           sampleNow staleReading samplePhone blockedStore
         = (Some {| ar_isValid := false; ar_reasons := [UserBlockedRemaining 20];
                    ar_warnings := []; ar_suspiciousFlags := [];
                    ar_fraudRisk := Risk_BLOCKED;
                    ar_location := None; ar_distance := None |},
            blockedStore))
  /\ manageSuspiciousUser (sampleNow + 1200000) samplePhone []
       {[ samplePhone := blockedLog ]}
     = ({| us_isBlocked := false; us_warnings := Some 0; us_message := None |},
        <[samplePhone := {| warnings := 0; lastWarning := Some (sampleNow - 600000);
                            isBlocked := false; blockUntil := None; incidents := [] |}]>
          {[ samplePhone := blockedLog ]}).
Proof.
  split; [|split].
  - refine (proj1 (manageSuspiciousUser_block_cycle sampleDistance decimalString
                     AUTHORIZED_LOCATIONS staleReading ∅ sampleNow samplePhone
                     twoHighFlags threeWarnings) eq_refl _ _).
    + simpl. lia.
    + vm_compute. discriminate.
  - exact (proj1 (proj2 (manageSuspiciousUser_block_cycle sampleDistance decimalString
                           AUTHORIZED_LOCATIONS staleReading ∅ sampleNow samplePhone []
                           {[ samplePhone := blockedLog ]})) eq_refl).
  - refine (proj2 (proj2 (proj2 (manageSuspiciousUser_block_cycle sampleDistance
                                   decimalString AUTHORIZED_LOCATIONS staleReading ∅
                                   (sampleNow + 1200000) samplePhone []
                                   {[ samplePhone := blockedLog ]}))
                     eq_refl _)).
    vm_compute. discriminate.
Defined.

(** C7, as the code has it. A reading that lacks its latitude or its
    longitude is rejected with the missing-coordinates reason before any
    fraud analyzer has run: no flags, no change to the location history.
    The block status is consulted first: a user under an active block gets
    the block answer instead, and for any other user the consultation
    leaves its trace in the log (the entry is created, an expired block is
    lifted). *)
Theorem missing_coordinates_after_block_check
    (calculateDistance : Q -> Q -> Q -> Q -> Z) (numberToString : Q -> string)
    (zones : list Location) (now : Z) (locationData : LocationData)
    (phone : string) (store : FraudStore) :
  negb (truthy (latitude locationData)) || negb (truthy (longitude locationData)) = true ->
  (activelyBlocked now (userLogOf phone (suspiciousActivityLog store)) = false ->
   validateGPSLocationAdvanced calculateDistance numberToString zones now
     locationData phone store
   = (Some {| ar_isValid := false; ar_reasons := [MissingCoordinates];
              ar_warnings := []; ar_suspiciousFlags := [];
              ar_fraudRisk := Risk_LOW; ar_location := None; ar_distance := None |},
      {| userLocationHistory := userLocationHistory store;
         suspiciousActivityLog :=
           <[phone := unblockIfExpired now (userLogOf phone (suspiciousActivityLog store))]>
             (suspiciousActivityLog store) |}))
  /\ (activelyBlocked now (userLogOf phone (suspiciousActivityLog store)) = true ->
      validateGPSLocationAdvanced calculateDistance numberToString zones now
        locationData phone store
      = (Some {| ar_isValid := false;
                 ar_reasons :=
                   [UserBlockedRemaining
                      (remainingMinutesOf now
                         (userLogOf phone (suspiciousActivityLog store)))];
                 ar_warnings := []; ar_suspiciousFlags := [];
                 ar_fraudRisk := Risk_BLOCKED;
                 ar_location := None; ar_distance := None |},
         store)).
Proof.
  intros Hmissing. split; intros Hblock.
  - by apply advanced_missing.
  - by apply advanced_blocked.
Qed.

(** A new user sends a location without latitude: rejected for the missing
    coordinates, with an entry in the log and no history. *)
Lemma missing_coordinates_after_block_check_witness :
  validateGPSLocationAdvanced sampleDistance decimalString AUTHORIZED_LOCATIONS sampleNow
    {| latitude := JUndefined; longitude := JNum (-59.1168);
       accuracy := JNum 10; timestamp := JNum 1699999990 |}
    samplePhone emptyStore
  = (Some {| ar_isValid := false; ar_reasons := [MissingCoordinates];
             ar_warnings := []; ar_suspiciousFlags := [];
             ar_fraudRisk := Risk_LOW; ar_location := None; ar_distance := None |},
     {| userLocationHistory := ∅;
        suspiciousActivityLog := <[samplePhone := newUserLog]> ∅ |}).
Proof.
  exact (proj1 (missing_coordinates_after_block_check sampleDistance decimalString
                  AUTHORIZED_LOCATIONS sampleNow
                  {| latitude := JUndefined; longitude := JNum (-59.1168);
                     accuracy := JNum 10; timestamp := JNum 1699999990 |}
                  samplePhone emptyStore eq_refl) eq_refl).
Defined.

(** C7 fails as stated: for a blocked user the block status is consulted
    before the coordinates, and the reading without latitude is answered
    with the block, not with the missing coordinates. *)
Lemma blocked_user_missing_latitude :
  fst (validateGPSLocationAdvanced sampleDistance decimalString AUTHORIZED_LOCATIONS
         sampleNow
         {| latitude := JUndefined; longitude := JNum (-59.1168);
            accuracy := JNum 10; timestamp := JNum 1699999990 |}
         samplePhone blockedStore)
  = Some {| ar_isValid := false; ar_reasons := [UserBlockedRemaining 20];
            ar_warnings := []; ar_suspiciousFlags := [];
            ar_fraudRisk := Risk_BLOCKED; ar_location := None; ar_distance := None |}.
Proof. reflexivity. Qed.

Lemma isZero_falsy (v : jsnum) : isZero v = true -> truthy v = false.
Proof. destruct v; simpl; try done. by intros ->. Qed.

(** C10, as the code has it. A latitude or a longitude that is there and
    equals 0 counts as absent: the basic validation rejects the reading
    with the missing-coordinates reason, and so does the advanced
    validation for every user who is not under an active block (who gets
    the block answer, see C7). *)
Theorem zero_coordinate_counts_as_missing
    (calculateDistance : Q -> Q -> Q -> Q -> Z) (numberToString : Q -> string)
    (zones : list Location) (now : Z) (locationData : LocationData)
    (phone : string) (store : FraudStore) :
  isZero (latitude locationData) || isZero (longitude locationData) = true ->
  validateGPSLocation calculateDistance zones now locationData
  = Some {| vr_isValid := false; vr_reasons := [MissingCoordinates];
            vr_location := None; vr_distance := None; vr_warnings := [];
            vr_closestLocation := None |}
  /\ (activelyBlocked now (userLogOf phone (suspiciousActivityLog store)) = false ->
      fst (validateGPSLocationAdvanced calculateDistance numberToString zones now
             locationData phone store)
      = Some {| ar_isValid := false; ar_reasons := [MissingCoordinates];
                ar_warnings := []; ar_suspiciousFlags := [];
                ar_fraudRisk := Risk_LOW; ar_location := None; ar_distance := None |}).
Proof.
  intros Hzero.
  assert (negb (truthy (latitude locationData))
          || negb (truthy (longitude locationData)) = true) as Hmissing.
  { apply orb_true_iff in Hzero as [H|H]; apply isZero_falsy in H; rewrite H;
      [done | by rewrite orb_true_r]. }
  split.
  - by apply validateGPSLocation_missing.
  - intros Hfree. by rewrite advanced_missing.
Qed.

(** A reading on the equator, longitude 9.45 (Libreville), with good
    accuracy and a fresh timestamp. *)
Lemma zero_coordinate_counts_as_missing_witness :
  validateGPSLocation sampleDistance AUTHORIZED_LOCATIONS sampleNow
    {| latitude := JNum 0; longitude := JNum 9.45;
       accuracy := JNum 10; timestamp := JNum 1699999990 |}
  = Some {| vr_isValid := false; vr_reasons := [MissingCoordinates];
            vr_location := None; vr_distance := None; vr_warnings := [];
            vr_closestLocation := None |}
  /\ fst (validateGPSLocationAdvanced sampleDistance decimalString AUTHORIZED_LOCATIONS
            sampleNow
            {| latitude := JNum 0; longitude := JNum 9.45;
               accuracy := JNum 10; timestamp := JNum 1699999990 |}
            samplePhone emptyStore)
     = Some {| ar_isValid := false; ar_reasons := [MissingCoordinates];
               ar_warnings := []; ar_suspiciousFlags := [];
               ar_fraudRisk := Risk_LOW; ar_location := None; ar_distance := None |}.
Proof.
  destruct (zero_coordinate_counts_as_missing sampleDistance decimalString
              AUTHORIZED_LOCATIONS sampleNow
              {| latitude := JNum 0; longitude := JNum 9.45;
                 accuracy := JNum 10; timestamp := JNum 1699999990 |}
              samplePhone emptyStore eq_refl) as [Hbasic Hadvanced].
  split; [exact Hbasic | exact (Hadvanced eq_refl)].
Defined.

(** C10 fails as stated: the same reading from a blocked user is answered
    by the advanced validation with the block, not with the missing
    coordinates. *)
Lemma blocked_user_zero_latitude :
  fst (validateGPSLocationAdvanced sampleDistance decimalString AUTHORIZED_LOCATIONS
         sampleNow
         {| latitude := JNum 0; longitude := JNum 9.45;
            accuracy := JNum 10; timestamp := JNum 1699999990 |}
         samplePhone blockedStore)
  = Some {| ar_isValid := false; ar_reasons := [UserBlockedRemaining 20];
            ar_warnings := []; ar_suspiciousFlags := [];
            ar_fraudRisk := Risk_BLOCKED; ar_location := None; ar_distance := None |}.
Proof. reflexivity. Qed.

(** C1, as the code has it. A reading with coordinates whose timestamp is
    more than 2 minutes old is rejected by the basic validation with the
    staleness reason, before accuracy and geofence are looked at. In the
    advanced validation that check comes after the fraud analysis: for a
    user who is not under an active block the reading is first pushed on
    the location history and its flags are collected and kept in the
    result; the result is then invalid, and unless the flags get the user
    blocked its first reason is the staleness. *)
Theorem stale_reading_rejected_after_fraud_analysis
    (calculateDistance : Q -> Q -> Q -> Q -> Z) (numberToString : Q -> string)
    (zones : list Location) (now : Z) (locationData : LocationData)
    (phone : string) (store : FraudStore) :
  truthy (latitude locationData) = true ->
  truthy (longitude locationData) = true ->
  timestampStale now locationData = true ->
  validateGPSLocation calculateDistance zones now locationData
  = Some {| vr_isValid := false;
            vr_reasons :=
              [LocationTooOld
                 (Math_round (ageMinutesOf now (ToNumber (timestamp locationData))))];
            vr_location := None; vr_distance := None; vr_warnings := [];
            vr_closestLocation := None |}
  /\ (activelyBlocked now (userLogOf phone (suspiciousActivityLog store)) = false ->
      exists r store',
        validateGPSLocationAdvanced calculateDistance numberToString zones now
          locationData phone store = (Some r, store')
        /\ ar_isValid r = false
        /\ ar_suspiciousFlags r
           = evaluationFlags calculateDistance numberToString now locationData phone store
        /\ userLocationHistory store'
           = <[phone := historyWith now locationData phone (userLocationHistory store)]>
               (userLocationHistory store)
        /\ (ar_fraudRisk r = Risk_BLOCKED
            \/ head (ar_reasons r)
               = Some (LocationTooOld
                         (Math_round
                            (ageMinutesOf now (ToNumber (timestamp locationData))))))).
Proof.
  intros Hlat Hlng Hstale.
  pose proof (validateGPSLocation_stale calculateDistance zones now locationData
                Hlat Hlng Hstale) as Hbasic.
  split; [exact Hbasic|].
  intros Hfree.
  unfold validateGPSLocationAdvanced, evaluationFlags, analyzeLocationHistory, historyWith.
  rewrite manageSuspiciousUser_consult by done. simpl.
  rewrite Hlat, Hlng. simpl.
  set (flags := _ ++ _ ++ _).
  unfold combineResults. rewrite Hbasic.
  destruct (evaluateFraudRisk flags);
    try (eexists; eexists; split; [reflexivity|]; simpl; repeat split; by right).
  destruct (manageSuspiciousUser now phone flags _) as [userManagement log2].
  destruct (us_isBlocked userManagement);
    eexists; eexists; (split; [reflexivity|]); simpl; repeat split;
    [by left | by right].
Qed.

(** A new user sends a reading stamped three minutes ago: rejected as too
    old, with no flag, and already on the history. *)
Lemma stale_reading_rejected_after_fraud_analysis_witness :
  validateGPSLocation sampleDistance AUTHORIZED_LOCATIONS sampleNow staleReading
  = Some {| vr_isValid := false; vr_reasons := [LocationTooOld 3];
            vr_location := None; vr_distance := None; vr_warnings := [];
            vr_closestLocation := None |}
  /\ exists r store',
       validateGPSLocationAdvanced sampleDistance decimalString AUTHORIZED_LOCATIONS
         sampleNow staleReading samplePhone emptyStore = (Some r, store')
       /\ ar_isValid r = false
       /\ ar_suspiciousFlags r
          = evaluationFlags sampleDistance decimalString sampleNow staleReading
              samplePhone emptyStore
       /\ userLocationHistory store'
          = <[samplePhone := historyWith sampleNow staleReading samplePhone ∅]> ∅
       /\ (ar_fraudRisk r = Risk_BLOCKED
           \/ head (ar_reasons r) = Some (LocationTooOld 3)).
Proof.
  destruct (stale_reading_rejected_after_fraud_analysis sampleDistance decimalString
              AUTHORIZED_LOCATIONS sampleNow staleReading samplePhone emptyStore
              eq_refl eq_refl eq_refl) as [Hbasic Hadvanced].
  split; [exact Hbasic | exact (Hadvanced eq_refl)].
Defined.

(** C1 fails as stated: the fourth reading from one spot, three minutes
    old, is rejected as too old, but only after the fraud analysis ran on
    it. Three flags were produced and are reported, the history of the
    user grew from three entries to four, and two warnings went on the
    record of the user. *)
Lemma stale_reading_reaches_fraud_analysis :
  exists r store',
    validateGPSLocationAdvanced sampleDistance decimalString AUTHORIZED_LOCATIONS
      sampleNow staleReading samplePhone repeatedStore = (Some r, store')
    /\ ar_reasons r = [LocationTooOld 3; FraudRejected]
    /\ ar_suspiciousFlags r
       = [ {| flag_type := PERFECT_COORDINATES; flag_severity := HIGH;
              flag_message := TooManyZeros |};
           {| flag_type := IDENTICAL_LOCATIONS; flag_severity := HIGH;
              flag_message := IdenticalDetected 4 |};
           {| flag_type := LOW_GPS_VARIATION; flag_severity := MEDIUM;
              flag_message := LowVariation |} ]
    /\ ar_warnings r = [SuspiciousSignals 3]
    /\ length <$> userLocationHistory repeatedStore !! samplePhone = Some 3%nat
    /\ length <$> userLocationHistory store' !! samplePhone = Some 4%nat
    /\ warnings <$> suspiciousActivityLog store' !! samplePhone = Some 2.
Proof.
  eexists. eexists. split; [vm_compute; reflexivity|].
  repeat split; vm_compute; reflexivity.
Qed.

(** ** The risk level of an evaluation *)

(** C5. The risk level computed from the flags of one evaluation is HIGH
    when at least 2 of them are of HIGH severity, otherwise MEDIUM when at
    least 1 is of HIGH severity or at least 2 are of MEDIUM severity,
    otherwise LOW; and the risk an evaluation reports is that level of the
    flags it reports, unless it reports the user as blocked. *)
Theorem fraud_risk_from_flag_counts
    (calculateDistance : Q -> Q -> Q -> Q -> Z) (numberToString : Q -> string)
    (zones : list Location) (now : Z) (locationData : LocationData)
    (phone : string) (store : FraudStore) (flags : list SuspiciousFlag) :
  ((2 <= countSeverity HIGH flags)%nat -> evaluateFraudRisk flags = Risk_HIGH)
  /\ ((countSeverity HIGH flags < 2)%nat ->
      (1 <= countSeverity HIGH flags)%nat \/ (2 <= countSeverity MEDIUM flags)%nat ->
      evaluateFraudRisk flags = Risk_MEDIUM)
  /\ ((countSeverity HIGH flags < 1)%nat ->
      (countSeverity MEDIUM flags < 2)%nat ->
      evaluateFraudRisk flags = Risk_LOW)
  /\ (forall r,
        fst (validateGPSLocationAdvanced calculateDistance numberToString zones now
               locationData phone store) = Some r ->
        ar_fraudRisk r = Risk_BLOCKED
        \/ ar_fraudRisk r = evaluateFraudRisk (ar_suspiciousFlags r)).
Proof.
  unfold evaluateFraudRisk.
  rewrite filter_HIGH_length, filter_MEDIUM_length.
  repeat split.
  - intros H. by destruct (Nat.leb_spec 2 (countSeverity HIGH flags)); [|lia].
  - intros Hlt Hsome.
    destruct (Nat.leb_spec 2 (countSeverity HIGH flags)); [lia|].
    destruct (Nat.leb_spec 1 (countSeverity HIGH flags));
      destruct (Nat.leb_spec 2 (countSeverity MEDIUM flags)); simpl; try done; lia.
  - intros Hhigh Hmedium.
    destruct (Nat.leb_spec 2 (countSeverity HIGH flags)); [lia|].
    destruct (Nat.leb_spec 1 (countSeverity HIGH flags)); [lia|].
    by destruct (Nat.leb_spec 2 (countSeverity MEDIUM flags)); [lia|].
  - intros r Hr.
    destruct (activelyBlocked now (userLogOf phone (suspiciousActivityLog store)))
      eqn:Hblock.
    { rewrite advanced_blocked in Hr by done. injection Hr as <-. by left. }
    destruct (negb (truthy (latitude locationData))
              || negb (truthy (longitude locationData))) eqn:Hmissing.
    { rewrite advanced_missing in Hr by done. injection Hr as <-. by right. }
    apply orb_false_iff in Hmissing as [Hlat Hlng].
    apply negb_false_iff in Hlat, Hlng.
    destruct (advanced_analysed calculateDistance numberToString zones now phone
                locationData store Hblock Hlat Hlng) as [_ Hresult].
    destruct (Hresult r Hr) as [_ [[Hb _]|[Hrisk _]]]; [by left | by right].
Qed.

(** Two HIGH flags make a HIGH risk; one MEDIUM flag alone a LOW one. *)
Lemma fraud_risk_from_flag_counts_witness :
  evaluateFraudRisk twoHighFlags = Risk_HIGH
  /\ evaluateFraudRisk [{| flag_type := LOW_GPS_VARIATION; flag_severity := MEDIUM;
                           flag_message := LowVariation |}] = Risk_LOW.
Proof.
  split.
  - refine (proj1 (fraud_risk_from_flag_counts sampleDistance decimalString
                     AUTHORIZED_LOCATIONS sampleNow staleReading samplePhone emptyStore
                     twoHighFlags) _).
    simpl. lia.
  - refine (proj1 (proj2 (proj2 (fraud_risk_from_flag_counts sampleDistance decimalString
                     AUTHORIZED_LOCATIONS sampleNow staleReading samplePhone emptyStore
                     [{| flag_type := LOW_GPS_VARIATION; flag_severity := MEDIUM;
                         flag_message := LowVariation |}]))) _ _); simpl; lia.
Defined.

(** ** The derived state of an employee *)

(** What the code derives the status from: the latest record of the user
    whatever its validation status, used only when it is VALID. *)
Lemma currentStatus_from_latest_record
    (now : Z) (session : EmployeeSession)
    (lastRecord : option AttendanceRecord) (todayRecords : list AttendanceRecord) :
  currentStatus (fst (computeState now session lastRecord todayRecords)) = IN
  <-> exists r, lastRecord = Some r /\ validation_status r = VALID
                /\ action_type r = entrada.
Proof.
  unfold computeState.
  destruct (readPendingAction now session) as [[pending pendingWarnings] session'].
  unfold readLastRecord, is_VALID.
  destruct lastRecord as [r|]; simpl.
  - destruct (validation_status r) eqn:Hv, (action_type r) eqn:Ha; simpl;
      split; try done; try (intros (r' & [= <-] & ? & ?); congruence).
    intros _. by exists r.
  - split; [done|]. by intros (r' & ? & _).
Qed.

(** C2, at the failing input. After a validated entry and a later exit
    attempt that was rejected, the most recent record with status VALID
    is the entry, and the state the code derives is OUT with no last
    action: the latest record is the rejected one, and the code drops it
    without looking further back. *)
Theorem rejected_attempt_hides_last_entry :
  action_type <$> lastValidatedRecord_spec entryThenRejectedExit
                    (extractPhoneNumber samplePhone) = Some entrada
  /\ validation_status
       <$> getLastAttendanceRecord sampleEnv entryThenRejectedExit
             (extractPhoneNumber samplePhone) = Some INVALID
  /\ currentStatus
       (fst (getEmployeeCurrentState sampleEnv entryThenRejectedExit samplePhone true
               emptyControl)) = OUT
  /\ lastAction
       (fst (getEmployeeCurrentState sampleEnv entryThenRejectedExit samplePhone true
               emptyControl)) = None.
Proof. repeat split; vm_compute; reflexivity. Qed.

(** ** Pending actions in the state machine *)

Lemma pendingAge_lt_10 (now since : Z) :
  Qltb (inject_Z (now - since) / (1000 * 60))%Q 10 = (now - since <? 600000).
Proof.
  unfold Qltb, Qle_bool, Qdiv, Qmult, Qinv, inject_Z. simpl.
  change (Z.pos (1 * (1000 * 60))) with 60000.
  change (Z.pos (1 * 1)) with 1.
  destruct (Z.ltb_spec (now - since) 600000),
    (Z.leb_spec (10 * 60000) ((now - since) * 1 * 1));
    simpl; try done; lia.
Qed.

Lemma readPendingAction_live (now : Z) (session : EmployeeSession) pending since :
  pendingAction session = Some pending ->
  pendingActionTime session = Some since ->
  since <> 0 ->
  now - since < 600000 ->
  readPendingAction now session
  = (Some pending,
     [PendingActionWarning pending
        (Math_round (inject_Z (now - since) / (1000 * 60))%Q)],
     session).
Proof.
  intros Hp Ht Hnz Hlive. unfold readPendingAction. rewrite Hp, Ht.
  destruct (Z.eqb_spec since 0); [done|].
  rewrite pendingAge_lt_10.
  by destruct (Z.ltb_spec (now - since) 600000); [|lia].
Qed.

Lemma readPendingAction_none (now : Z) (session : EmployeeSession) :
  pendingAction session = None ->
  readPendingAction now session = (None, [], session).
Proof. intros H. unfold readPendingAction. by rewrite H. Qed.

Lemma getEmployeeCurrentState_refresh env table wid (sc : StateControl) :
  fst (getEmployeeCurrentState env table wid true sc) = refreshedState env table wid sc.
Proof.
  unfold getEmployeeCurrentState, refreshedState.
  destruct (getOrCreateEmployeeSession _ _ _) as [session sessions1]. simpl.
  destruct (computeState _ _ _ _) as [state session'].
  by destruct (employeeStates sc !! _).
Qed.

Lemma validateAttendanceAction_decides env table wid requested (sc : StateControl) :
  fst (validateAttendanceAction env table wid requested sc)
  = decideAction (refreshedState env table wid sc) requested.
Proof.
  unfold validateAttendanceAction.
  rewrite <- getEmployeeCurrentState_refresh.
  by destruct (getEmployeeCurrentState _ _ _ _ _).
Qed.

Lemma actionRules_sameFacts (a b : EmployeeState) (requested : ActionType) :
  sameFacts a b ->
  isAllowed <$> actionRules a requested = isAllowed <$> actionRules b requested
  /\ reason <$> actionRules a requested = reason <$> actionRules b requested
  /\ suggestions <$> actionRules a requested = suggestions <$> actionRules b requested.
Proof.
  intros (Hw & Hs & Ht & He & Hx & Hh & Hm).
  unfold actionRules, entryRules, exitRules.
  rewrite Hw, Hs, Ht, He, Hx, Hh, Hm.
  destruct requested.
  - destruct (isWorkingHours b), (is_OUT (currentStatus b)),
      (STATE_CONTROL_CONFIG.MAX_ENTRIES_PER_DAY <=? todayEntries b)%nat,
      (hasMinTimeWarning b); done.
  - destruct (is_OUT (currentStatus b)), (todayExits b =? 0)%nat, (lastActionTime b),
      (hasMinTimeWarning b); done.
Qed.

(** The rules themselves never answer with a pending conflict. *)
Lemma actionRules_no_conflict (state : EmployeeState) (requested : ActionType) v :
  actionRules state requested = Some v ->
  match reason v with
  | PendingConflict _ => False
  | _ => True
  end.
Proof.
  unfold actionRules, entryRules, exitRules.
  destruct requested.
  - destruct (isWorkingHours state), (is_OUT (currentStatus state)),
      (STATE_CONTROL_CONFIG.MAX_ENTRIES_PER_DAY <=? todayEntries state)%nat,
      (hasMinTimeWarning state); intros [= <-]; exact I.
  - destruct (is_OUT (currentStatus state)), (todayExits state =? 0)%nat,
      (lastActionTime state), (hasMinTimeWarning state); intros [= <-]; exact I.
Qed.

(** With a live pending action on the session, the refreshed state shows
    it, and agrees on every fact the rules read with the state of the same
    user without the pending action. *)
Lemma refreshedState_pending env table wid (sc : StateControl) session pending since :
  employeeSessions sc !! extractPhoneNumber wid = Some session ->
  pendingAction session = Some pending ->
  pendingActionTime session = Some since ->
  since <> 0 ->
  env_now env - since < 600000 ->
  st_pendingAction (refreshedState env table wid sc) = Some pending
  /\ st_pendingAction
       (refreshedState env table wid (withSession wid (withoutPending session) sc))
     = None
  /\ sameFacts (refreshedState env table wid sc)
       (refreshedState env table wid (withSession wid (withoutPending session) sc)).
Proof.
  intros Hs Hp Ht Hnz Hlive.
  unfold refreshedState, withSession, getOrCreateEmployeeSession. simpl.
  rewrite Hs, lookup_insert_eq. simpl.
  unfold computeState.
  erewrite readPendingAction_live by (simpl; eauto).
  rewrite readPendingAction_none by done.
  destruct (readLastRecord _ _) as [[[[[status action] actionTime] hours] missing] ws].
  simpl. unfold sameFacts, hasMinTimeWarning. simpl. done.
Qed.

(** C8. For a user with a live pending action, requesting the other
    action is denied with the pending-conflict reason; requesting the
    pending action again is not: the request is judged by the ordinary
    rules, with the verdict, reason and suggestions the same user would
    get without any pending action. *)
Theorem pending_conflict_or_retry
    (env : Env) (table : list AttendanceRecord) (wid : string)
    (requested pending : ActionType) (since : Z)
    (session : EmployeeSession) (sc : StateControl) :
  employeeSessions sc !! extractPhoneNumber wid = Some session ->
  pendingAction session = Some pending ->
  pendingActionTime session = Some since ->
  since <> 0 ->
  env_now env - since < 600000 ->
  (pending <> requested ->
   fst (validateAttendanceAction env table wid requested sc)
   = Some {| isAllowed := false;
             reason := PendingConflict pending;
             employeeState := refreshedState env table wid sc;
             suggestions := [SendLocationFor pending; SendCancel] |})
  /\ (pending = requested ->
      fst (validateAttendanceAction env table wid requested sc)
      = actionRules (refreshedState env table wid sc) requested
      /\ (forall v,
            fst (validateAttendanceAction env table wid requested sc) = Some v ->
            forall p, reason v <> PendingConflict p)
      /\ isAllowed <$> fst (validateAttendanceAction env table wid requested sc)
         = isAllowed <$> fst (validateAttendanceAction env table wid requested
                                (withSession wid (withoutPending session) sc))
      /\ reason <$> fst (validateAttendanceAction env table wid requested sc)
         = reason <$> fst (validateAttendanceAction env table wid requested
                             (withSession wid (withoutPending session) sc))
      /\ suggestions <$> fst (validateAttendanceAction env table wid requested sc)
         = suggestions <$> fst (validateAttendanceAction env table wid requested
                                  (withSession wid (withoutPending session) sc))).
Proof.
  intros Hs Hp Ht Hnz Hlive.
  destruct (refreshedState_pending env table wid sc session pending since
              Hs Hp Ht Hnz Hlive) as (Hpending & Hnone & Hfacts).
  rewrite !validateAttendanceAction_decides.
  unfold decideAction. rewrite Hpending, Hnone.
  split.
  - intros Hne. by destruct pending, requested.
  - intros ->.
    assert (ActionType_eqb requested requested = true) as -> by by destruct requested.
    simpl. split; [done|]. split.
    + intros v Hv p Hp'. apply actionRules_no_conflict in Hv. by rewrite Hp' in Hv.
    + by apply actionRules_sameFacts.
Qed.

(** The sample user has [salida] pending since five minutes: [entrada] is
    denied for the conflict. With [entrada] pending, [entrada] is judged
    by the rules and allowed. *)
Lemma pending_conflict_or_retry_witness :
  fst (validateAttendanceAction sampleEnv [] samplePhone entrada (controlPending salida))
  = Some {| isAllowed := false;
            reason := PendingConflict salida;
            employeeState := refreshedState sampleEnv [] samplePhone (controlPending salida);
            suggestions := [SendLocationFor salida; SendCancel] |}
  /\ fst (validateAttendanceAction sampleEnv [] samplePhone entrada (controlPending entrada))
     = actionRules (refreshedState sampleEnv [] samplePhone (controlPending entrada)) entrada
  /\ reason <$> fst (validateAttendanceAction sampleEnv [] samplePhone entrada
                       (controlPending entrada))
     = Some EntryAllowed.
Proof.
  split; [|split].
  - refine (proj1 (pending_conflict_or_retry sampleEnv [] samplePhone entrada salida
                     (sampleNow - 300000) (sessionPending salida) (controlPending salida)
                     eq_refl eq_refl eq_refl _ _) _).
    + vm_compute. discriminate.
    + vm_compute. reflexivity.
    + discriminate.
  - refine (proj1 (proj2 (pending_conflict_or_retry sampleEnv [] samplePhone entrada entrada
                            (sampleNow - 300000) (sessionPending entrada)
                            (controlPending entrada)
                            eq_refl eq_refl eq_refl _ _) eq_refl)).
    + vm_compute. discriminate.
    + vm_compute. reflexivity.
  - reflexivity.
Defined.

(** ** The handler never marks a session pending *)

Lemma getOrCreateEmployeeSession_clear now wid (sessions : gmap string EmployeeSession) :
  (forall phone session, sessions !! phone = Some session -> pendingAction session = None) ->
  pendingAction (fst (getOrCreateEmployeeSession now wid sessions)) = None
  /\ (forall phone session,
        snd (getOrCreateEmployeeSession now wid sessions) !! phone = Some session ->
        pendingAction session = None).
Proof.
  intros Hclear. unfold getOrCreateEmployeeSession. simpl.
  assert (pendingAction
            match sessions !! extractPhoneNumber wid with
            | Some session =>
                {| phoneNumber := phoneNumber session; whatsappId := whatsappId session;
                   firstContact := firstContact session; lastActivity := now;
                   messageCount := messageCount session + 1;
                   pendingAction := pendingAction session;
                   pendingActionTime := pendingActionTime session |}
            | None =>
                {| phoneNumber := extractPhoneNumber wid; whatsappId := wid;
                   firstContact := now; lastActivity := now; messageCount := 0;
                   pendingAction := None; pendingActionTime := None |}
            end = None) as Hnew.
  { destruct (sessions !! extractPhoneNumber wid) as [session|] eqn:Hs; simpl; eauto. }
  split; [done|].
  intros phone session. rewrite lookup_insert.
  case_decide; [by intros [= <-] | by apply Hclear].
Qed.

Lemma getEmployeeCurrentState_keeps_clear env table wid force (sc : StateControl) :
  noSessionPending sc ->
  noSessionPending (snd (getEmployeeCurrentState env table wid force sc)).
Proof.
  intros Hclear. unfold getEmployeeCurrentState.
  destruct (getOrCreateEmployeeSession_clear (env_now env) wid (employeeSessions sc) Hclear)
    as [Hsession Hsessions].
  destruct (getOrCreateEmployeeSession _ _ _) as [session sessions1]. simpl in *.
  unfold computeState. rewrite readPendingAction_none by done.
  destruct (readLastRecord _ _) as [[[[[status action] actionTime] hours] missing] ws].
  assert (noSessionPending
            {| employeeStates := employeeStates sc; employeeSessions := sessions1 |})
    as Hcached by exact Hsessions.
  assert (forall states,
            noSessionPending
              {| employeeStates := states;
                 employeeSessions := <[extractPhoneNumber wid := session]> sessions1 |})
    as Hfresh.
  { intros states phone session'. simpl. rewrite lookup_insert.
    case_decide; [by intros [= <-] | by apply Hsessions]. }
  destruct (employeeStates sc !! _) as [cached|]; [|by apply Hfresh].
  destruct (negb force && _ && _); [done | by apply Hfresh].
Qed.

Lemma refreshedState_clear env table wid (sc : StateControl) :
  noSessionPending sc ->
  st_pendingAction (refreshedState env table wid sc) = None
  /\ canEnter (refreshedState env table wid sc)
     = is_OUT (currentStatus (refreshedState env table wid sc))
       && (todayEntries (refreshedState env table wid sc)
           <? STATE_CONTROL_CONFIG.MAX_ENTRIES_PER_DAY)%nat
       && isWorkingHours (refreshedState env table wid sc)
  /\ canExit (refreshedState env table wid sc)
     = negb (is_OUT (currentStatus (refreshedState env table wid sc))).
Proof.
  intros Hclear. unfold refreshedState.
  destruct (getOrCreateEmployeeSession_clear (env_now env) wid (employeeSessions sc) Hclear)
    as [Hsession _].
  destruct (getOrCreateEmployeeSession _ _ _) as [session sessions1]. simpl in *.
  unfold computeState. rewrite readPendingAction_none by done.
  destruct (readLastRecord _ _) as [[[[[status action] actionTime] hours] missing] ws].
  simpl. by rewrite !andb_true_r.
Qed.

Section ServerProperties.

Variable calculateDistance : Q -> Q -> Q -> Q -> Z.
Variable numberToString : Q -> string.
Variable zones : list Location.

Local Abbreviation handle := (onMessage calculateDistance numberToString zones).

Lemma onAttendanceCommand_keeps_clear env from action (s : System) :
  noSessionPending (stateControl s) ->
  noSessionPending (stateControl (snd (onAttendanceCommand env from action s))).
Proof.
  intros Hclear. unfold onAttendanceCommand, validateAttendanceAction.
  pose proof (getEmployeeCurrentState_keeps_clear env (attendance_records s) from true
                (stateControl s) Hclear) as Hkept.
  destruct (getEmployeeCurrentState _ _ _ _ _) as [state sc].
  by destruct (decideAction state action).
Qed.

Lemma onMessage_keeps_clear env message (s : System) :
  noSessionPending (stateControl s) ->
  noSessionPending (stateControl (snd (handle env message s))).
Proof.
  intros Hclear. unfold onMessage.
  destruct (msg_location message) as [location|].
  - unfold onLocation.
    destruct (pendingAttendanceRequests s !! msg_from message); [|done].
    destruct (validateGPSLocationAdvanced _ _ _ _ _ _ _) as [[result|] store]; done.
  - unfold onText.
    destruct (parseCommand (msg_body message)); try done.
    + by apply onAttendanceCommand_keeps_clear.
    + by apply onAttendanceCommand_keeps_clear.
    + by destruct (pendingAttendanceRequests s !! msg_from message).
    + pose proof (getEmployeeCurrentState_keeps_clear env (attendance_records s)
                    (msg_from message) true (stateControl s) Hclear) as Hkept.
      by destruct (getEmployeeCurrentState _ _ _ _ _) as [state sc].
    + by destruct (pendingAttendanceRequests s !! msg_from message).
Qed.

Lemma step_keeps_clear (s : System) (e : Event) :
  noSessionPending (stateControl s) ->
  noSessionPending
    (stateControl (step calculateDistance numberToString zones s e)).
Proof.
  destruct e as [env message|dropped]; simpl; [|done].
  apply onMessage_keeps_clear.
Qed.

Lemma run_keeps_clear (events : list Event) : forall s : System,
  noSessionPending (stateControl s) ->
  noSessionPending
    (stateControl (fold_left (step calculateDistance numberToString zones) events s)).
Proof.
  induction events as [|e events IH]; intros s Hclear; [done|].
  simpl. apply IH. by apply step_keeps_clear.
Qed.

(** What the handler answers to [entrada] and [salida] in a state where
    no session is pending. *)
Lemma onMessage_validation env message (s : System) action validation :
  noSessionPending (stateControl s) ->
  fst (handle env message s) = Some (StateValidationMessage action validation) ->
  actionRules (refreshedState env (attendance_records s) (msg_from message)
                 (stateControl s)) action = Some validation
  /\ employeeState validation
     = refreshedState env (attendance_records s) (msg_from message) (stateControl s)
  /\ (isAllowed validation = true ->
      pendingAttendanceRequests (snd (handle env message s)) !! msg_from message
      = Some action).
Proof.
  intros Hclear. unfold onMessage.
  destruct (msg_location message) as [location|].
  { unfold onLocation.
    destruct (pendingAttendanceRequests s !! msg_from message); [|done].
    by destruct (validateGPSLocationAdvanced _ _ _ _ _ _ _) as [[result|] store]. }
  assert (forall requested,
            fst (onAttendanceCommand env (msg_from message) requested s)
            = Some (StateValidationMessage action validation) ->
            actionRules (refreshedState env (attendance_records s) (msg_from message)
                           (stateControl s)) action = Some validation
            /\ employeeState validation
               = refreshedState env (attendance_records s) (msg_from message)
                   (stateControl s)
            /\ (isAllowed validation = true ->
                pendingAttendanceRequests
                  (snd (onAttendanceCommand env (msg_from message) requested s))
                  !! msg_from message = Some action)) as Hcommand.
  { intros requested. unfold onAttendanceCommand.
    pose proof (validateAttendanceAction_decides env (attendance_records s)
                  (msg_from message) requested (stateControl s)) as Hdecides.
    destruct (validateAttendanceAction _ _ _ _ _) as [[v|] sc]; simpl in *; [|done].
    intros [= <- <-].
    unfold decideAction in Hdecides.
    destruct (refreshedState_clear env (attendance_records s) (msg_from message)
                (stateControl s) Hclear) as [Hnone _].
    rewrite Hnone in Hdecides. split; [done|]. split.
    - symmetry in Hdecides. revert Hdecides.
      unfold actionRules, entryRules, exitRules.
      set (state := refreshedState _ _ _ _).
      destruct requested;
        [ destruct (isWorkingHours state), (is_OUT (currentStatus state)),
            (STATE_CONTROL_CONFIG.MAX_ENTRIES_PER_DAY <=? todayEntries state)%nat,
            (hasMinTimeWarning state)
        | destruct (is_OUT (currentStatus state)), (todayExits state =? 0)%nat,
            (lastActionTime state), (hasMinTimeWarning state) ];
        intros [= <-]; done.
    - intros ->. simpl. apply lookup_insert_eq. }
  unfold onText.
  destruct (parseCommand (msg_body message)); try done; try apply Hcommand.
  - by destruct (pendingAttendanceRequests s !! msg_from message).
  - by destruct (getEmployeeCurrentState _ _ _ _ _).
  - by destruct (pendingAttendanceRequests s !! msg_from message).
Qed.

End ServerProperties.

(** C9. Whatever messages and periodic cleanings the process has gone
    through, no employee session holds a pending action: the handler only
    ever writes the pending action of an allowed [entrada] or [salida] to
    its own map of pending requests. Hence the answer to such a command is
    never the pending-conflict denial, the state it was judged on shows
    no pending action, and [canEnter] and [canExit] are decided by the
    status, the daily count and the working hours alone. *)
Theorem session_pending_never_set
    (calculateDistance : Q -> Q -> Q -> Q -> Z) (numberToString : Q -> string)
    (zones : list Location) (events : list Event)
    (env : Env) (message : IncomingMessage) :
  noSessionPending (stateControl (run calculateDistance numberToString zones events))
  /\ (forall action validation,
        fst (onMessage calculateDistance numberToString zones env message
               (run calculateDistance numberToString zones events))
        = Some (StateValidationMessage action validation) ->
        (forall pending, reason validation <> PendingConflict pending)
        /\ st_pendingAction (employeeState validation) = None
        /\ canEnter (employeeState validation)
           = is_OUT (currentStatus (employeeState validation))
             && (todayEntries (employeeState validation)
                 <? STATE_CONTROL_CONFIG.MAX_ENTRIES_PER_DAY)%nat
             && isWorkingHours (employeeState validation)
        /\ canExit (employeeState validation)
           = negb (is_OUT (currentStatus (employeeState validation)))
        /\ (isAllowed validation = true ->
            pendingAttendanceRequests
              (snd (onMessage calculateDistance numberToString zones env message
                      (run calculateDistance numberToString zones events)))
              !! msg_from message = Some action)).
Proof.
  assert (noSessionPending
            (stateControl (run calculateDistance numberToString zones events)))
    as Hclear.
  { unfold run. apply run_keeps_clear. intros phone session. simpl.
    by rewrite lookup_empty. }
  split; [exact Hclear|].
  intros action validation Hanswer.
  destruct (onMessage_validation calculateDistance numberToString zones env message
              _ action validation Hclear Hanswer) as (Hrules & Hstate & Hpending).
  destruct (refreshedState_clear env
              (attendance_records (run calculateDistance numberToString zones events))
              (msg_from message)
              (stateControl (run calculateDistance numberToString zones events))
              Hclear) as (Hnone & Henter & Hexit).
  rewrite Hstate. repeat split; try done.
  intros pending Hconflict.
  apply actionRules_no_conflict in Hrules. by rewrite Hconflict in Hrules.
Qed.

(** After the sample user has sent [entrada] and been allowed, the
    pending entry sits in the map of the handler and the session holds
    none. *)
Lemma session_pending_never_set_witness :
  exists session,
    employeeSessions
      (stateControl (run sampleDistance decimalString AUTHORIZED_LOCATIONS [entradaCommand]))
      !! "5491123456789" = Some session
    /\ pendingAction session = None
    /\ pendingAttendanceRequests
         (run sampleDistance decimalString AUTHORIZED_LOCATIONS [entradaCommand])
         !! samplePhone = Some entrada.
Proof.
  eexists. split; [vm_compute; reflexivity|]. split.
  - refine (proj1 (session_pending_never_set sampleDistance decimalString
                     AUTHORIZED_LOCATIONS [entradaCommand] sampleEnv
                     {| msg_from := samplePhone; msg_body := "salida";
                        msg_location := None |}) "5491123456789" _ _).
    vm_compute. reflexivity.
  - vm_compute. reflexivity.
Defined.

(** * Further properties of the code *)

(** ** Bounds and shape of the anti-fraud stores *)

Lemma pushBounded_length {A} (bound : nat) (l : list A) (entry : A) :
  (length l <= bound)%nat -> (length (pushBounded bound l entry) <= bound)%nat.
Proof.
  intros H. unfold pushBounded.
  destruct (Nat.ltb_spec bound (length (l ++ [entry]))) as [Hlt|Hge]; [|done].
  rewrite length_app in Hlt. simpl in Hlt.
  destruct l as [|a l]; simpl in *; [lia|].
  rewrite length_app. simpl. lia.
Qed.

Lemma historyWith_bounded now locationData phone
    (history : gmap string (list HistoryEntry)) :
  historiesBounded history ->
  historiesBounded (<[phone := historyWith now locationData phone history]> history).
Proof.
  intros Hb phone' entries. rewrite lookup_insert.
  case_decide as Hphone; [|by apply Hb].
  intros [= <-]. unfold historyWith. apply pushBounded_length.
  destruct (history !! phone) as [l|] eqn:Hl; simpl; [by eapply Hb | lia].
Qed.

Lemma unblockIfExpired_wellFormed now (userLog : UserLog) :
  wellFormedLog userLog ->
  activelyBlocked now userLog = false ->
  isBlocked (unblockIfExpired now userLog) = false
  /\ wellFormedLog (unblockIfExpired now userLog).
Proof.
  intros Hwf Hfree. unfold unblockIfExpired, activelyBlocked in *.
  destruct (isBlocked userLog) eqn:Hb; simpl in *; [|by rewrite Hb].
  apply Z.ltb_ge in Hfree.
  destruct (Z.leb_spec (blockUntilMs userLog) now) as [_|]; [|lia].
  split; [done|]. destruct Hwf as (Hinc & _).
  unfold wellFormedLog. simpl. repeat split; try done.
Qed.

Lemma newUserLog_wellFormed : wellFormedLog newUserLog.
Proof. unfold wellFormedLog. simpl. repeat split; try done; lia. Qed.

Lemma userLogOf_wellFormed phone (log : gmap string UserLog) :
  logsWellFormed log -> wellFormedLog (userLogOf phone log).
Proof.
  intros Hwf. unfold userLogOf.
  destruct (log !! phone) as [userLog|] eqn:Hl; simpl;
    [by eapply Hwf | apply newUserLog_wellFormed].
Qed.

Lemma insert_wellFormed phone (userLog : UserLog) (log : gmap string UserLog) :
  logsWellFormed log -> wellFormedLog userLog ->
  logsWellFormed (<[phone := userLog]> log).
Proof.
  intros Hwf Hu phone' userLog'. rewrite lookup_insert.
  case_decide; [by intros [= <-] | by apply Hwf].
Qed.

Lemma manageSuspiciousUser_wellFormed now phone flags (log : gmap string UserLog) :
  logsWellFormed log ->
  logsWellFormed (snd (manageSuspiciousUser now phone flags log)).
Proof.
  intros Hwf. pose proof (userLogOf_wellFormed phone log Hwf) as Hu.
  unfold manageSuspiciousUser.
  destruct (activelyBlocked now (userLogOf phone log)) eqn:Hblock.
  { by apply insert_wellFormed. }
  destruct (unblockIfExpired_wellFormed now _ Hu Hblock) as [Hfree Hwf'].
  set (userLog := unblockIfExpired now (userLogOf phone log)) in *.
  pose proof Hwf' as (Hinc & Hpos & _ & Hnot).
  destruct (Hnot Hfree) as [Hnone Hlt].
  destruct (0 <? length _)%nat; [|by apply insert_wellFormed].
  destruct (Z.leb_spec ADVANCED_FRAUD_CONFIG.MAX_WARNINGS_PER_USER
              (warnings userLog
               + Z.of_nat (length (filter (fun f => is_HIGH f = true) flags))))
    as [Hreach|Hbelow]; apply insert_wellFormed; try done;
    unfold wellFormedLog; simpl; rewrite ?Hfree;
    (split; [by apply pushBounded_length|]); (split; [lia|]);
    split; intros; try done; eauto.
Qed.

Section FraudStoreInvariants.

Variable calculateDistance : Q -> Q -> Q -> Q -> Z.
Variable numberToString : Q -> string.
Variable zones : list Location.

(** The two stores keep their shape through an evaluation. *)
Lemma advanced_keeps_shape now locationData phone (store : FraudStore) :
  historiesBounded (userLocationHistory store)
  /\ logsWellFormed (suspiciousActivityLog store) ->
  historiesBounded
    (userLocationHistory
       (snd (validateGPSLocationAdvanced calculateDistance numberToString zones now
               locationData phone store)))
  /\ logsWellFormed
       (suspiciousActivityLog
          (snd (validateGPSLocationAdvanced calculateDistance numberToString zones now
                  locationData phone store))).
Proof.
  intros [Hh Hl]. unfold validateGPSLocationAdvanced.
  pose proof (manageSuspiciousUser_wellFormed now phone [] _ Hl) as Hl1.
  destruct (manageSuspiciousUser now phone [] _) as [userStatus log1]. simpl in Hl1.
  destruct (us_isBlocked userStatus); [done|].
  destruct (negb _ || negb _); [done|].
  unfold analyzeLocationHistory. simpl.
  set (flags := _ ++ _ ++ _).
  pose proof (historyWith_bounded now locationData phone _ Hh) as Hh1.
  unfold historyWith in Hh1.
  pose proof (manageSuspiciousUser_wellFormed now phone flags _ Hl1) as Hl2.
  destruct (evaluateFraudRisk flags); try done.
  destruct (manageSuspiciousUser now phone flags log1) as [userManagement log2].
  by destruct (us_isBlocked userManagement).
Qed.

Lemma step_keeps_shape (s : System) (e : Event) :
  historiesBounded (userLocationHistory (fraudStore s))
  /\ logsWellFormed (suspiciousActivityLog (fraudStore s)) ->
  historiesBounded
    (userLocationHistory
       (fraudStore (step calculateDistance numberToString zones s e)))
  /\ logsWellFormed
       (suspiciousActivityLog
          (fraudStore (step calculateDistance numberToString zones s e))).
Proof.
  intros Hs. destruct e as [env message|dropped]; simpl; [|done].
  unfold onMessage. destruct (msg_location message) as [location|].
  - unfold onLocation.
    destruct (pendingAttendanceRequests s !! msg_from message); [|done].
    pose proof (advanced_keeps_shape (env_now env) location (msg_from message) _ Hs)
      as Hkept.
    by destruct (validateGPSLocationAdvanced _ _ _ _ _ _ _) as [[result|] store].
  - unfold onText, onAttendanceCommand.
    destruct (parseCommand (msg_body message)); try done.
    + destruct (validateAttendanceAction _ _ _ _ _) as [[v|] sc]; done.
    + destruct (validateAttendanceAction _ _ _ _ _) as [[v|] sc]; done.
    + by destruct (pendingAttendanceRequests s !! msg_from message).
    + by destruct (getEmployeeCurrentState _ _ _ _ _).
    + by destruct (pendingAttendanceRequests s !! msg_from message).
Qed.

Lemma run_keeps_shape (events : list Event) :
  historiesBounded
    (userLocationHistory (fraudStore (run calculateDistance numberToString zones events)))
  /\ logsWellFormed
       (suspiciousActivityLog
          (fraudStore (run calculateDistance numberToString zones events))).
Proof.
  unfold run.
  assert (historiesBounded (userLocationHistory (fraudStore initialSystem))
          /\ logsWellFormed (suspiciousActivityLog (fraudStore initialSystem))) as Hinit.
  { split; intros phone x; simpl; by rewrite lookup_empty. }
  revert Hinit. generalize initialSystem.
  induction events as [|e events IH]; intros s Hs; [done|].
  simpl. apply IH. by apply step_keeps_shape.
Qed.

End FraudStoreInvariants.

(** X1. Whatever the process has handled, the location history kept for a
    user holds at most 10 readings. *)
Theorem history_never_exceeds_ten
    (calculateDistance : Q -> Q -> Q -> Q -> Z) (numberToString : Q -> string)
    (zones : list Location) (events : list Event)
    (phone : string) (entries : list HistoryEntry) :
  userLocationHistory (fraudStore (run calculateDistance numberToString zones events))
    !! phone = Some entries ->
  (length entries <= 10)%nat.
Proof.
  intros H.
  by apply (proj1 (run_keeps_shape calculateDistance numberToString zones events) phone).
Qed.

(** After the sample user has asked for an entry and shared a location,
    the history of the user holds that one reading. *)
Lemma history_never_exceeds_ten_witness :
  userLocationHistory
    (fraudStore (run sampleDistance decimalString AUTHORIZED_LOCATIONS
                   [entradaCommand; freshLocation]))
    !! samplePhone
  = Some [{| he_lat := (-37.3716)%Q; he_lng := (-59.1168)%Q;
             he_timestamp := 1699999990%Q |}]
  /\ (length [{| he_lat := (-37.3716)%Q; he_lng := (-59.1168)%Q;
                he_timestamp := 1699999990%Q |}] <= 10)%nat.
Proof.
  assert (userLocationHistory
            (fraudStore (run sampleDistance decimalString AUTHORIZED_LOCATIONS
                           [entradaCommand; freshLocation]))
            !! samplePhone
          = Some [{| he_lat := (-37.3716)%Q; he_lng := (-59.1168)%Q;
                     he_timestamp := 1699999990%Q |}]) as H
    by (vm_compute; reflexivity).
  split; [exact H|].
  exact (history_never_exceeds_ten sampleDistance decimalString AUTHORIZED_LOCATIONS
           [entradaCommand; freshLocation] samplePhone _ H).
Defined.

(** X2. Whatever the process has handled, the record kept on a user has at
    most 20 incidents; a user marked blocked has a block end and at least
    5 warnings; a user not marked blocked has no block end and between 0
    and 4 warnings. *)
Theorem suspicious_log_keeps_its_shape
    (calculateDistance : Q -> Q -> Q -> Q -> Z) (numberToString : Q -> string)
    (zones : list Location) (events : list Event)
    (phone : string) (userLog : UserLog) :
  suspiciousActivityLog (fraudStore (run calculateDistance numberToString zones events))
    !! phone = Some userLog ->
  (length (incidents userLog) <= 20)%nat
  /\ (isBlocked userLog = true ->
      (exists blockEnd, blockUntil userLog = Some blockEnd) /\ 5 <= warnings userLog)
  /\ (isBlocked userLog = false ->
      blockUntil userLog = None /\ 0 <= warnings userLog < 5).
Proof.
  intros H.
  destruct (proj2 (run_keeps_shape calculateDistance numberToString zones events)
              phone userLog H) as (Hinc & Hpos & Hblocked & Hfree).
  split; [done|]. split; [done|].
  intros Hb. destruct (Hfree Hb) as [Hnone Hlt]. split; [done|].
  unfold ADVANCED_FRAUD_CONFIG.MAX_WARNINGS_PER_USER in Hlt. lia.
Qed.

(** After the same two messages the record of the sample user is a clean
    one. *)
Lemma suspicious_log_keeps_its_shape_witness :
  suspiciousActivityLog
    (fraudStore (run sampleDistance decimalString AUTHORIZED_LOCATIONS
                   [entradaCommand; freshLocation]))
    !! samplePhone = Some newUserLog
  /\ (length (incidents newUserLog) <= 20)%nat
  /\ (isBlocked newUserLog = true ->
      (exists blockEnd, blockUntil newUserLog = Some blockEnd)
      /\ 5 <= warnings newUserLog)
  /\ (isBlocked newUserLog = false ->
      blockUntil newUserLog = None /\ 0 <= warnings newUserLog < 5).
Proof.
  assert (suspiciousActivityLog
            (fraudStore (run sampleDistance decimalString AUTHORIZED_LOCATIONS
                           [entradaCommand; freshLocation]))
            !! samplePhone = Some newUserLog) as H
    by (vm_compute; reflexivity).
  split; [exact H|].
  exact (suspicious_log_keeps_its_shape sampleDistance decimalString AUTHORIZED_LOCATIONS
           [entradaCommand; freshLocation] samplePhone _ H).
Defined.

(** ** The analyzers of the location history *)

Lemma pushBounded_snoc {A} (bound : nat) (older suffix : list A) (entry : A) :
  (length suffix < bound)%nat ->
  exists older', pushBounded bound (older ++ suffix) entry = older' ++ suffix ++ [entry].
Proof.
  intros Hlen. unfold pushBounded. rewrite <- app_assoc.
  destruct (Nat.ltb_spec bound (length (older ++ suffix ++ [entry]))) as [Hlt|_];
    [|by exists older].
  destruct older as [|a older]; simpl in *; [|by exists older].
  rewrite length_app in Hlt. simpl in Hlt. lia.
Qed.

Lemma pushBounded_grows {A} (bound : nat) (l : list A) (entry : A) :
  (length (pushBounded bound l entry) <= length l + 1)%nat.
Proof.
  unfold pushBounded.
  assert (length (l ++ [entry]) = length l + 1)%nat as Hlen
    by (rewrite length_app; simpl; lia).
  destruct (_ <? _)%nat; [|lia].
  destruct (l ++ [entry]); simpl in *; lia.
Qed.

Lemma identicalFlags_types (history : list HistoryEntry) :
  Forall (hasType IDENTICAL_LOCATIONS) (identicalFlags history).
Proof.
  unfold identicalFlags.
  destruct (2 <=? length history)%nat; [|done].
  destruct (rev history) as [|lastLocation previous]; [done|].
  destruct (_ <=? _)%nat; [|done]. by constructor.
Qed.

Lemma variationFlags_types (history : list HistoryEntry) :
  Forall (hasType LOW_GPS_VARIATION) (variationFlags history).
Proof.
  unfold variationFlags.
  destruct (3 <=? length history)%nat; [|done].
  destruct (Qltb _ _); [|done]. by constructor.
Qed.

Lemma speedFlags_types calculateDistance (history : list HistoryEntry) :
  Forall (hasType IMPOSSIBLE_SPEED) (speedFlags calculateDistance history).
Proof.
  unfold speedFlags.
  destruct (2 <=? length history)%nat; [|done].
  destruct (rev history) as [|current [|previous rest]]; try done.
  destruct (_ && _); [|done]. by constructor.
Qed.

(** X3. The reading that follows three readings from the same coordinates
    draws the IDENTICAL_LOCATIONS flag, of HIGH severity, counting four
    identical locations or more; the first three readings of a user never
    draw it. *)
Theorem fourth_identical_reading_flagged
    (calculateDistance : Q -> Q -> Q -> Q -> Z) (now : Z) (phone : string)
    (lat lng : Q) (timestamp : jsnum)
    (history : gmap string (list HistoryEntry))
    (older : list HistoryEntry) (e1 e2 e3 : HistoryEntry) :
  (history !! phone = Some (older ++ [e1; e2; e3]) ->
   readingAt lat lng e1 = true ->
   readingAt lat lng e2 = true ->
   readingAt lat lng e3 = true ->
   exists count,
     (4 <= count)%nat
     /\ {| flag_type := IDENTICAL_LOCATIONS; flag_severity := HIGH;
           flag_message := IdenticalDetected count |}
        ∈ fst (analyzeLocationHistory calculateDistance now phone lat lng timestamp
                 history))
  /\ ((length (default [] (history !! phone)) < 3)%nat ->
      forall f,
        f ∈ fst (analyzeLocationHistory calculateDistance now phone lat lng timestamp
                   history) ->
        flag_type f = IDENTICAL_LOCATIONS -> False).
Proof.
  split.
  - intros Hh H1 H2 H3. unfold analyzeLocationHistory. simpl. rewrite Hh. simpl.
    set (entry := {| he_lat := lat; he_lng := lng; he_timestamp := _ |}).
    destruct (pushBounded_snoc 10 older [e1; e2; e3] entry) as [older' ->];
      [simpl; lia|].
    unfold identicalFlags.
    destruct (Nat.leb_spec 2 (length (older' ++ [e1; e2; e3] ++ [entry]))) as [_|Hshort];
      [|rewrite length_app in Hshort; simpl in Hshort; lia].
    rewrite rev_app_distr.
    cbn [rev app identicalRun].
    unfold sameCoordinates, entry. cbn [he_lat he_lng].
    unfold readingAt in H1, H2, H3. rewrite H1, H2, H3.
    cbn [Nat.leb ADVANCED_FRAUD_CONFIG.MAX_IDENTICAL_LOCATIONS].
    eexists. split; [|apply elem_of_app; left; apply list_elem_of_here].
    lia.
  - intros Hshort f Hf Htype. unfold analyzeLocationHistory in Hf. simpl in Hf.
    apply elem_of_app in Hf as [Hf|Hf].
    + unfold identicalFlags in Hf.
      destruct (2 <=? _)%nat; [|by apply elem_of_nil in Hf].
      set (l := default [] (history !! phone)) in *.
      assert (length (rev (pushBounded 10 l
                {| he_lat := lat; he_lng := lng;
                   he_timestamp := if truthy timestamp then ToNumber timestamp
                                   else inject_Z now |})) <= 3)%nat as Hlen.
      { rewrite length_rev. pose proof (pushBounded_grows 10 l) as Hgrow.
        specialize (Hgrow {| he_lat := lat; he_lng := lng;
                             he_timestamp := if truthy timestamp then ToNumber timestamp
                                             else inject_Z now |}).
        unfold l in *. lia. }
      destruct (rev _) as [|lastLocation previous]; [by apply elem_of_nil in Hf|].
      assert (identicalRun lastLocation previous <= length previous)%nat as Hrun.
      { clear. induction previous as [|p previous IH]; simpl; [lia|].
        destruct (sameCoordinates lastLocation p); lia. }
      simpl in Hlen.
      destruct (Nat.leb_spec ADVANCED_FRAUD_CONFIG.MAX_IDENTICAL_LOCATIONS
                  (identicalRun lastLocation previous)) as [Hge|_];
        [|by apply elem_of_nil in Hf].
      unfold ADVANCED_FRAUD_CONFIG.MAX_IDENTICAL_LOCATIONS in Hge. lia.
    + apply elem_of_app in Hf as [Hf|Hf].
      * pose proof (variationFlags_types (pushBounded 10 (default [] (history !! phone))
                      {| he_lat := lat; he_lng := lng;
                         he_timestamp := if truthy timestamp then ToNumber timestamp
                                         else inject_Z now |})) as Hty.
        rewrite Forall_forall in Hty. specialize (Hty f Hf).
        unfold hasType in Hty. congruence.
      * pose proof (speedFlags_types calculateDistance
                      (pushBounded 10 (default [] (history !! phone))
                      {| he_lat := lat; he_lng := lng;
                         he_timestamp := if truthy timestamp then ToNumber timestamp
                                         else inject_Z now |})) as Hty.
        rewrite Forall_forall in Hty. specialize (Hty f Hf).
        unfold hasType in Hty. congruence.
Qed.

(** The sample user has sent three readings from one spot; the fourth one
    is flagged as the fourth identical location. *)
Lemma fourth_identical_reading_flagged_witness :
  exists count,
    (4 <= count)%nat
    /\ {| flag_type := IDENTICAL_LOCATIONS; flag_severity := HIGH;
          flag_message := IdenticalDetected count |}
       ∈ fst (analyzeLocationHistory sampleDistance sampleNow samplePhone
                (-37.370001)%Q (-59.110002)%Q (JNum 1699999820)
                (userLocationHistory repeatedStore)).
Proof.
  refine (proj1 (fourth_identical_reading_flagged sampleDistance sampleNow samplePhone
                   (-37.370001)%Q (-59.110002)%Q (JNum 1699999820)
                   (userLocationHistory repeatedStore) []
                   {| he_lat := (-37.370001)%Q; he_lng := (-59.110002)%Q;
                      he_timestamp := 1699999640%Q |}
                   {| he_lat := (-37.370001)%Q; he_lng := (-59.110002)%Q;
                      he_timestamp := 1699999700%Q |}
                   {| he_lat := (-37.370001)%Q; he_lng := (-59.110002)%Q;
                      he_timestamp := 1699999760%Q |}) _ _ _ _);
    vm_compute; reflexivity.
Defined.

Lemma Qltb_lt (x y : Q) : Qltb x y = true <-> (x < y)%Q.
Proof.
  unfold Qltb. rewrite negb_true_iff. split.
  - intros H. apply Qnot_le_lt. intros Hle. apply Qle_bool_iff in Hle. congruence.
  - intros H. destruct (Qle_bool y x) eqn:E; [|done].
    apply Qle_bool_iff in E. by apply Qlt_not_le in H.
Qed.

Lemma Qltb_ge (x y : Q) : Qltb x y = false <-> (y <= x)%Q.
Proof.
  unfold Qltb. rewrite negb_false_iff. apply Qle_bool_iff.
Qed.

Lemma Qeq_bool_true (x y : Q) : Qeq_bool x y = true <-> (x == y)%Q.
Proof. split; [apply Qeq_bool_eq | apply Qeq_eq_bool]. Qed.

Lemma types_exclude (t t' : FlagType) (flags : list SuspiciousFlag) :
  t <> t' -> Forall (hasType t) flags -> noFlagOfType t' flags.
Proof.
  intros Hne Hall. unfold noFlagOfType.
  eapply Forall_impl; [exact Hall|].
  unfold hasType. intros f -> . done.
Qed.

(** The speed of analysis 3 between two entries, and the test on it. *)
Lemma speedFlags_last_two calculateDistance (older : list HistoryEntry)
    (previous current : HistoryEntry) :
  speedFlags calculateDistance (older ++ [previous; current])
  = (let distance :=
       calculateDistance (he_lat previous) (he_lng previous)
                         (he_lat current) (he_lng current) in
     let speedKmH :=
       jsdiv (inject_Z distance / 1000)%Q
             ((he_timestamp current - he_timestamp previous) / 1000 / 3600)%Q in
     if jsquot_gt speedKmH ADVANCED_FRAUD_CONFIG.MAX_SPEED_BETWEEN_LOCATIONS
        && (1000 <? distance)
     then [{| flag_type := IMPOSSIBLE_SPEED; flag_severity := HIGH;
              flag_message := ImpossibleSpeed (jsquot_round speedKmH) |}]
     else []).
Proof.
  unfold speedFlags.
  destruct (Nat.leb_spec 2 (length (older ++ [previous; current]))) as [_|Hshort];
    [|rewrite length_app in Hshort; simpl in Hshort; lia].
  by rewrite rev_app_distr.
Qed.

Lemma speed_not_exceeded_backwards (distance : Z) (elapsed : Q) :
  1000 < distance ->
  (elapsed < 0)%Q ->
  jsquot_gt (jsdiv (inject_Z distance / 1000)%Q (elapsed / 1000 / 3600)%Q)
            ADVANCED_FRAUD_CONFIG.MAX_SPEED_BETWEEN_LOCATIONS = false.
Proof.
  intros Hd He. unfold jsdiv.
  assert (0 < inject_Z distance / 1000)%Q as Hx.
  { rewrite Zlt_Qlt in Hd. change (inject_Z 1000) with 1000%Q in Hd.
    unfold Qdiv. change (/ 1000)%Q with (1 # 1000)%Q. lra. }
  assert (elapsed / 1000 / 3600 < 0)%Q as Hy.
  { unfold Qdiv. change (/ 1000)%Q with (1 # 1000)%Q.
    change (/ 3600)%Q with (1 # 3600)%Q. lra. }
  set (x := (inject_Z distance / 1000)%Q) in *.
  set (y := (elapsed / 1000 / 3600)%Q) in *.
  destruct (Qeq_bool y 0) eqn:Hzero.
  { apply Qeq_bool_true in Hzero. lra. }
  simpl. apply Qltb_ge. unfold ADVANCED_FRAUD_CONFIG.MAX_SPEED_BETWEEN_LOCATIONS.
  assert (~ y == 0)%Q as Hne by lra.
  pose proof (Qmult_div_r x y Hne) as E.
  set (q := (x / y)%Q) in *.
  nra.
Qed.

Lemma speed_infinite_at_once (distance : Z) (elapsed : Q) :
  1000 < distance ->
  (elapsed == 0)%Q ->
  jsdiv (inject_Z distance / 1000)%Q (elapsed / 1000 / 3600)%Q = PlusInfinity.
Proof.
  intros Hd He. unfold jsdiv.
  assert (0 < inject_Z distance / 1000)%Q as Hx.
  { rewrite Zlt_Qlt in Hd. change (inject_Z 1000) with 1000%Q in Hd.
    unfold Qdiv. change (/ 1000)%Q with (1 # 1000)%Q. lra. }
  assert (elapsed / 1000 / 3600 == 0)%Q as Hy by (rewrite He; field).
  apply Qeq_bool_true in Hy. rewrite Hy.
  apply Qltb_lt in Hx. by rewrite Hx.
Qed.

(** X4. The IMPOSSIBLE_SPEED flag compares a reading with the one before
    it in the history of the user. It is never raised when the two lie at
    most 1000 m apart, nor when the reading is stamped earlier than the
    one before it, however far apart they are; and two readings more than
    1000 m apart with the same time stamp raise it, with an unbounded
    speed. *)
Theorem impossible_speed_needs_distance_and_order
    (calculateDistance : Q -> Q -> Q -> Q -> Z) (now : Z) (phone : string)
    (lat lng : Q) (timestamp : jsnum)
    (history : gmap string (list HistoryEntry))
    (older : list HistoryEntry) (previous : HistoryEntry) :
  history !! phone = Some (older ++ [previous]) ->
  (calculateDistance (he_lat previous) (he_lng previous) lat lng <= 1000 ->
   noFlagOfType IMPOSSIBLE_SPEED
     (fst (analyzeLocationHistory calculateDistance now phone lat lng timestamp history)))
  /\ ((entryTime now timestamp < he_timestamp previous)%Q ->
      noFlagOfType IMPOSSIBLE_SPEED
        (fst (analyzeLocationHistory calculateDistance now phone lat lng timestamp
                history)))
  /\ ((entryTime now timestamp == he_timestamp previous)%Q ->
      1000 < calculateDistance (he_lat previous) (he_lng previous) lat lng ->
      {| flag_type := IMPOSSIBLE_SPEED; flag_severity := HIGH;
         flag_message := ImpossibleSpeed None |}
      ∈ fst (analyzeLocationHistory calculateDistance now phone lat lng timestamp
               history)).
Proof.
  intros Hh. unfold analyzeLocationHistory, entryTime. simpl. rewrite Hh. simpl.
  set (entry := {| he_lat := lat; he_lng := lng; he_timestamp := _ |}).
  destruct (pushBounded_snoc 10 older [previous] entry) as [older' Hpush];
    [simpl; lia|].
  rewrite Hpush. clear Hpush. simpl.
  assert (forall flags,
            noFlagOfType IMPOSSIBLE_SPEED flags ->
            noFlagOfType IMPOSSIBLE_SPEED
              (identicalFlags (older' ++ [previous; entry])
               ++ variationFlags (older' ++ [previous; entry]) ++ flags)) as Hothers.
  { intros flags Hflags. unfold noFlagOfType. rewrite !Forall_app.
    split; [|split]; [| |done].
    - by apply (types_exclude IDENTICAL_LOCATIONS), identicalFlags_types.
    - by apply (types_exclude LOW_GPS_VARIATION), variationFlags_types. }
  rewrite speedFlags_last_two. simpl.
  set (distance := calculateDistance (he_lat previous) (he_lng previous) lat lng).
  set (elapsed := (_ - he_timestamp previous)%Q).
  split; [|split].
  - intros Hnear. apply Hothers.
    destruct (Z.ltb_spec 1000 distance); [lia|].
    rewrite andb_false_r. constructor.
  - intros Hback. apply Hothers.
    destruct (Z.ltb_spec 1000 distance) as [Hfar|_];
      [|rewrite andb_false_r; constructor].
    rewrite speed_not_exceeded_backwards; [constructor|done|].
    unfold elapsed. lra.
  - intros Hsame Hfar.
    rewrite speed_infinite_at_once; [|done|unfold elapsed; lra].
    destruct (Z.ltb_spec 1000 distance); [|lia].
    simpl. rewrite !elem_of_app. right. right. apply list_elem_of_here.
Qed.

(** The sample user, whose last reading is on the history, sends one from
    the same spot: no speed flag. *)
Lemma impossible_speed_needs_distance_and_order_witness :
  noFlagOfType IMPOSSIBLE_SPEED
    (fst (analyzeLocationHistory sampleDistance sampleNow samplePhone
            (-37.370001)%Q (-59.110002)%Q (JNum 1699999820)
            (userLocationHistory repeatedStore))).
Proof.
  refine (proj1 (impossible_speed_needs_distance_and_order sampleDistance sampleNow
                   samplePhone (-37.370001)%Q (-59.110002)%Q (JNum 1699999820)
                   (userLocationHistory repeatedStore)
                   [ {| he_lat := (-37.370001)%Q; he_lng := (-59.110002)%Q;
                        he_timestamp := 1699999640%Q |};
                     {| he_lat := (-37.370001)%Q; he_lng := (-59.110002)%Q;
                        he_timestamp := 1699999700%Q |} ]
                   {| he_lat := (-37.370001)%Q; he_lng := (-59.110002)%Q;
                      he_timestamp := 1699999760%Q |} _) _).
  - vm_compute. reflexivity.
  - vm_compute. discriminate.
Defined.

(** ** The stateless analyzers *)

Lemma includes_unfold (pattern s : string) :
  includes pattern s
  = String.prefix pattern s
    || match s with
       | EmptyString => false
       | String _ rest => includes pattern rest
       end.
Proof. by destruct s. Qed.

Lemma prefix_of_substring (s : string) : forall (pattern : string) (m : nat),
  String.prefix pattern (String.substring 0 m s) = true ->
  String.prefix pattern s = true.
Proof.
  induction s as [|c s IH]; intros pattern m.
  - by destruct m.
  - destruct m as [|m]; simpl.
    + by destruct pattern.
    + destruct pattern as [|a pattern]; [done|].
      destruct (ascii_dec a c); [apply IH|done].
Qed.

Lemma includes_of_prefix_substring (s : string) : forall (pattern : string) (m : nat),
  includes pattern (String.substring 0 m s) = true ->
  includes pattern s = true.
Proof.
  induction s as [|c s IH]; intros pattern m.
  - by destruct m.
  - destruct m as [|m].
    + simpl. destruct pattern; [done|]. simpl. done.
    + cbn [String.substring]. rewrite (includes_unfold pattern (String c s)).
      rewrite (includes_unfold pattern (String c _)).
      intros [Hp|Hi]%orb_true_iff; apply orb_true_iff.
      * left. by apply (prefix_of_substring (String c s) pattern (S m)).
      * right. by apply (IH pattern m).
Qed.

Lemma includes_of_substring (n : nat) : forall (s pattern : string) (m : nat),
  includes pattern (String.substring n m s) = true ->
  includes pattern s = true.
Proof.
  induction n as [|n IH]; intros s pattern m.
  - apply includes_of_prefix_substring.
  - destruct s as [|c s]; [done|].
    cbn [String.substring]. intros H. rewrite includes_unfold.
    apply orb_true_iff. right. by apply (IH s pattern m).
Qed.

Lemma rounded_has_zeros (s : string) :
  endsWith ".000000" s = true -> includes "000" s = true.
Proof.
  unfold endsWith. intros [_ Heq]%andb_true_iff.
  apply String.eqb_eq in Heq.
  apply (includes_of_substring (String.length s - String.length ".000000") s "000"
           (String.length ".000000")).
  by rewrite Heq.
Qed.

(** X5. Whatever the text of the two coordinates, the ROUNDED_COORDINATES
    flag never comes alone: a coordinate that ends in ".000000" holds
    three zeros in a row, so the PERFECT_COORDINATES flag is raised with
    it, and these two HIGH flags make the risk of the reading HIGH. *)
Theorem rounded_coordinates_also_perfect
    (numberToString : Q -> string) (lat lng : Q) :
  noFlagOfType ROUNDED_COORDINATES (detectPerfectCoordinates numberToString lat lng)
  \/ ({| flag_type := PERFECT_COORDINATES; flag_severity := HIGH;
         flag_message := TooManyZeros |}
      ∈ detectPerfectCoordinates numberToString lat lng
      /\ {| flag_type := ROUNDED_COORDINATES; flag_severity := HIGH;
            flag_message := RoundedDetected |}
         ∈ detectPerfectCoordinates numberToString lat lng
      /\ evaluateFraudRisk (detectPerfectCoordinates numberToString lat lng) = Risk_HIGH).
Proof.
  unfold detectPerfectCoordinates.
  destruct (endsWith ".000000" (numberToString lat)
            || endsWith ".000000" (numberToString lng)) eqn:Hrounded.
  - right.
    assert (includes "000" (numberToString lat)
            || includes "000" (numberToString lng) = true) as ->.
    { apply orb_true_iff in Hrounded as [H|H]; apply rounded_has_zeros in H;
        rewrite H; [done | by rewrite orb_true_r]. }
    split; [apply list_elem_of_here|].
    destruct ((ADVANCED_FRAUD_CONFIG.SUSPICIOUS_PRECISION_DIGITS
               <? decimalsOf (numberToString lat))%nat || _);
      (split; [set_solver|reflexivity]).
  - left. unfold noFlagOfType.
    destruct (includes "000" _ || includes "000" _),
      ((ADVANCED_FRAUD_CONFIG.SUSPICIOUS_PRECISION_DIGITS
        <? decimalsOf (numberToString lat))%nat || _);
      repeat constructor; done.
Qed.

Lemma Qfloor_below (x : Q) (n : Z) : Qfloor x <= n -> (x < inject_Z (n + 1))%Q.
Proof.
  intros H. eapply Qlt_le_trans; [apply Qlt_floor|].
  rewrite <- Zle_Qle. lia.
Qed.

Lemma in_one_two_three (z : Z) : z ∈ [1; 2; 3] -> 1 <= z <= 3.
Proof. rewrite !elem_of_cons, elem_of_nil. lia. Qed.

Lemma Qfloor_above (x : Q) (n : Z) : (inject_Z n <= x)%Q -> n <= Qfloor x.
Proof.
  intros H. rewrite <- (Qfloor_Z n). by apply Qfloor_resp_le.
Qed.

(** X6. How the two tests on a reported accuracy combine. The gate of the
    basic validation passes every accuracy other than 0 up to 50 m,
    negative ones included, and the metadata analysis flags as abnormal
    every one below 5 m or above 100 m: accuracies from 5 to 50 m pass
    the gate without a flag, accuracies above 50 m fail the gate, and
    accuracies below 5 m pass it with the ABNORMAL_ACCURACY flag. An
    accuracy that draws SUSPICIOUS_ACCURACY always draws ABNORMAL_ACCURACY
    too. *)
Theorem accuracy_window (a : Q) (timestamp : jsnum) :
  ((5 <= a)%Q -> (a <= 50)%Q ->
   chk_isValid (isLocationAccuracyValid (JNum a)) = true
   /\ noFlagOfType SUSPICIOUS_ACCURACY (validateGPSMetadata (JNum a) timestamp)
   /\ noFlagOfType ABNORMAL_ACCURACY (validateGPSMetadata (JNum a) timestamp))
  /\ ((50 < a)%Q -> chk_isValid (isLocationAccuracyValid (JNum a)) = false)
  /\ ((a < 5)%Q -> ~ (a == 0)%Q ->
      chk_isValid (isLocationAccuracyValid (JNum a)) = true
      /\ {| flag_type := ABNORMAL_ACCURACY; flag_severity := LOW;
            flag_message := AccuracyOutOfRange a |}
         ∈ validateGPSMetadata (JNum a) timestamp)
  /\ ({| flag_type := SUSPICIOUS_ACCURACY; flag_severity := MEDIUM;
         flag_message := AccuracySuspicious a |}
      ∈ validateGPSMetadata (JNum a) timestamp ->
      {| flag_type := ABNORMAL_ACCURACY; flag_severity := LOW;
         flag_message := AccuracyOutOfRange a |}
      ∈ validateGPSMetadata (JNum a) timestamp).
Proof.
  unfold isLocationAccuracyValid, validateGPSMetadata, truthy, ToNumber,
    GPS_CONFIG.MIN_ACCURACY, ADVANCED_FRAUD_CONFIG.EXPECTED_ACCURACY_RANGE,
    ADVANCED_FRAUD_CONFIG.SUSPICIOUS_ACCURACY_VALUES, Math_floor.
  cbn [fst snd].
  repeat split.
  - destruct (Qeq_bool a 0) eqn:Hz; [apply Qeq_bool_true in Hz; lra|].
    simpl. destruct (Qltb 50 a) eqn:Hgt; [apply Qltb_lt in Hgt; lra | done].
  - assert (bool_decide (Qfloor a ∈ [1; 2; 3]) = false) as ->.
    { apply bool_decide_eq_false. intros Hin.
      assert (5 <= Qfloor a) by (by apply Qfloor_above).
      apply in_one_two_three in Hin. lia. }
    rewrite andb_false_r. unfold noFlagOfType.
    repeat match goal with |- context [if ?b then _ else _] => destruct b end;
      simpl; repeat constructor; done.
  - assert (Qltb a 5 || Qltb 100 a = false) as ->.
    { apply orb_false_iff. split; apply Qltb_ge; lra. }
    rewrite andb_false_r. unfold noFlagOfType.
    repeat match goal with |- context [if ?b then _ else _] => destruct b end;
      simpl; repeat constructor; done.
  - intros Hgt. destruct (Qeq_bool a 0); [done|]. simpl.
    apply Qltb_lt in Hgt. by rewrite Hgt.
  - destruct (Qeq_bool a 0) eqn:Hz; [apply Qeq_bool_true in Hz; done|].
    simpl. destruct (Qltb 50 a) eqn:Hgt; [apply Qltb_lt in Hgt; lra | done].
  - destruct (Qeq_bool a 0) eqn:Hz; [apply Qeq_bool_true in Hz; done|].
    assert (Qltb a 5 = true) as -> by (by apply Qltb_lt).
    cbn [negb andb orb].
    apply elem_of_app. right. apply elem_of_app. right. apply list_elem_of_here.
  - intros Hin.
    destruct (negb (Qeq_bool a 0) && bool_decide (Qfloor a ∈ [1; 2; 3])) eqn:Hs.
    + apply andb_true_iff in Hs as [Hnz Hfloor]. rewrite Hnz.
      apply bool_decide_eq_true in Hfloor.
      assert (Qfloor a <= 3) as Hle by (apply in_one_two_three in Hfloor; lia).
      apply Qfloor_below in Hle. change (inject_Z (3 + 1)) with 4%Q in Hle.
      assert (Qltb a 5 = true) as -> by (apply Qltb_lt; lra).
      cbn [negb andb orb].
      apply elem_of_app. right. apply elem_of_app. right. apply list_elem_of_here.
    + exfalso. cbn [app] in Hin. apply elem_of_app in Hin as [Hin|Hin].
      * match type of Hin with context [if ?b then _ else _] => destruct b end;
          [|by apply elem_of_nil in Hin].
        apply list_elem_of_singleton in Hin. discriminate.
      * match type of Hin with context [if ?b then _ else _] => destruct b end;
          [|by apply elem_of_nil in Hin].
        apply list_elem_of_singleton in Hin. discriminate.
Qed.

(** An accuracy of 20 m passes without a flag; one of 2.5 m passes the
    gate and is flagged twice. *)
Lemma accuracy_window_witness :
  (chk_isValid (isLocationAccuracyValid (JNum 20)) = true
   /\ noFlagOfType SUSPICIOUS_ACCURACY (validateGPSMetadata (JNum 20) (JNum 1699999990))
   /\ noFlagOfType ABNORMAL_ACCURACY (validateGPSMetadata (JNum 20) (JNum 1699999990)))
  /\ (chk_isValid (isLocationAccuracyValid (JNum 2.5)) = true
      /\ {| flag_type := ABNORMAL_ACCURACY; flag_severity := LOW;
            flag_message := AccuracyOutOfRange 2.5 |}
         ∈ validateGPSMetadata (JNum 2.5) (JNum 1699999990)).
Proof.
  split.
  - refine (proj1 (accuracy_window 20 (JNum 1699999990)) _ _); lra.
  - refine (proj1 (proj2 (proj2 (accuracy_window 2.5 (JNum 1699999990)))) _ _).
    + lra.
    + intros H. discriminate H.
Defined.

(** ** The time stamp of a reading *)

(** X7. A time stamp passes the freshness check exactly when it lies at
    most 120000 ms before the clock; nothing bounds it from above, so a
    reading stamped in the future is never rejected as too old. *)
Theorem timestamp_window (now : Z) (ts : Q) (locationData : LocationData) :
  (chk_isValid (isLocationTimestampValid now ts) = true
   <-> (inject_Z now - ts * 1000 <= 120000)%Q)
  /\ (timestamp locationData = JNum ts ->
      (inject_Z now <= ts * 1000)%Q ->
      timestampStale now locationData = false).
Proof.
  assert (chk_isValid (isLocationTimestampValid now ts) = true
          <-> (inject_Z now - ts * 1000 <= 120000)%Q) as Hwindow.
  { unfold isLocationTimestampValid, ageMinutesOf, GPS_CONFIG.MAX_AGE_MINUTES.
    destruct (Qltb 2 _) eqn:Hage; simpl.
    - apply Qltb_lt in Hage. unfold Qdiv in Hage.
      change (/ (1000 * 60))%Q with (1 # 60000)%Q in Hage.
      split; [done | lra].
    - apply Qltb_ge in Hage. unfold Qdiv in Hage.
      change (/ (1000 * 60))%Q with (1 # 60000)%Q in Hage.
      split; [lra | done]. }
  split; [exact Hwindow|].
  intros Hts Hfuture. unfold timestampStale. rewrite Hts.
  apply andb_false_iff. right. apply negb_false_iff.
  simpl. apply Hwindow. lra.
Qed.

(** A reading stamped ten seconds after the clock is not stale. *)
Lemma timestamp_window_witness :
  timestampStale sampleNow
    {| latitude := JNum (-37.3716); longitude := JNum (-59.1168);
       accuracy := JUndefined; timestamp := JNum 1700000010 |} = false.
Proof.
  refine (proj2 (timestamp_window sampleNow 1700000010
                   {| latitude := JNum (-37.3716); longitude := JNum (-59.1168);
                      accuracy := JUndefined; timestamp := JNum 1700000010 |})
            eq_refl _).
  vm_compute. discriminate.
Defined.





(** ** What an evaluation leaves behind and what it accepts *)

(** X9. Only an evaluation whose risk is HIGH is reported to the log of
    suspicious users. When the risk of the result is LOW or MEDIUM (a
    single HIGH flag gives MEDIUM), the call leaves on the log what the
    consultation of step 1 left: the entry of the user, with an expired
    block lifted, and no warning added. *)
Theorem only_high_risk_counts_as_warning
    (calculateDistance : Q -> Q -> Q -> Q -> Z) (numberToString : Q -> string)
    (zones : list Location) (now : Z) (locationData : LocationData)
    (phone : string) (store : FraudStore) :
  (ar_fraudRisk
     <$> fst (validateGPSLocationAdvanced calculateDistance numberToString zones now
                locationData phone store) = Some Risk_LOW
   \/ ar_fraudRisk
        <$> fst (validateGPSLocationAdvanced calculateDistance numberToString zones now
                   locationData phone store) = Some Risk_MEDIUM) ->
  suspiciousActivityLog
    (snd (validateGPSLocationAdvanced calculateDistance numberToString zones now
            locationData phone store))
  = <[phone := unblockIfExpired now (userLogOf phone (suspiciousActivityLog store))]>
      (suspiciousActivityLog store).
Proof.
  unfold validateGPSLocationAdvanced.
  destruct (activelyBlocked now (userLogOf phone (suspiciousActivityLog store)))
    eqn:Hblocked.
  { rewrite manageSuspiciousUser_blocked by done. simpl. by intros [|]. }
  rewrite manageSuspiciousUser_consult by done. simpl.
  destruct (negb (truthy (latitude locationData))
            || negb (truthy (longitude locationData))); [done|].
  unfold analyzeLocationHistory.
  set (flags := _ ++ _ ++ _).
  destruct (evaluateFraudRisk flags) eqn:Hrisk; try done.
  destruct (manageSuspiciousUser now phone flags _) as [userManagement log2].
  destruct (us_isBlocked userManagement); simpl; [by intros [|]|].
  unfold combineResults.
  destruct (validateGPSLocation _ _ _ _); simpl; by intros [|].
Qed.

(** The reading without a time stamp is of MEDIUM risk; the log holds the
    sample user with no warning. *)
Lemma only_high_risk_counts_as_warning_witness :
  suspiciousActivityLog
    (snd (validateGPSLocationAdvanced sampleDistance decimalString AUTHORIZED_LOCATIONS
            sampleNow untimedReading samplePhone emptyStore))
  = <[samplePhone := unblockIfExpired sampleNow
                       (userLogOf samplePhone (suspiciousActivityLog emptyStore))]>
      (suspiciousActivityLog emptyStore).
Proof.
  refine (only_high_risk_counts_as_warning sampleDistance decimalString
            AUTHORIZED_LOCATIONS sampleNow untimedReading samplePhone emptyStore _).
  right. vm_compute. reflexivity.
Defined.

Lemma firstAuthorized_inv (calculateDistance : Q -> Q -> Q -> Q -> Z)
    (zones : list Location) (userLat userLng : Q) (z : Location) (d : Z) :
  firstAuthorized calculateDistance zones userLat userLng = Some (z, d) ->
  z ∈ zones
  /\ d = distanceTo calculateDistance userLat userLng z
  /\ d <= loc_radius z.
Proof.
  induction zones as [|l zones IH]; [done|].
  simpl. destruct (Z.leb_spec (distanceTo calculateDistance userLat userLng l)
                              (loc_radius l)) as [Hle|Hgt].
  - intros [= <- <-]. split; [apply list_elem_of_here|done].
  - intros H. destruct (IH H) as (Hin & Hd & Hr).
    split; [by apply list_elem_of_further|done].
Qed.

(** What a valid result of the advanced validation implies. *)
Lemma advanced_accepts
    (calculateDistance : Q -> Q -> Q -> Q -> Z) (numberToString : Q -> string)
    (zones : list Location) (now : Z) (locationData : LocationData)
    (phone : string) (store : FraudStore) :
  ar_isValid
    <$> fst (validateGPSLocationAdvanced calculateDistance numberToString zones now
               locationData phone store) = Some true ->
  exists r zone distance,
    fst (validateGPSLocationAdvanced calculateDistance numberToString zones now
           locationData phone store) = Some r
    /\ ar_location r = Some zone
    /\ ar_distance r = Some distance
    /\ ar_reasons r = [LocationValid zone distance]
    /\ zone ∈ zones
    /\ distance
       = calculateDistance (ToNumber (latitude locationData))
           (ToNumber (longitude locationData)) (loc_lat zone) (loc_lng zone)
    /\ distance <= loc_radius zone
    /\ (ar_fraudRisk r = Risk_LOW \/ ar_fraudRisk r = Risk_MEDIUM)
    /\ activelyBlocked now (userLogOf phone (suspiciousActivityLog store)) = false
    /\ truthy (latitude locationData) = true
    /\ truthy (longitude locationData) = true
    /\ timestampStale now locationData = false
    /\ (accuracy locationData = JUndefined
        \/ chk_isValid (isLocationAccuracyValid (accuracy locationData)) = true).
Proof.
  unfold validateGPSLocationAdvanced.
  destruct (activelyBlocked now (userLogOf phone (suspiciousActivityLog store)))
    eqn:Hblocked.
  { rewrite manageSuspiciousUser_blocked by done. simpl. done. }
  rewrite manageSuspiciousUser_consult by done. simpl.
  destruct (truthy (latitude locationData)) eqn:Hlat; [|done].
  destruct (truthy (longitude locationData)) eqn:Hlng; [|done].
  simpl. unfold analyzeLocationHistory.
  set (flags := _ ++ _ ++ _).
  assert (forall risk,
            ar_isValid <$> combineResults calculateDistance zones now locationData
                             flags risk = Some true ->
            exists r zone distance,
              combineResults calculateDistance zones now locationData flags risk = Some r
              /\ ar_location r = Some zone
              /\ ar_distance r = Some distance
              /\ ar_reasons r = [LocationValid zone distance]
              /\ zone ∈ zones
              /\ distance
                 = calculateDistance (ToNumber (latitude locationData))
                     (ToNumber (longitude locationData)) (loc_lat zone) (loc_lng zone)
              /\ distance <= loc_radius zone
              /\ (risk = Risk_LOW \/ risk = Risk_MEDIUM)
              /\ timestampStale now locationData = false
              /\ (accuracy locationData = JUndefined
                  \/ chk_isValid (isLocationAccuracyValid (accuracy locationData)) = true))
    as Hcombine.
  { intros risk. unfold combineResults.
    destruct (timestampStale now locationData) eqn:Hstale.
    { rewrite (validateGPSLocation_stale calculateDistance zones now locationData)
        by done. done. }
    rewrite (validateGPSLocation_fresh calculateDistance zones now locationData) by done.
    unfold accuracyStep.
    assert (forall ws,
              ar_isValid
                <$> match authorizeStep calculateDistance zones
                            (ToNumber (latitude locationData))
                            (ToNumber (longitude locationData)) ws with
                    | Some originalValidation =>
                        Some {|
                          ar_isValid := vr_isValid originalValidation
                                        && negb (is_rejecting risk);
                          ar_reasons :=
                            vr_reasons originalValidation
                            ++ (match risk with Risk_HIGH => [FraudRejected] | _ => [] end);
                          ar_warnings :=
                            vr_warnings originalValidation
                            ++ (if (0 <? length flags)%nat
                                then [SuspiciousSignals (length flags)] else []);
                          ar_suspiciousFlags := flags;
                          ar_fraudRisk := risk;
                          ar_location := vr_location originalValidation;
                          ar_distance := vr_distance originalValidation
                        |}
                    | None => None
                    end = Some true ->
              exists r zone distance,
                match authorizeStep calculateDistance zones
                        (ToNumber (latitude locationData))
                        (ToNumber (longitude locationData)) ws with
                | Some originalValidation =>
                    Some {|
                      ar_isValid := vr_isValid originalValidation
                                    && negb (is_rejecting risk);
                      ar_reasons :=
                        vr_reasons originalValidation
                        ++ (match risk with Risk_HIGH => [FraudRejected] | _ => [] end);
                      ar_warnings :=
                        vr_warnings originalValidation
                        ++ (if (0 <? length flags)%nat
                            then [SuspiciousSignals (length flags)] else []);
                      ar_suspiciousFlags := flags;
                      ar_fraudRisk := risk;
                      ar_location := vr_location originalValidation;
                      ar_distance := vr_distance originalValidation
                    |}
                | None => None
                end = Some r
                /\ ar_location r = Some zone
                /\ ar_distance r = Some distance
                /\ ar_reasons r = [LocationValid zone distance]
                /\ zone ∈ zones
                /\ distance
                   = calculateDistance (ToNumber (latitude locationData))
                       (ToNumber (longitude locationData)) (loc_lat zone) (loc_lng zone)
                /\ distance <= loc_radius zone
                /\ (risk = Risk_LOW \/ risk = Risk_MEDIUM)) as Hauth.
    { intros ws. unfold authorizeStep, isLocationAuthorized.
      destruct (firstAuthorized calculateDistance zones _ _) as [[zone distance]|] eqn:Hfirst.
      - apply firstAuthorized_inv in Hfirst as (Hin & Hd & Hr).
        simpl. intros [= Hvalid].
        eexists; exists zone, distance. split; [reflexivity|]. simpl.
        destruct risk; simpl in Hvalid; try done; repeat split; eauto.
      - destruct (closestFrom calculateDistance None zones _ _) as [[d z]|]; done. }
    destruct (is_undefined (accuracy locationData)) eqn:Hundef; simpl.
    - intros H. destruct (Hauth _ H) as (r & zone & distance & Hr & Hrest).
      exists r, zone, distance. split; [done|].
      destruct Hrest as (? & ? & ? & ? & ? & ? & ?). repeat split; try done.
      left. by destruct (accuracy locationData).
    - destruct (chk_isValid (isLocationAccuracyValid (accuracy locationData))) eqn:Hacc;
        simpl; [|done].
      intros H. destruct (Hauth _ H) as (r & zone & distance & Hr & Hrest).
      exists r, zone, distance. split; [done|].
      destruct Hrest as (? & ? & ? & ? & ? & ? & ?). repeat split; try done.
      by right. }
  destruct (evaluateFraudRisk flags) eqn:Hrisk.
  - simpl. intros H. destruct (Hcombine _ H) as (r & zone & distance & Hr & Hrest).
    exists r, zone, distance. rewrite Hr.
    destruct Hrest as (? & ? & ? & ? & ? & ? & Hlow & ? & ?).
    assert (ar_fraudRisk r = Risk_LOW) as Hr'.
    { unfold combineResults in Hr. destruct (validateGPSLocation _ _ _ _); [|done].
      by injection Hr as <-. }
    repeat split; try done. by left.
  - simpl. intros H. destruct (Hcombine _ H) as (r & zone & distance & Hr & Hrest).
    exists r, zone, distance. rewrite Hr.
    destruct Hrest as (? & ? & ? & ? & ? & ? & Hlow & ? & ?).
    assert (ar_fraudRisk r = Risk_MEDIUM) as Hr'.
    { unfold combineResults in Hr. destruct (validateGPSLocation _ _ _ _); [|done].
      by injection Hr as <-. }
    repeat split; try done. by right.
  - destruct (manageSuspiciousUser now phone flags _) as [userManagement log2].
    destruct (us_isBlocked userManagement); simpl; [done|].
    intros H. destruct (Hcombine _ H) as (r & zone & distance & Hr & Hrest).
    destruct Hrest as (? & ? & ? & ? & ? & ? & [|] & ?); done.
  - simpl. intros H. destruct (Hcombine _ H) as (r & zone & distance & Hr & Hrest).
    destruct Hrest as (? & ? & ? & ? & ? & ? & [|] & ?); done.
Qed.

(** X10. What it takes for a reading to be accepted. A valid result of
    the advanced validation names a zone of the list and the distance to
    it, which is within the radius of the zone; the user is not under a
    block, both coordinates are there and are not 0, the time stamp is
    not stale, the accuracy is absent or passes the gate, and the risk is
    LOW or MEDIUM. *)
Theorem accepted_reading_lies_in_a_zone
    (calculateDistance : Q -> Q -> Q -> Q -> Z) (numberToString : Q -> string)
    (zones : list Location) (now : Z) (locationData : LocationData)
    (phone : string) (store : FraudStore) :
  ar_isValid
    <$> fst (validateGPSLocationAdvanced calculateDistance numberToString zones now
               locationData phone store) = Some true ->
  exists r zone distance,
    fst (validateGPSLocationAdvanced calculateDistance numberToString zones now
           locationData phone store) = Some r
    /\ ar_location r = Some zone
    /\ ar_distance r = Some distance
    /\ ar_reasons r = [LocationValid zone distance]
    /\ zone ∈ zones
    /\ distance
       = calculateDistance (ToNumber (latitude locationData))
           (ToNumber (longitude locationData)) (loc_lat zone) (loc_lng zone)
    /\ distance <= loc_radius zone
    /\ (ar_fraudRisk r = Risk_LOW \/ ar_fraudRisk r = Risk_MEDIUM)
    /\ activelyBlocked now (userLogOf phone (suspiciousActivityLog store)) = false
    /\ truthy (latitude locationData) = true
    /\ truthy (longitude locationData) = true
    /\ timestampStale now locationData = false
    /\ (accuracy locationData = JUndefined
        \/ chk_isValid (isLocationAccuracyValid (accuracy locationData)) = true).
Proof. apply advanced_accepts. Qed.

(** The reading without a time stamp, 5 m from the first zone, is
    accepted for that zone. *)
Lemma accepted_reading_lies_in_a_zone_witness :
  exists r zone distance,
    fst (validateGPSLocationAdvanced sampleDistance decimalString AUTHORIZED_LOCATIONS
           sampleNow untimedReading samplePhone emptyStore) = Some r
    /\ ar_location r = Some zone
    /\ ar_distance r = Some distance
    /\ ar_reasons r = [LocationValid zone distance]
    /\ zone ∈ AUTHORIZED_LOCATIONS
    /\ distance
       = sampleDistance (ToNumber (latitude untimedReading))
           (ToNumber (longitude untimedReading)) (loc_lat zone) (loc_lng zone)
    /\ distance <= loc_radius zone
    /\ (ar_fraudRisk r = Risk_LOW \/ ar_fraudRisk r = Risk_MEDIUM)
    /\ activelyBlocked sampleNow
         (userLogOf samplePhone (suspiciousActivityLog emptyStore)) = false
    /\ truthy (latitude untimedReading) = true
    /\ truthy (longitude untimedReading) = true
    /\ timestampStale sampleNow untimedReading = false
    /\ (accuracy untimedReading = JUndefined
        \/ chk_isValid (isLocationAccuracyValid (accuracy untimedReading)) = true).
Proof.
  refine (accepted_reading_lies_in_a_zone sampleDistance decimalString
            AUTHORIZED_LOCATIONS sampleNow untimedReading samplePhone emptyStore _).
  vm_compute. reflexivity.
Defined.

(** ** The table of attendance records *)





Section AttendanceTable.

Variable calculateDistance : Q -> Q -> Q -> Q -> Z.
Variable numberToString : Q -> string.
Variable zones : list Location.

Lemma onText_keeps_table env from body (s : System) :
  attendance_records (snd (onText env from body s)) = attendance_records s.
Proof.
  unfold onText, onAttendanceCommand.
  destruct (parseCommand body); try done.
  - by destruct (validateAttendanceAction _ _ _ _ _) as [[v|] sc].
  - by destruct (validateAttendanceAction _ _ _ _ _) as [[v|] sc].
  - by destruct (pendingAttendanceRequests s !! from).
  - by destruct (getEmployeeCurrentState _ _ _ _ _).
  - by destruct (pendingAttendanceRequests s !! from).
Qed.

(** A step leaves the table alone or saves the record of one evaluation. *)
Lemma step_appends (s : System) (e : Event) :
  attendance_records (step calculateDistance numberToString zones s e)
  = attendance_records s
  \/ exists env message location pending result,
       e = MessageEvent env message
       /\ msg_location message = Some location
       /\ pendingAttendanceRequests s !! msg_from message = Some pending
       /\ fst (validateGPSLocationAdvanced calculateDistance numberToString zones
                 (env_now env) location (msg_from message) (fraudStore s))
          = Some result
       /\ attendance_records (step calculateDistance numberToString zones s e)
          = saveAttendanceRecord env (msg_from message) pending location result
              (attendance_records s).
Proof.
  destruct e as [env message|dropped]; [|by left].
  simpl. unfold onMessage.
  destruct (msg_location message) as [location|] eqn:Hloc;
    [|left; apply onText_keeps_table].
  unfold onLocation.
  destruct (pendingAttendanceRequests s !! msg_from message) as [pending|] eqn:Hp;
    [|by left].
  destruct (validateGPSLocationAdvanced _ _ _ _ _ _ _) as [[result|] store] eqn:Hv;
    [|by left].
  right. exists env, message, location, pending, result.
  rewrite Hv. done.
Qed.

Lemma run_valid_records (P : AttendanceRecord -> Prop) :
  (forall env from pending location result sys r,
     fst (validateGPSLocationAdvanced calculateDistance numberToString zones
            (env_now env) location from (fraudStore sys)) = Some result ->
     saveAttendanceRecord env from pending location result (attendance_records sys)
     = attendance_records sys ++ [r] ->
     P r) ->
  forall events (s : System),
    Forall P (attendance_records s) ->
    Forall P (attendance_records
                (fold_left (step calculateDistance numberToString zones) events s)).
Proof.
  intros Hnew. induction events as [|e events IH]; intros s Hs; [done|].
  simpl. apply IH.
  destruct (step_appends s e)
    as [->|(env & message & location & pending & result & _ & _ & _ & Hv & ->)];
    [done|].
  unfold saveAttendanceRecord in *.
  destruct (db_insert_ok env) eqn:Hins; [|done].
  apply Forall_app. split; [done|]. apply Forall_singleton.
  eapply Hnew; [exact Hv|]. by rewrite Hins.
Qed.

End AttendanceTable.

(** X11. The table of attendance records only grows, by one record at a
    time. Text commands and the periodic cleaning never write; a record is
    written only in answer to a location shared by a user with a pending
    request, and it carries the identifier of the sender, the pending
    action and the verdict of the evaluation. *)
Theorem attendance_records_only_grow
    (calculateDistance : Q -> Q -> Q -> Q -> Z) (numberToString : Q -> string)
    (zones : list Location) (s : System) (e : Event) :
  exists added,
    attendance_records (step calculateDistance numberToString zones s e)
    = attendance_records s ++ added
    /\ (length added <= 1)%nat
    /\ forall r, r ∈ added ->
         exists env message location pending result,
           e = MessageEvent env message
           /\ msg_location message = Some location
           /\ pendingAttendanceRequests s !! msg_from message = Some pending
           /\ fst (validateGPSLocationAdvanced calculateDistance numberToString zones
                     (env_now env) location (msg_from message) (fraudStore s))
              = Some result
           /\ phone_number r = msg_from message
           /\ action_type r = pending
           /\ is_VALID r = ar_isValid result.
Proof.
  destruct (step_appends calculateDistance numberToString zones s e)
    as [->|(env & message & location & pending & result & He & Hloc & Hp & Hv & ->)].
  { exists []. rewrite app_nil_r. split; [done|]. split; [simpl; lia|].
    intros r Hr. by apply elem_of_nil in Hr. }
  unfold saveAttendanceRecord.
  destruct (db_insert_ok env).
  - eexists. split; [reflexivity|]. split; [simpl; lia|].
    intros r Hr. apply list_elem_of_singleton in Hr as ->.
    exists env, message, location, pending, result.
    repeat split; try done.
    unfold is_VALID. simpl. by destruct (ar_isValid result).
  - exists []. rewrite app_nil_r. split; [done|]. split; [simpl; lia|].
    intros r Hr. by apply elem_of_nil in Hr.
Qed.

(** X12. Whatever the process has handled, every record of the table
    whose validation status is VALID names a zone of the list, and holds
    coordinates, the distance from them to that zone, and a distance
    within the radius of the zone. *)
Theorem valid_record_names_a_zone
    (calculateDistance : Q -> Q -> Q -> Q -> Z) (numberToString : Q -> string)
    (zones : list Location) (events : list Event) (r : AttendanceRecord) :
  r ∈ attendance_records (run calculateDistance numberToString zones events) ->
  validation_status r = VALID ->
  exists zone,
    zone ∈ zones
    /\ location_name r = Some (loc_name zone)
    /\ distance_from_point r
       = Some (calculateDistance (ToNumber (rec_latitude r)) (ToNumber (rec_longitude r))
                 (loc_lat zone) (loc_lng zone))
    /\ calculateDistance (ToNumber (rec_latitude r)) (ToNumber (rec_longitude r))
         (loc_lat zone) (loc_lng zone) <= loc_radius zone
    /\ truthy (rec_latitude r) = true
    /\ truthy (rec_longitude r) = true.
Proof.
  intros Hin Hvalid.
  set (P := fun r : AttendanceRecord =>
              validation_status r = VALID ->
              exists zone,
                zone ∈ zones
                /\ location_name r = Some (loc_name zone)
                /\ distance_from_point r
                   = Some (calculateDistance (ToNumber (rec_latitude r))
                             (ToNumber (rec_longitude r))
                             (loc_lat zone) (loc_lng zone))
                /\ calculateDistance (ToNumber (rec_latitude r))
                     (ToNumber (rec_longitude r))
                     (loc_lat zone) (loc_lng zone) <= loc_radius zone
                /\ truthy (rec_latitude r) = true
                /\ truthy (rec_longitude r) = true).
  assert (Forall P (attendance_records
                      (run calculateDistance numberToString zones events))) as Hall.
  { unfold run. apply run_valid_records; [|by apply Forall_nil].
    clear. intros env from pending location result sys r Hv Hsave.
    unfold saveAttendanceRecord in Hsave.
    destruct (db_insert_ok env).
    2:{ assert (length (attendance_records sys)
                = length (attendance_records sys ++ [r])) as Hlen by by rewrite <- Hsave.
        rewrite length_app in Hlen. simpl in Hlen. lia. }
    apply app_inv_head in Hsave. injection Hsave as <-. unfold P. simpl.
    destruct (ar_isValid result) eqn:Hvalid; [intros _|done].
    destruct (advanced_accepts calculateDistance numberToString zones (env_now env)
                location from (fraudStore sys))
      as (r' & zone & distance & Hr' & Hzone & Hdist & _ & Hin & Hd & Hle & _ & _
          & Hlat & Hlng & _).
    { by rewrite Hv, <- Hvalid. }
    rewrite Hv in Hr'. injection Hr' as <-.
    exists zone. rewrite Hzone, Hdist, Hd. simpl. subst distance. done. }
  rewrite Forall_forall in Hall. by apply Hall.
Qed.

(** The record of the entry of the sample user names the first zone. *)
Lemma valid_record_names_a_zone_witness :
  exists zone,
    zone ∈ AUTHORIZED_LOCATIONS
    /\ location_name acceptedEntry = Some (loc_name zone)
    /\ distance_from_point acceptedEntry
       = Some (sampleDistance (ToNumber (rec_latitude acceptedEntry))
                 (ToNumber (rec_longitude acceptedEntry)) (loc_lat zone) (loc_lng zone))
    /\ sampleDistance (ToNumber (rec_latitude acceptedEntry))
         (ToNumber (rec_longitude acceptedEntry)) (loc_lat zone) (loc_lng zone)
       <= loc_radius zone
    /\ truthy (rec_latitude acceptedEntry) = true
    /\ truthy (rec_longitude acceptedEntry) = true.
Proof.
  refine (valid_record_names_a_zone sampleDistance decimalString AUTHORIZED_LOCATIONS
            [entradaCommand; freshLocation] acceptedEntry _ eq_refl).
  assert (attendance_records
            (run sampleDistance decimalString AUTHORIZED_LOCATIONS
               [entradaCommand; freshLocation]) = [acceptedEntry]) as ->
    by (vm_compute; reflexivity).
  apply list_elem_of_here.
Defined.



(** ** Identifiers, sessions and the cache of states *)

Lemma removeFirst_unfold (pattern : string) (c : ascii) (s : string) :
  removeFirst pattern (String c s)
  = if String.prefix pattern (String c s)
    then String.substring (String.length pattern)
           (String.length (String c s) - String.length pattern) (String c s)
    else String c (removeFirst pattern s).
Proof. reflexivity. Qed.

Lemma prefix_at_other (rest : string) (c : ascii) (s : string) :
  Ascii.eqb c "@"%char = false ->
  String.prefix (String "@"%char rest) (String c s) = false.
Proof.
  intros Hc. cbn [String.prefix].
  destruct (ascii_dec "@"%char c) as [Heq|_]; [|reflexivity].
  subst c. by rewrite Ascii.eqb_refl in Hc.
Qed.

Lemma append_cons (c : ascii) (p s : string) : String c p +:+ s = String c (p +:+ s).
Proof. reflexivity. Qed.

(** Before its first [@] a text is copied as it is. *)
Lemma removeFirst_skip (rest p tail result : string) :
  noAt p = true ->
  removeFirst (String "@"%char rest) tail = result ->
  removeFirst (String "@"%char rest) (p +:+ tail) = p +:+ result.
Proof.
  intros Hp Htail. induction p as [|c p IH]; [done|].
  simpl in Hp. apply andb_true_iff in Hp as [Hc Hp]. apply negb_true_iff in Hc.
  rewrite !append_cons, removeFirst_unfold.
  rewrite prefix_at_other by done. by rewrite IH.
Qed.

Lemma append_empty_r (s : string) : s +:+ "" = s.
Proof. induction s as [|c s IH]; [done|]. by rewrite append_cons, IH. Qed.

Lemma removeFirst_noAt (rest p : string) :
  noAt p = true -> removeFirst (String "@"%char rest) p = p.
Proof.
  intros Hp. rewrite <- (append_empty_r p) at 1.
  rewrite (removeFirst_skip rest p "" ""); [apply append_empty_r|done|done].
Qed.

Lemma prefix_append (p s : string) : String.prefix p (p +:+ s) = true.
Proof.
  induction p as [|c p IH]; [by destruct s|].
  rewrite append_cons. cbn [String.prefix]. by destruct (ascii_dec c c).
Qed.

(** X14. For a number without [@], the identifiers the two suffixes give
    are cut back to the number, a bare number is left as it is, and the
    number is contained in its identifier, which is how the queries on
    the table find the records saved under the identifier. *)
Theorem extractPhoneNumber_strips_suffix (p : string) :
  noAt p = true ->
  extractPhoneNumber (p +:+ "@c.us") = p
  /\ extractPhoneNumber (p +:+ "@s.whatsapp.net") = p
  /\ extractPhoneNumber p = p
  /\ includes (extractPhoneNumber (p +:+ "@c.us")) (p +:+ "@c.us") = true.
Proof.
  intros Hp.
  assert (extractPhoneNumber (p +:+ "@c.us") = p) as Hcus.
  { unfold extractPhoneNumber.
    rewrite (removeFirst_skip "c.us" p "@c.us" ""), append_empty_r by done.
    by apply removeFirst_noAt. }
  split; [exact Hcus|]. split; [|split].
  - unfold extractPhoneNumber.
    rewrite (removeFirst_skip "c.us" p "@s.whatsapp.net" "@s.whatsapp.net") by done.
    rewrite (removeFirst_skip "s.whatsapp.net" p "@s.whatsapp.net" "") by done.
    apply append_empty_r.
  - unfold extractPhoneNumber.
    by rewrite (removeFirst_noAt "c.us" p), (removeFirst_noAt "s.whatsapp.net" p).
  - rewrite Hcus, includes_unfold. by rewrite prefix_append.
Qed.

(** The identifier of the sample user. *)
Lemma extractPhoneNumber_strips_suffix_witness :
  extractPhoneNumber samplePhone = "5491123456789"
  /\ includes (extractPhoneNumber samplePhone) samplePhone = true.
Proof.
  split.
  - exact (proj1 (extractPhoneNumber_strips_suffix "5491123456789" eq_refl)).
  - exact (proj2 (proj2 (proj2 (extractPhoneNumber_strips_suffix "5491123456789"
                                  eq_refl)))).
Defined.

Lemma sessionPhone_known now wid (sc : StateControl) session :
  employeeSessions sc !! extractPhoneNumber wid = Some session ->
  sessionPhone now wid sc = phoneNumber session.
Proof. intros H. unfold sessionPhone, getOrCreateEmployeeSession. simpl. by rewrite H. Qed.

Lemma readPendingAction_phone now session :
  phoneNumber (readPendingAction now session).2 = phoneNumber session.
Proof.
  unfold readPendingAction.
  destruct (pendingAction session), (pendingActionTime session) as [since|]; try done.
  destruct (since =? 0); [done|]. by destruct (Qltb _ 10).
Qed.

Lemma readPendingAction_expired (now : Z) (session : EmployeeSession) pending since :
  pendingAction session = Some pending ->
  pendingActionTime session = Some since ->
  since <> 0 ->
  600000 <= now - since ->
  readPendingAction now session = (None, [], withoutPending session).
Proof.
  intros Hp Ht Hnz Hold. unfold readPendingAction. rewrite Hp, Ht.
  destruct (Z.eqb_spec since 0); [done|].
  rewrite pendingAge_lt_10.
  by destruct (Z.ltb_spec (now - since) 600000); [lia|].
Qed.

(** A call that finds no cached state recomputes it. *)
Lemma getEmployeeCurrentState_uncached env table wid force (sc : StateControl) :
  employeeStates sc !! cacheKey (sessionPhone (env_now env) wid sc) = None ->
  fst (getEmployeeCurrentState env table wid force sc) = refreshedState env table wid sc.
Proof.
  unfold getEmployeeCurrentState, refreshedState, sessionPhone.
  destruct (getOrCreateEmployeeSession _ _ _) as [session sessions1]. simpl.
  intros ->. by destruct (computeState _ _ _ _).
Qed.

(** A call that finds one serves it while it is less than 60 minutes old,
    unless it is forced. *)
Lemma getEmployeeCurrentState_cached env table wid (sc : StateControl) cached :
  employeeStates sc !! cacheKey (sessionPhone (env_now env) wid sc) = Some cached ->
  fst (getEmployeeCurrentState env table wid false sc)
  = if negb (cacheTime cached =? 0) && (env_now env - cacheTime cached <? cacheDurationMs)
    then cached
    else refreshedState env table wid sc.
Proof.
  unfold getEmployeeCurrentState, refreshedState, sessionPhone.
  destruct (getOrCreateEmployeeSession _ _ _) as [session sessions1]. simpl.
  intros ->. destruct (computeState _ _ _ _).
  by destruct (negb (cacheTime cached =? 0) && _).
Qed.

(** What a forced call leaves in the two maps. *)
Lemma getEmployeeCurrentState_forced env table wid (sc : StateControl) :
  exists session',
    snd (getEmployeeCurrentState env table wid true sc)
    = {| employeeStates :=
           <[cacheKey (sessionPhone (env_now env) wid sc)
               := refreshedState env table wid sc]> (employeeStates sc);
         employeeSessions :=
           <[extractPhoneNumber wid := session']>
             (snd (getOrCreateEmployeeSession (env_now env) wid (employeeSessions sc))) |}
    /\ phoneNumber session' = sessionPhone (env_now env) wid sc
    /\ cacheTime (refreshedState env table wid sc) = env_now env.
Proof.
  unfold getEmployeeCurrentState, refreshedState, sessionPhone.
  destruct (getOrCreateEmployeeSession _ _ _) as [session sessions1]. simpl.
  unfold computeState.
  pose proof (readPendingAction_phone (env_now env) session) as Hphone.
  destruct (readPendingAction (env_now env) session) as [[pending ws] session'].
  destruct (readLastRecord _ _) as [[[[[status action] actionTime] hours] missing] rws].
  simpl in *. exists session'.
  by destruct (employeeStates sc !! _).
Qed.

(** X15. The exported pending-action functions. Marking an action as
    pending drops the cached state of the user; while the mark is less
    than 10 minutes old every state computed for the user shows it and
    allows neither entering nor leaving; from 10 minutes on the state
    shows none and the computation clears the mark of the session; and
    clearing returns the marked action and leaves none. *)
Theorem pending_action_lifecycle
    (now : Z) (env : Env) (table : list AttendanceRecord) (wid : string)
    (action : ActionType) (force : bool) (sc : StateControl) :
  now <> 0 ->
  employeeStates (setPendingAction now wid action sc)
    !! cacheKey (sessionPhone now wid sc) = None
  /\ (env_now env - now < 600000 ->
      st_pendingAction
        (fst (getEmployeeCurrentState env table wid force
                (setPendingAction now wid action sc))) = Some action
      /\ canEnter
           (fst (getEmployeeCurrentState env table wid force
                   (setPendingAction now wid action sc))) = false
      /\ canExit
           (fst (getEmployeeCurrentState env table wid force
                   (setPendingAction now wid action sc))) = false)
  /\ (600000 <= env_now env - now ->
      st_pendingAction
        (fst (getEmployeeCurrentState env table wid force
                (setPendingAction now wid action sc))) = None
      /\ pendingAction
           <$> employeeSessions
                 (snd (getEmployeeCurrentState env table wid force
                         (setPendingAction now wid action sc)))
                 !! extractPhoneNumber wid
         = Some None)
  /\ fst (clearPendingAction (env_now env) wid (setPendingAction now wid action sc))
     = Some action
  /\ pendingAction
       <$> employeeSessions
             (snd (clearPendingAction (env_now env) wid
                     (setPendingAction now wid action sc)))
             !! extractPhoneNumber wid
     = Some None.
Proof.
  intros Hnz.
  set (sc' := setPendingAction now wid action sc).
  set (phone := sessionPhone now wid sc).
  assert (exists session,
            employeeSessions sc' !! extractPhoneNumber wid = Some session
            /\ phoneNumber session = phone
            /\ pendingAction session = Some action
            /\ pendingActionTime session = Some now) as (session & Hs & Hphone & Hp & Ht).
  { unfold sc', setPendingAction, phone, sessionPhone.
    destruct (getOrCreateEmployeeSession _ _ _) as [session sessions1]. simpl.
    eexists. split; [apply lookup_insert_eq|]. done. }
  assert (employeeStates sc' !! cacheKey phone = None) as Hcache.
  { unfold sc', setPendingAction, phone, sessionPhone.
    destruct (getOrCreateEmployeeSession _ _ _) as [session0 sessions1]. simpl.
    apply lookup_delete_eq. }
  assert (fst (getEmployeeCurrentState env table wid force sc')
          = refreshedState env table wid sc') as Hstate.
  { apply getEmployeeCurrentState_uncached.
    by rewrite (sessionPhone_known _ _ _ session), Hphone. }
  clearbody sc' phone.
  split; [exact Hcache|]. split; [|split; [|split]].
  - intros Hlive. rewrite Hstate.
    unfold refreshedState, getOrCreateEmployeeSession. simpl. rewrite Hs. simpl.
    unfold computeState.
    erewrite readPendingAction_live by (simpl; eauto).
    destruct (readLastRecord _ _) as [[[[[status act] actionTime] hours] missing] rws].
    simpl. by rewrite !andb_false_r.
  - intros Hold. split.
    + rewrite Hstate.
      unfold refreshedState, getOrCreateEmployeeSession. simpl. rewrite Hs. simpl.
      unfold computeState.
      erewrite readPendingAction_expired by (simpl; eauto).
      by destruct (readLastRecord _ _) as [[[[[status act] actionTime] hours] missing] rws].
    + unfold getEmployeeCurrentState, getOrCreateEmployeeSession. simpl.
      rewrite Hs. simpl. rewrite Hphone, Hcache.
      unfold computeState.
      erewrite readPendingAction_expired by (simpl; eauto).
      destruct (readLastRecord _ _) as [[[[[status act] actionTime] hours] missing] rws].
      simpl. by rewrite lookup_insert_eq.
  - unfold clearPendingAction, getOrCreateEmployeeSession. simpl. by rewrite Hs.
  - unfold clearPendingAction, getOrCreateEmployeeSession. simpl.
    by rewrite lookup_insert_eq.
Qed.

(** The sample user has an entry marked pending at [sampleNow]; five
    minutes later the state shows it, and clearing returns it. *)
Lemma pending_action_lifecycle_witness :
  st_pendingAction
    (fst (getEmployeeCurrentState
            {| env_now := sampleNow + 300000; db_last_ok := true; db_today_ok := true;
               db_insert_ok := true |} [] samplePhone false
            (setPendingAction sampleNow samplePhone entrada emptyControl)))
  = Some entrada
  /\ fst (clearPendingAction (sampleNow + 300000) samplePhone
            (setPendingAction sampleNow samplePhone entrada emptyControl))
     = Some entrada.
Proof.
  split.
  - refine (proj1 (proj1 (proj2 (pending_action_lifecycle sampleNow
                                   {| env_now := sampleNow + 300000; db_last_ok := true;
                                      db_today_ok := true; db_insert_ok := true |}
                                   [] samplePhone entrada false emptyControl _)) _)).
    + vm_compute. discriminate.
    + vm_compute. reflexivity.
  - refine (proj1 (proj2 (proj2 (proj2 (pending_action_lifecycle sampleNow
                                   {| env_now := sampleNow + 300000; db_last_ok := true;
                                      db_today_ok := true; db_insert_ok := true |}
                                   [] samplePhone entrada false emptyControl _))))).
    vm_compute. discriminate.
Defined.

(** X16. The cache of states. After a state has been computed, a call
    that is not forced returns that same state for 60 minutes, whatever
    has been written to the table in between; once 60 minutes have passed
    it computes the state anew, and so it does at once after the session
    of the user has been cleared. *)
Theorem state_cache_window
    (env env' : Env) (table table' : list AttendanceRecord) (wid : string)
    (sc : StateControl) :
  env_now env <> 0 ->
  (env_now env' - env_now env < 3600000 ->
   fst (getEmployeeCurrentState env' table' wid false
          (snd (getEmployeeCurrentState env table wid true sc)))
   = fst (getEmployeeCurrentState env table wid true sc))
  /\ (3600000 <= env_now env' - env_now env ->
      fst (getEmployeeCurrentState env' table' wid false
             (snd (getEmployeeCurrentState env table wid true sc)))
      = refreshedState env' table' wid (snd (getEmployeeCurrentState env table wid true sc)))
  /\ fst (getEmployeeCurrentState env' table' wid false
            (clearEmployeeSession wid (snd (getEmployeeCurrentState env table wid true sc))))
     = refreshedState env' table' wid
         (clearEmployeeSession wid (snd (getEmployeeCurrentState env table wid true sc))).
Proof.
  intros Hnz.
  destruct (getEmployeeCurrentState_forced env table wid sc)
    as (session' & Hsc1 & Hphone & Htime).
  rewrite getEmployeeCurrentState_refresh.
  set (sc1 := snd (getEmployeeCurrentState env table wid true sc)) in *.
  assert (employeeStates sc1 !! cacheKey (sessionPhone (env_now env') wid sc1)
          = Some (refreshedState env table wid sc)) as Hcached.
  { rewrite (sessionPhone_known _ _ _ session'), Hphone
      by (rewrite Hsc1; apply lookup_insert_eq).
    rewrite Hsc1. apply lookup_insert_eq. }
  rewrite (getEmployeeCurrentState_cached _ _ _ _ _ Hcached), Htime.
  unfold cacheDurationMs, STATE_CONTROL_CONFIG.STATE_CACHE_DURATION.
  split; [|split].
  - intros Hfresh.
    destruct (Z.eqb_spec (env_now env) 0); [done|].
    by destruct (Z.ltb_spec (env_now env' - env_now env) (60 * 60 * 1000)); [|lia].
  - intros Hold.
    destruct (Z.eqb_spec (env_now env) 0); [done|].
    by destruct (Z.ltb_spec (env_now env' - env_now env) (60 * 60 * 1000)); [lia|].
  - apply getEmployeeCurrentState_uncached.
    unfold sessionPhone, clearEmployeeSession, getOrCreateEmployeeSession. simpl.
    rewrite lookup_delete_eq. simpl. apply lookup_delete_eq.
Qed.

(** The state of the sample user is computed at [sampleNow], with an empty
    table; half an hour later, with the entry of the user on the table,
    the call that is not forced still answers OUT. *)
Lemma state_cache_window_witness :
  currentStatus
    (fst (getEmployeeCurrentState
            {| env_now := sampleNow + 1800000; db_last_ok := true; db_today_ok := true;
               db_insert_ok := true |} [acceptedEntry] samplePhone false
            (snd (getEmployeeCurrentState sampleEnv [] samplePhone true emptyControl))))
  = OUT
  /\ currentStatus
       (refreshedState
          {| env_now := sampleNow + 1800000; db_last_ok := true; db_today_ok := true;
             db_insert_ok := true |} [acceptedEntry] samplePhone
          (snd (getEmployeeCurrentState sampleEnv [] samplePhone true emptyControl)))
     = IN.
Proof.
  split; [|vm_compute; reflexivity].
  rewrite (proj1 (state_cache_window sampleEnv
                    {| env_now := sampleNow + 1800000; db_last_ok := true;
                       db_today_ok := true; db_insert_ok := true |}
                    [] [acceptedEntry] samplePhone emptyControl
                    ltac:(vm_compute; discriminate))
             ltac:(vm_compute; reflexivity)).
  vm_compute. reflexivity.
Defined.

(** ** The verdict on an attendance command *)

Lemma minutes_lt_5 (x : Z) :
  Qltb (inject_Z x / (1000 * 60))%Q STATE_CONTROL_CONFIG.MIN_TIME_BETWEEN_ACTIONS
  = (x <? 300000).
Proof.
  unfold Qltb, Qle_bool, Qdiv, Qmult, Qinv, inject_Z,
    STATE_CONTROL_CONFIG.MIN_TIME_BETWEEN_ACTIONS. simpl.
  change (Z.pos (1 * (1000 * 60))) with 60000.
  change (Z.pos (1 * 1)) with 1.
  destruct (Z.ltb_spec x 300000), (Z.leb_spec (5 * 60000) (x * 1 * 1));
    simpl; try done; lia.
Qed.



(** X18. The verdict of the rules against the permissions the state
    reports, for a user without a pending action. An entry is allowed
    exactly when the state reports [canEnter] and holds no warning of a
    last action less than 5 minutes old; so is an exit, with [canExit],
    whenever the rules reach a verdict. That warning is there exactly
    when the latest record is a validated one saved less than 300000 ms
    before the clock. *)
Theorem verdict_and_reported_permissions
    (now : Z) (session : EmployeeSession) (lastRecord : option AttendanceRecord)
    (todayRecords : list AttendanceRecord) :
  pendingAction session = None ->
  isAllowed (entryRules (fst (computeState now session lastRecord todayRecords)))
  = canEnter (fst (computeState now session lastRecord todayRecords))
    && negb (hasMinTimeWarning (fst (computeState now session lastRecord todayRecords)))
  /\ (forall v,
        exitRules (fst (computeState now session lastRecord todayRecords)) = Some v ->
        isAllowed v
        = canExit (fst (computeState now session lastRecord todayRecords))
          && negb (hasMinTimeWarning
                     (fst (computeState now session lastRecord todayRecords))))
  /\ (hasMinTimeWarning (fst (computeState now session lastRecord todayRecords)) = true
      <-> exists r,
            lastRecord = Some r
            /\ validation_status r = VALID
            /\ now - rec_timestamp r < 300000).
Proof.
  intros Hnone. unfold computeState. rewrite readPendingAction_none by done.
  assert (exists status action actionTime hours missing rws,
            readLastRecord now lastRecord
            = (status, action, actionTime, hours, missing, rws)
            /\ (existsb mentionsMinTime rws = true
                <-> exists r,
                      lastRecord = Some r
                      /\ validation_status r = VALID
                      /\ now - rec_timestamp r < 300000))
    as (status & action & actionTime & hours & missing & rws & -> & Hmin).
  { unfold readLastRecord, is_VALID.
    destruct lastRecord as [r|]; simpl.
    2:{ do 6 eexists. split; [reflexivity|]. split; [done|]. by intros (r & ? & _). }
    destruct (validation_status r) eqn:Hv.
    2:{ do 6 eexists. split; [reflexivity|]. split; [done|].
        intros (r' & [= <-] & ? & _). congruence. }
    rewrite minutes_lt_5.
    destruct (action_type r); do 6 eexists; (split; [reflexivity|]).
    - rewrite !existsb_app.
      destruct (Z.ltb_spec (now - rec_timestamp r) 300000) as [Hlt|Hge].
      + split; [by eauto|]. intros _.
        rewrite !orb_true_iff. by right; right.
      + split; [|intros (r' & [= <-] & _ & ?); lia].
        repeat match goal with |- context [if ?b then _ else _] => destruct b end;
          simpl; done.
    - destruct (Z.ltb_spec (now - rec_timestamp r) 300000) as [Hlt|Hge].
      + split; [by eauto|done].
      + split; [done|intros (r' & [= <-] & _ & ?); lia]. }
  cbv zeta.
  generalize ((STATE_CONTROL_CONFIG.WORK_DAY_START <=? hourOf now)
              && (hourOf now <=? STATE_CONTROL_CONFIG.WORK_DAY_END)).
  intros working.
  set (n := length (filter (fun r => (isAction entrada r && is_VALID r) = true)
                      todayRecords)).
  unfold entryRules, exitRules, hasMinTimeWarning,
    STATE_CONTROL_CONFIG.MAX_ENTRIES_PER_DAY.
  rewrite (Nat.ltb_antisym 3 n). cbn [fst todayEntries].
  generalize (3 <=? n)%nat. intros full. simpl.
  split; [|split; [|exact Hmin]].
  - destruct full, working, status, (existsb mentionsMinTime rws); simpl; done.
  - intros v.
    destruct status, (_ =? 0)%nat, actionTime, (existsb mentionsMinTime rws); simpl;
      intros [= <-]; done.
Qed.

(** The sample user, with an entry validated two minutes before
    [sampleNow], is reported as free to leave, and the exit is denied. *)
Lemma verdict_and_reported_permissions_witness :
  canExit (fst (computeState sampleNow (withoutPending (sessionPending entrada))
                  (Some recentEntry) [])) = true
  /\ forall v,
       exitRules (fst (computeState sampleNow (withoutPending (sessionPending entrada))
                         (Some recentEntry) [])) = Some v ->
       isAllowed v = false.
Proof.
  destruct (verdict_and_reported_permissions sampleNow
              (withoutPending (sessionPending entrada)) (Some recentEntry) [] eq_refl)
    as (_ & Hexit & _).
  split; [vm_compute; reflexivity|].
  intros v Hv. rewrite (Hexit v Hv). vm_compute. reflexivity.
Defined.

(** ** Clearing the warnings of a user *)

(** X19. [clearUserWarnings] leaves an unknown user unknown and the other
    users as they are; for a known user it sets the warnings to 0 and
    lifts the block, keeping the incidents and the time of the last
    warning. The next evaluation of the user then passes the block check
    of step 1 with 0 warnings, and a well-formed log stays well formed. *)
Theorem clearUserWarnings_unblocks
    (now : Z) (phone : string) (log : gmap string UserLog) :
  (log !! phone = None -> clearUserWarnings phone log = log)
  /\ (forall other, other <> phone -> clearUserWarnings phone log !! other = log !! other)
  /\ (forall userLog,
        log !! phone = Some userLog ->
        clearUserWarnings phone log !! phone
        = Some {| warnings := 0; lastWarning := lastWarning userLog; isBlocked := false;
                  blockUntil := None; incidents := incidents userLog |})
  /\ fst (manageSuspiciousUser now phone [] (clearUserWarnings phone log))
     = {| us_isBlocked := false; us_warnings := Some 0; us_message := None |}
  /\ (logsWellFormed log -> logsWellFormed (clearUserWarnings phone log)).
Proof.
  unfold clearUserWarnings.
  destruct (log !! phone) as [userLog|] eqn:Hlog.
  - split; [done|]. split; [|split; [|split]].
    + intros other Hother. by rewrite lookup_insert_ne.
    + intros userLog' [= <-]. apply lookup_insert_eq.
    + unfold manageSuspiciousUser, userLogOf. rewrite lookup_insert_eq. done.
    + intros Hwf other otherLog. rewrite lookup_insert.
      case_decide as Hother; [|by apply Hwf].
      intros [= <-]. destruct (Hwf phone userLog Hlog) as (Hinc & _).
      unfold wellFormedLog, ADVANCED_FRAUD_CONFIG.MAX_WARNINGS_PER_USER. simpl.
      repeat split; try done; lia.
  - split; [done|]. split; [done|]. split; [done|]. split; [|done].
    unfold manageSuspiciousUser, userLogOf. by rewrite Hlog.
Qed.

(** ** The protocol of the pending requests *)

(** X20. A location from a user without a pending request changes
    nothing and is answered that nothing was pending. A location from a
    user with one consumes the request, whatever the verdict, and touches
    no request of another user. The command to cancel removes the request
    of the sender, tells which action was cancelled or that there was
    none, and writes nothing else. *)
Theorem pending_request_protocol
    (calculateDistance : Q -> Q -> Q -> Q -> Z) (numberToString : Q -> string)
    (zones : list Location) (env : Env) (message : IncomingMessage) (s : System) :
  (forall location,
     msg_location message = Some location ->
     pendingAttendanceRequests s !! msg_from message = None ->
     onMessage calculateDistance numberToString zones env message s
     = (Some NoPendingRequest, s))
  /\ (forall location,
        msg_location message = Some location ->
        pendingAttendanceRequests
          (snd (onMessage calculateDistance numberToString zones env message s))
          !! msg_from message = None
        /\ forall other,
             other <> msg_from message ->
             pendingAttendanceRequests
               (snd (onMessage calculateDistance numberToString zones env message s))
               !! other
             = pendingAttendanceRequests s !! other)
  /\ (msg_location message = None ->
      parseCommand (msg_body message) = CmdCancelar ->
      fst (onMessage calculateDistance numberToString zones env message s)
      = Some (match pendingAttendanceRequests s !! msg_from message with
              | Some cancelledAction => RegistrationCancelled cancelledAction
              | None => NothingToCancel
              end)
      /\ pendingAttendanceRequests
           (snd (onMessage calculateDistance numberToString zones env message s))
           !! msg_from message = None
      /\ attendance_records
           (snd (onMessage calculateDistance numberToString zones env message s))
         = attendance_records s
      /\ fraudStore (snd (onMessage calculateDistance numberToString zones env message s))
         = fraudStore s
      /\ stateControl
           (snd (onMessage calculateDistance numberToString zones env message s))
         = stateControl s).
Proof.
  unfold onMessage. split; [|split].
  - intros location -> Hnone. unfold onLocation. by rewrite Hnone.
  - intros location ->. unfold onLocation.
    destruct (pendingAttendanceRequests s !! msg_from message) as [pending|] eqn:Hp.
    + destruct (validateGPSLocationAdvanced _ _ _ _ _ _ _) as [[result|] store]; simpl;
        (split; [apply lookup_delete_eq|]);
        intros other Hother; by rewrite lookup_delete_ne.
    + done.
  - intros -> Hcmd. unfold onText. rewrite Hcmd.
    destruct (pendingAttendanceRequests s !! msg_from message) as [pending|] eqn:Hp;
      simpl; [|done].
    split; [done|]. split; [apply lookup_delete_eq|done].
Qed.

(** ** A location sent again and again *)

Lemma Qabs_of_zero (x : Q) : (x == 0)%Q -> (Qabs x == 0)%Q.
Proof. intros ->. reflexivity. Qed.

(** X21. A reading that repeats the coordinates of the last three
    readings of the user, no more than 1000 m from them by the distance
    function, draws exactly two flags from the history, IDENTICAL_LOCATIONS
    (HIGH) and LOW_GPS_VARIATION (MEDIUM), whatever the time stamps: on
    their own they make the risk MEDIUM, which does not reject. *)
Theorem replayed_location_is_medium_risk
    (calculateDistance : Q -> Q -> Q -> Q -> Z) (now : Z) (phone : string)
    (lat lng : Q) (timestamp : jsnum)
    (history : gmap string (list HistoryEntry))
    (older : list HistoryEntry) (e1 e2 e3 : HistoryEntry) :
  history !! phone = Some (older ++ [e1; e2; e3]) ->
  readingAt lat lng e1 = true ->
  readingAt lat lng e2 = true ->
  readingAt lat lng e3 = true ->
  calculateDistance (he_lat e3) (he_lng e3) lat lng <= 1000 ->
  exists count,
    fst (analyzeLocationHistory calculateDistance now phone lat lng timestamp history)
    = [{| flag_type := IDENTICAL_LOCATIONS; flag_severity := HIGH;
          flag_message := IdenticalDetected count |};
       {| flag_type := LOW_GPS_VARIATION; flag_severity := MEDIUM;
          flag_message := LowVariation |}]
    /\ evaluateFraudRisk
         (fst (analyzeLocationHistory calculateDistance now phone lat lng timestamp
                 history))
       = Risk_MEDIUM.
Proof.
  intros Hh H1 H2 H3 Hnear. unfold analyzeLocationHistory. simpl. rewrite Hh. simpl.
  set (entry := {| he_lat := lat; he_lng := lng; he_timestamp := _ |}).
  destruct (pushBounded_snoc 10 older [e1; e2; e3] entry) as [older' ->];
    [simpl; lia|].
  assert (identicalFlags (older' ++ [e1; e2; e3] ++ [entry])
          = [{| flag_type := IDENTICAL_LOCATIONS; flag_severity := HIGH;
                flag_message :=
                  IdenticalDetected (S (S (S (identicalRun entry (rev older')))) + 1) |}])
    as ->.
  { unfold identicalFlags.
    destruct (Nat.leb_spec 2 (length (older' ++ [e1; e2; e3] ++ [entry]))) as [_|Hshort];
      [|rewrite length_app in Hshort; simpl in Hshort; lia].
    rewrite rev_app_distr.
    cbn [rev app identicalRun].
    unfold sameCoordinates, entry. cbn [he_lat he_lng].
    unfold readingAt in H1, H2, H3. by rewrite H1, H2, H3. }
  assert (variationFlags (older' ++ [e1; e2; e3] ++ [entry])
          = [{| flag_type := LOW_GPS_VARIATION; flag_severity := MEDIUM;
                flag_message := LowVariation |}]) as ->.
  { unfold variationFlags, lastN.
    destruct (Nat.leb_spec 3 (length (older' ++ [e1; e2; e3] ++ [entry]))) as [_|Hshort];
      [|rewrite length_app in Hshort; simpl in Hshort; lia].
    replace (older' ++ [e1; e2; e3] ++ [entry])
      with ((older' ++ [e1]) ++ [e2; e3; entry]) by (by rewrite <- app_assoc).
    rewrite drop_app_length'
      by (rewrite !length_app; simpl; lia).
    unfold readingAt in H2, H3.
    apply andb_true_iff in H2 as [H2lat H2lng]. apply andb_true_iff in H3 as [H3lat H3lng].
    apply Qeq_bool_true in H2lat, H2lng, H3lat, H3lng.
    assert (Qltb (totalVariationOf [e2; e3; entry])
                 ADVANCED_FRAUD_CONFIG.MIN_GPS_VARIATION = true) as ->; [|done].
    apply Qltb_lt. unfold totalVariationOf, entry. cbn [he_lat he_lng].
    rewrite (Qabs_of_zero (he_lat e3 - he_lat e2)) by lra.
    rewrite (Qabs_of_zero (he_lng e3 - he_lng e2)) by lra.
    rewrite (Qabs_of_zero (lat - he_lat e3)) by lra.
    rewrite (Qabs_of_zero (lng - he_lng e3)) by lra.
    reflexivity. }
  assert (speedFlags calculateDistance (older' ++ [e1; e2; e3] ++ [entry]) = []) as ->.
  { replace (older' ++ [e1; e2; e3] ++ [entry])
      with ((older' ++ [e1; e2]) ++ [e3; entry]) by (by rewrite <- app_assoc).
    rewrite speedFlags_last_two. cbv zeta. unfold entry. cbn [he_lat he_lng].
    destruct (Z.ltb_spec 1000 (calculateDistance (he_lat e3) (he_lng e3) lat lng));
      [lia|]. by rewrite andb_false_r. }
  eexists. split; reflexivity.
Qed.

(** The fourth reading of the sample user from one spot. *)
Lemma replayed_location_is_medium_risk_witness :
  exists count,
    fst (analyzeLocationHistory sampleDistance sampleNow samplePhone
           (-37.370001)%Q (-59.110002)%Q (JNum 1699999820)
           (userLocationHistory repeatedStore))
    = [{| flag_type := IDENTICAL_LOCATIONS; flag_severity := HIGH;
          flag_message := IdenticalDetected count |};
       {| flag_type := LOW_GPS_VARIATION; flag_severity := MEDIUM;
          flag_message := LowVariation |}]
    /\ evaluateFraudRisk
         (fst (analyzeLocationHistory sampleDistance sampleNow samplePhone
                 (-37.370001)%Q (-59.110002)%Q (JNum 1699999820)
                 (userLocationHistory repeatedStore)))
       = Risk_MEDIUM.
Proof.
  refine (replayed_location_is_medium_risk sampleDistance sampleNow samplePhone
            (-37.370001)%Q (-59.110002)%Q (JNum 1699999820)
            (userLocationHistory repeatedStore) []
            {| he_lat := (-37.370001)%Q; he_lng := (-59.110002)%Q;
               he_timestamp := 1699999640%Q |}
            {| he_lat := (-37.370001)%Q; he_lng := (-59.110002)%Q;
               he_timestamp := 1699999700%Q |}
            {| he_lat := (-37.370001)%Q; he_lng := (-59.110002)%Q;
               he_timestamp := 1699999760%Q |} _ _ _ _ _);
    vm_compute; try reflexivity.
  discriminate.
Defined.

(** ** The distance formula at a zone centre *)

(** X22. With a [Math] library in which [sin 0 = 0], [sqrt 0 = 0], the
    square root of a positive number is positive and [atan2(0, y) = 0]
    for positive [y], the formula of [calculateDistance] gives 0 between
    a point and itself; so a reading taken at the centre of a zone of
    radius 0 or more is authorized, by that zone or by one listed before
    it. *)
Theorem zone_centre_is_authorized
    (M : MathLibrary) (zones : list Location) (z : Location) :
  (forall x, (x == 0 -> Math_sin M x == 0)%Q) ->
  (forall x, (x == 0 -> Math_sqrt M x == 0)%Q) ->
  (forall x, (0 < x -> 0 < Math_sqrt M x)%Q) ->
  (forall x y, (x == 0 -> 0 < y -> Math_atan2 M x y == 0)%Q) ->
  z ∈ zones ->
  0 <= loc_radius z ->
  haversine M (loc_lat z) (loc_lng z) (loc_lat z) (loc_lng z) = 0
  /\ exists z' d,
       isLocationAuthorized (haversine M) zones (loc_lat z) (loc_lng z)
       = Some (Authorized z' d)
       /\ z' ∈ zones
       /\ d <= loc_radius z'.
Proof.
  intros Hsin Hsqrt Hpos Hatan Hin Hradius.
  split; [by apply haversine_same_point|].
  destruct (zone_centre_authorized M Hsin Hsqrt Hpos Hatan zones z Hin Hradius)
    as (z' & d & Hauth).
  exists z', d. split; [exact Hauth|].
  unfold isLocationAuthorized in Hauth.
  destruct (firstAuthorized _ _ _ _) as [[z0 d0]|] eqn:Hfirst.
  - injection Hauth as <- <-.
    by apply firstAuthorized_inv in Hfirst as (? & _ & ?).
  - by destruct (closestFrom _ _ _ _ _) as [[? ?]|].
Qed.

(** The centre of the second zone of the source. *)
Lemma zone_centre_is_authorized_witness :
  haversine seriesMath (-37.37247355171709)%Q (-59.11563111651744)%Q
    (-37.37247355171709)%Q (-59.11563111651744)%Q = 0.
Proof.
  refine (proj1 (zone_centre_is_authorized seriesMath AUTHORIZED_LOCATIONS
                   {| loc_id := 2; loc_name := "Refugio del Valle";
                      loc_lat := (-37.37247355171709)%Q;
                      loc_lng := (-59.11563111651744)%Q;
                      loc_radius := 100 |} _ _ _ _ _ _)).
  - intros x Hx. simpl. rewrite Hx. reflexivity.
  - intros x Hx. simpl. apply Qeq_bool_true in Hx. by rewrite Hx.
  - intros x Hx. simpl.
    destruct (Qeq_bool x 0) eqn:Hz; [apply Qeq_bool_true in Hz; lra|].
    unfold Qdiv. change (/ 2)%Q with (1 # 2)%Q. lra.
  - intros x y Hx _. simpl. apply Qeq_bool_true in Hx. by rewrite Hx.
  - apply list_elem_of_further, list_elem_of_here.
  - simpl. lia.
Defined.

(** ** When the handler stops without a reply *)

Lemma isLocationAuthorized_throws (calculateDistance : Q -> Q -> Q -> Q -> Z)
    (zones : list Location) (userLat userLng : Q) :
  isLocationAuthorized calculateDistance zones userLat userLng = None -> zones = [].
Proof.
  unfold isLocationAuthorized.
  destruct (firstAuthorized _ _ _ _) as [[z d]|]; [done|].
  pose proof (closestFrom_closestOf calculateDistance userLat userLng zones [] None
                eq_refl) as Hclosest.
  by destruct (closestFrom _ _ _ _ _) as [[d z]|].
Qed.

Lemma validateGPSLocation_throws (calculateDistance : Q -> Q -> Q -> Q -> Z)
    (zones : list Location) (now : Z) (locationData : LocationData) :
  validateGPSLocation calculateDistance zones now locationData = None -> zones = [].
Proof.
  assert (forall ws,
            authorizeStep calculateDistance zones (ToNumber (latitude locationData))
              (ToNumber (longitude locationData)) ws = None ->
            zones = []) as Hauth.
  { intros ws. unfold authorizeStep.
    destruct (isLocationAuthorized _ _ _ _) as [[z d|d z]|] eqn:Hauth; try done.
    intros _. by apply isLocationAuthorized_throws in Hauth. }
  assert (forall ws,
            accuracyStep calculateDistance zones locationData ws = None -> zones = [])
    as Hacc.
  { intros ws. unfold accuracyStep.
    destruct (negb (is_undefined _)); [|apply Hauth].
    destruct (negb (chk_isValid _)); [done|apply Hauth]. }
  unfold validateGPSLocation.
  destruct (_ || _); [done|].
  destruct (truthy (timestamp locationData)); [|apply Hacc].
  destruct (negb (chk_isValid _)); [done|apply Hacc].
Qed.

Lemma advanced_throws (calculateDistance : Q -> Q -> Q -> Q -> Z)
    (numberToString : Q -> string) (zones : list Location) (now : Z)
    (locationData : LocationData) (phone : string) (store : FraudStore) :
  fst (validateGPSLocationAdvanced calculateDistance numberToString zones now
         locationData phone store) = None ->
  zones = [].
Proof.
  assert (forall flags risk,
            combineResults calculateDistance zones now locationData flags risk = None ->
            zones = []) as Hcombine.
  { intros flags risk. unfold combineResults.
    destruct (validateGPSLocation _ _ _ _) eqn:Hv; [done|].
    intros _. by apply validateGPSLocation_throws in Hv. }
  unfold validateGPSLocationAdvanced.
  destruct (manageSuspiciousUser now phone [] _) as [userStatus log1].
  destruct (us_isBlocked userStatus); [done|].
  destruct (_ || _); [done|].
  unfold analyzeLocationHistory.
  destruct (evaluateFraudRisk _); simpl; try apply Hcombine.
  destruct (manageSuspiciousUser now phone _ log1) as [userManagement log2].
  destruct (us_isBlocked userManagement); simpl; [done|apply Hcombine].
Qed.

(** X23. The validation logic makes the handler stop without a reply in
    two cases only. On the command [salida], when the state computed for
    the sender is OUT with validated exits today and no time of last
    action. On a location that answers a pending request, when the list
    of zones is empty. For every other message a reply is built. (The
    message log, the contact lookup and the sending itself are not part
    of the embedding.) *)
Theorem handler_always_replies_unless
    (calculateDistance : Q -> Q -> Q -> Q -> Z) (numberToString : Q -> string)
    (zones : list Location) (env : Env) (message : IncomingMessage) (s : System) :
  fst (onMessage calculateDistance numberToString zones env message s) = None ->
  (msg_location message = None
   /\ parseCommand (msg_body message) = CmdSalida
   /\ currentStatus
        (refreshedState env (attendance_records s) (msg_from message) (stateControl s))
      = OUT
   /\ (0 < todayExits
             (refreshedState env (attendance_records s) (msg_from message)
                (stateControl s)))%nat
   /\ lastActionTime
        (refreshedState env (attendance_records s) (msg_from message) (stateControl s))
      = None)
  \/ (zones = []
      /\ exists location pending,
           msg_location message = Some location
           /\ pendingAttendanceRequests s !! msg_from message = Some pending).
Proof.
  unfold onMessage.
  destruct (msg_location message) as [location|] eqn:Hloc.
  - unfold onLocation.
    destruct (pendingAttendanceRequests s !! msg_from message) as [pending|] eqn:Hp;
      [|done].
    destruct (validateGPSLocationAdvanced _ _ _ _ _ _ _) as [[result|] store] eqn:Hv;
      [done|].
    intros _. right. split; [|by eauto].
    eapply advanced_throws. by rewrite Hv.
  - assert (forall action,
              fst (onAttendanceCommand env (msg_from message) action s) = None ->
              decideAction (refreshedState env (attendance_records s) (msg_from message)
                              (stateControl s)) action = None) as Hcommand.
    { intros action. unfold onAttendanceCommand.
      rewrite <- validateAttendanceAction_decides.
      by destruct (validateAttendanceAction _ _ _ _ _) as [[v|] sc]. }
    unfold onText.
    destruct (parseCommand (msg_body message)) eqn:Hcmd; try done.
    + intros Hnone. apply Hcommand in Hnone. unfold decideAction, actionRules in Hnone.
      destruct (st_pendingAction _) as [pending|]; [|done].
      by destruct (negb _).
    + intros Hnone. apply Hcommand in Hnone. left.
      assert (exitRules (refreshedState env (attendance_records s) (msg_from message)
                           (stateControl s)) = None) as Hrules.
      { unfold decideAction, actionRules in Hnone.
        destruct (st_pendingAction _) as [pending|]; [|done].
        by destruct (negb _). }
      unfold exitRules in Hrules.
      destruct (currentStatus _); simpl in Hrules.
      * destruct (Nat.eqb_spec (todayExits (refreshedState env (attendance_records s)
                                              (msg_from message) (stateControl s))) 0);
          [done|].
        destruct (lastActionTime _); [done|].
        repeat split; try done. lia.
      * by destruct (hasMinTimeWarning _).
    + by destruct (pendingAttendanceRequests s !! msg_from message).
    + by destruct (getEmployeeCurrentState _ _ _ _ _).
    + by destruct (pendingAttendanceRequests s !! msg_from message).
Qed.

(** The command [salida] of the sample user after a validated exit and a
    rejected entry attempt is the first case. *)
Lemma handler_always_replies_unless_witness :
  (msg_location salidaMessage = None
   /\ parseCommand (msg_body salidaMessage) = CmdSalida
   /\ currentStatus
        (refreshedState sampleEnv (attendance_records (systemWith exitThenRejectedEntry))
           (msg_from salidaMessage) (stateControl (systemWith exitThenRejectedEntry)))
      = OUT
   /\ (0 < todayExits
             (refreshedState sampleEnv
                (attendance_records (systemWith exitThenRejectedEntry))
                (msg_from salidaMessage)
                (stateControl (systemWith exitThenRejectedEntry))))%nat
   /\ lastActionTime
        (refreshedState sampleEnv (attendance_records (systemWith exitThenRejectedEntry))
           (msg_from salidaMessage) (stateControl (systemWith exitThenRejectedEntry)))
      = None)
  \/ (AUTHORIZED_LOCATIONS = []
      /\ exists location pending,
           msg_location salidaMessage = Some location
           /\ pendingAttendanceRequests (systemWith exitThenRejectedEntry)
                !! msg_from salidaMessage = Some pending).
Proof.
  refine (handler_always_replies_unless sampleDistance decimalString AUTHORIZED_LOCATIONS
            sampleEnv salidaMessage (systemWith exitThenRejectedEntry) _).
  vm_compute. reflexivity.
Defined.

(** ** The first readings of a user *)

(** X24. The history analysis needs earlier readings to compare with: the
    first reading of a user draws no flag from it, and the second one can
    only draw the IMPOSSIBLE_SPEED flag. *)
Theorem first_readings_draw_few_flags
    (calculateDistance : Q -> Q -> Q -> Q -> Z) (now : Z) (phone : string)
    (lat lng : Q) (timestamp : jsnum) (history : gmap string (list HistoryEntry)) :
  (default [] (history !! phone) = [] ->
   fst (analyzeLocationHistory calculateDistance now phone lat lng timestamp history)
   = [])
  /\ (forall previous,
        default [] (history !! phone) = [previous] ->
        noFlagOfType IDENTICAL_LOCATIONS
          (fst (analyzeLocationHistory calculateDistance now phone lat lng timestamp
                  history))
        /\ noFlagOfType LOW_GPS_VARIATION
             (fst (analyzeLocationHistory calculateDistance now phone lat lng timestamp
                     history))).
Proof.
  unfold analyzeLocationHistory. simpl. split.
  - intros ->. reflexivity.
  - intros previous ->.
    unfold pushBounded, identicalFlags, variationFlags. simpl.
    destruct (sameCoordinates _ previous); simpl;
      split; apply (types_exclude IMPOSSIBLE_SPEED); try done;
      apply speedFlags_types.
Qed.

(** ** The phone number as it is displayed *)

Lemma substring_whole (s : string) : String.substring 0 (String.length s) s = s.
Proof. induction s as [|c s IH]; [done|]. simpl. by rewrite IH. Qed.

(** X25. [formatPhoneForDisplay] leaves a number of fewer than 10
    characters as it is. A longer one is cut into its first two
    characters, the next two, the next four and the rest, written after
    a plus sign with two blanks and a hyphen between them: no character
    of the number is dropped or moved. *)
Theorem formatPhoneForDisplay_keeps_digits (phoneNumber : string) :
  ((String.length phoneNumber < 10)%nat ->
   formatPhoneForDisplay phoneNumber = phoneNumber)
  /\ ((10 <= String.length phoneNumber)%nat ->
      exists a b c d,
        formatPhoneForDisplay phoneNumber
        = "+" +:+ a +:+ " " +:+ b +:+ " " +:+ c +:+ "-" +:+ d
        /\ a +:+ b +:+ c +:+ d = phoneNumber
        /\ String.length a = 2%nat
        /\ String.length b = 2%nat
        /\ String.length c = 4%nat).
Proof.
  unfold formatPhoneForDisplay. split.
  - intros Hshort.
    by destruct (Nat.leb_spec 10 (String.length phoneNumber)); [lia|].
  - intros Hlong.
    destruct (Nat.leb_spec 10 (String.length phoneNumber)) as [_|]; [|lia].
    destruct phoneNumber as [|c1 [|c2 [|c3 [|c4 [|c5 [|c6 [|c7 [|c8 rest]]]]]]]];
      simpl in Hlong; try lia.
    exists (String c1 (String c2 "")), (String c3 (String c4 "")),
      (String c5 (String c6 (String c7 (String c8 "")))), rest.
    split; [|done].
    cbn [String.length String.substring Nat.sub].
    rewrite !substring_whole.
    cbn [String.length String.substring Nat.sub].
    rewrite Nat.sub_0_r, substring_whole. by destruct rest.
Qed.

(** ** The speed between two readings *)



